(** * BookIt API: the booking scheduling core

    A shallow embedding of the booking conflict detector, the booking
    lifecycle handlers and the review gate of the BookIt REST backend,
    followed by the properties that its specification states about them.

    Sources embedded here:
    - [app/models/models.py]                      (rows and enumerations)
    - [app/schemas/schemas.py]                    (request bodies, validators)
    - [app/repositories/booking_repository.py]    (queries over bookings)
    - [app/repositories/service_repository.py]
    - [app/repositories/review_repository.py]
    - [app/api/v1/bookings.py]                    (booking handlers)
    - [app/api/v1/reviews.py]                     (review handlers)
*)

From Stdlib Require Import ZArith String Lia.
From stdpp Require Import base decidable option list sorting relations.

Open Scope Z_scope.

(** ** Data model ([models.py]) *)

Inductive UserRole := USER | ADMIN.

Inductive BookingStatus := PENDING | CONFIRMED | CANCELLED | COMPLETED.

#[global] Instance UserRole_eq_dec : EqDecision UserRole.
Proof. solve_decision. Defined.

#[global] Instance BookingStatus_eq_dec : EqDecision BookingStatus.
Proof. solve_decision. Defined.

(** A naive UTC [datetime] is a count of microseconds, the resolution of
    Python's [datetime]; [timedelta(minutes=m)] is [m] minutes in that unit. *)
Abbreviation datetime := Z.

Definition timedelta (minutes : Z) : Z := minutes * 60000000.

(** Instants are counted from [datetime.min], 0001-01-01T00:00:00;
    [datetime.max] is 9999-12-31T23:59:59.999999, the last microsecond of
    day 3652059. *)
Definition datetime_min : datetime := 0.

Definition datetime_max : datetime := 3652059 * 86400000000 - 1.

(** [timedelta(minutes=m)] raises [OverflowError] unless the number of
    whole days, rounded down, has magnitude at most 999999999. *)
Definition timedelta_in_range (minutes : Z) : Prop :=
  -999999999 <= minutes / 1440 <= 999999999.

(** [start_time + timedelta(minutes=m)] can be computed: the [timedelta]
    can be built and the sum is a [datetime]. *)
Definition representable (start_time : datetime) (minutes : Z) : Prop :=
  timedelta_in_range minutes
  /\ datetime_min <= start_time + timedelta minutes <= datetime_max.

#[global] Instance representable_dec start_time minutes :
  Decision (representable start_time minutes).
Proof. unfold representable, timedelta_in_range. apply _. Defined.

(** [timedelta(minutes=m)], [None] standing for [OverflowError]. *)
Definition timedelta_new (minutes : Z) : option Z :=
  if decide (timedelta_in_range minutes) then Some (timedelta minutes) else None.

(** [t + d] on a [datetime] and a [timedelta], [None] standing for
    [OverflowError]. *)
Definition datetime_add (t : datetime) (d : Z) : option datetime :=
  if decide (datetime_min <= t + d <= datetime_max) then Some (t + d) else None.

(** [start_time + timedelta(minutes=m)]. *)
Definition add_minutes (start_time : datetime) (minutes : Z) : option datetime :=
  match timedelta_new minutes with
  | Some d => datetime_add start_time d
  | None => None
  end.

(** The authenticated caller, as the identity collaborator supplies it. *)
Record User := mkUser {
  User_id : Z;
  User_role : UserRole
}.

(** Of a service row the booking core reads the key, the duration and the
    active flag. *)
Record Service := mkService {
  Service_id : Z;
  Service_duration_minutes : Z;
  Service_is_active : bool
}.

Record Booking := mkBooking {
  Booking_id : Z;
  Booking_user_id : Z;
  Booking_service_id : Z;
  Booking_start_time : datetime;
  Booking_end_time : datetime;
  Booking_status : BookingStatus;
  Booking_created_at : datetime
}.

(** A comment is a sequence of characters, one per element of the string. *)
Record Review := mkReview {
  Review_id : Z;
  Review_booking_id : Z;
  Review_rating : Z;
  Review_comment : string;
  Review_created_at : datetime
}.

(** The persistent store behind a [Session]: one list of rows per table, in
    insertion order. *)
Record Database := mkDatabase {
  services : list Service;
  bookings : list Booking;
  reviews : list Review
}.

(** ** Request bodies ([schemas.py]) *)

Record BookingCreate := mkBookingCreate {
  BookingCreate_service_id : Z;
  BookingCreate_start_time : datetime
}.

Record BookingUpdate := mkBookingUpdate {
  BookingUpdate_start_time : option datetime;
  BookingUpdate_status : option BookingStatus
}.

Record ReviewCreate := mkReviewCreate {
  ReviewCreate_booking_id : Z;
  ReviewCreate_rating : Z;
  ReviewCreate_comment : string
}.

(** A field of a [PATCH] body as [model_dump(exclude_unset=True)] sees it:
    left out of the body, sent as [null], or sent with a value. *)
Inductive Field (A : Type) : Type :=
  | Unset
  | Null
  | Value (a : A).

Arguments Unset {A}.
Arguments Null {A}.
Arguments Value {A} a.

Definition is_null {A} (f : Field A) : bool :=
  match f with
  | Null => true
  | _ => false
  end.

(** [setattr] with the value of a field that was sent. *)
Definition assign {A} (f : Field A) (old : A) : A :=
  match f with
  | Value a => a
  | _ => old
  end.

(** A constraint of a schema field: it binds a value that was sent. *)
Definition bound {A} (P : A -> Prop) (f : Field A) : Prop :=
  match f with
  | Value a => P a
  | _ => True
  end.

#[global] Instance bound_dec {A} (P : A -> Prop) `{!forall a, Decision (P a)}
  (f : Field A) : Decision (bound P f).
Proof. destruct f; apply _. Defined.

Record ReviewUpdate := mkReviewUpdate {
  ReviewUpdate_rating : Field Z;
  ReviewUpdate_comment : Field string
}.

(** Title, description and price are not columns of the modelled service
    row: of these three fields only the presence and the nullness are
    kept. *)
Record ServiceUpdate := mkServiceUpdate {
  ServiceUpdate_title : Field unit;
  ServiceUpdate_description : Field unit;
  ServiceUpdate_price : Field unit;
  ServiceUpdate_duration_minutes : Field Z;
  ServiceUpdate_is_active : Field bool
}.

(** ** Failures

    Every [HTTPException] a handler raises, named after the error taxonomy;
    [http_status] gives the status code the source attaches to it.
    [InternalError] stands for an exception no handler catches. *)
Inductive HTTPError :=
  | NotFound
  | Forbidden
  | InvalidState
  | AlreadyExists
  | Conflict
  | ValidationError
  | InternalError.

#[global] Instance HTTPError_eq_dec : EqDecision HTTPError.
Proof. solve_decision. Defined.

Definition http_status (e : HTTPError) : Z :=
  match e with
  | NotFound => 404
  | Forbidden => 403
  | InvalidState => 400
  | AlreadyExists => 400
  | Conflict => 409
  | ValidationError => 422
  | InternalError => 500
  end.

(** ** Handlers as store transformers

    A handler reads and commits to the store and either returns a value or
    raises.  A commit made before a later [raise] stays in the store, so the
    store is returned on both outcomes. *)
Definition Handler (A : Type) : Type := Database -> (HTTPError + A) * Database.

Definition ret {A} (a : A) : Handler A := fun db => (inr a, db).

Definition raise {A} (e : HTTPError) : Handler A := fun db => (inl e, db).

Definition bind {A B} (m : Handler A) (k : A -> Handler B) : Handler B :=
  fun db =>
    match m db with
    | (inl e, db') => (inl e, db')
    | (inr a, db') => k a db'
    end.

Definition query {A} (f : Database -> A) : Handler A := fun db => (inr (f db), db).

Declare Scope handler_scope.
Delimit Scope handler_scope with handler.
Notation "'let*' x ':=' m 'in' k" := (bind m (fun x => k))
  (at level 10, x name, m at level 100, k at level 200) : handler_scope.
Open Scope handler_scope.

(** The key the store gives a new row: one past the largest key in use. *)
Definition fresh_id (ids : list Z) : Z := 1 + foldr Z.max 0 ids.

(** ** Validators ([schemas.py]) *)

Module BookingCreateSchema.
(** [validate_start_time]: raises when [v < datetime.utcnow()]. *)
Definition validate_start_time (now v : datetime) : HTTPError + datetime :=
  if decide (v < now) then inl ValidationError else inr v.
End BookingCreateSchema.

Module BookingUpdateSchema.
(** [validate_start_time]: [if v and v < datetime.utcnow()]; a [datetime]
    is always truthy. *)
Definition validate_start_time (now : datetime) (v : option datetime)
  : HTTPError + option datetime :=
  match v with
  | Some t => if decide (t < now) then inl ValidationError else inr v
  | None => inr v
  end.
End BookingUpdateSchema.

Module ReviewCreateSchema.
(** [rating: int = Field(..., ge=1, le=5)] and
    [comment: str = Field(..., min_length=1, max_length=1000)]. *)
Definition validate (r : ReviewCreate) : HTTPError + ReviewCreate :=
  if decide (1 <= ReviewCreate_rating r /\ ReviewCreate_rating r <= 5) then
    if decide (1 <= Z.of_nat (String.length (ReviewCreate_comment r))
               /\ Z.of_nat (String.length (ReviewCreate_comment r)) <= 1000)
    then inr r
    else inl ValidationError
  else inl ValidationError.
End ReviewCreateSchema.

Module ReviewUpdateSchema.
(** [rating: Optional[int] = Field(None, ge=1, le=5)] and
    [comment: Optional[str] = Field(None, min_length=1, max_length=1000)]:
    the bounds apply to a value, [null] passes. *)
Definition validate (r : ReviewUpdate) : HTTPError + ReviewUpdate :=
  if decide (bound (fun v => 1 <= v /\ v <= 5) (ReviewUpdate_rating r)) then
    if decide (bound (fun c => 1 <= Z.of_nat (String.length c)
                               /\ Z.of_nat (String.length c) <= 1000)
                 (ReviewUpdate_comment r))
    then inr r
    else inl ValidationError
  else inl ValidationError.
End ReviewUpdateSchema.

(** ** Repositories *)

Module ServiceRepository.
Definition get_by_id (service_id : Z) (db : Database) : option Service :=
  head (filter (fun s => Service_id s = service_id) (services db)).

(** [setattr] for every field that was sent. *)
Definition set_attrs (service_data : ServiceUpdate) (s : Service) : Service :=
  {| Service_id := Service_id s;
     Service_duration_minutes :=
       assign (ServiceUpdate_duration_minutes service_data) (Service_duration_minutes s);
     Service_is_active :=
       assign (ServiceUpdate_is_active service_data) (Service_is_active s) |}.

(** [update(service, service_data)]: every column of the table is declared
    [nullable=False], so a field sent as [null] makes the commit raise and
    nothing is stored. *)
Definition update (service : Service) (service_data : ServiceUpdate)
  : Handler Service :=
  fun db =>
    if is_null (ServiceUpdate_title service_data)
       || is_null (ServiceUpdate_description service_data)
       || is_null (ServiceUpdate_price service_data)
       || is_null (ServiceUpdate_duration_minutes service_data)
       || is_null (ServiceUpdate_is_active service_data)
    then (inl InternalError, db)
    else
      (inr (set_attrs service_data service),
       {| services :=
            (fun s => if decide (Service_id s = Service_id service)
                      then set_attrs service_data s
                      else s) <$> services db;
          bookings := bookings db;
          reviews := reviews db |}).

(** [delete(service)]: the [Service.bookings] relationship (cascade: all,
    delete-orphan) takes the bookings of the service with it, and
    [Booking.review] takes their reviews. *)
Definition delete (service : Service) : Handler unit :=
  fun db =>
    let gone :=
      Booking_id <$> filter (fun b => Booking_service_id b = Service_id service)
                       (bookings db) in
    (inr tt,
     {| services := filter (fun s => Service_id s <> Service_id service) (services db);
        bookings := filter (fun b => Booking_service_id b <> Service_id service)
                      (bookings db);
        reviews := filter (fun r => Review_booking_id r ∉ gone) (reviews db) |}).
End ServiceRepository.

(** The three [and_] clauses of the [or_] in [check_conflict], for a row
    spanning [bs, be) and a candidate spanning [s, e). *)
Definition overlap_clauses (bs be s e : datetime) : Prop :=
  (bs <= s /\ be > s) \/ (bs < e /\ be >= e) \/ (bs >= s /\ be <= e).

#[global] Instance overlap_clauses_dec bs be s e : Decision (overlap_clauses bs be s e).
Proof. unfold overlap_clauses. apply _. Defined.

(** [Booking.status.in_([PENDING, CONFIRMED])]. *)
Definition blocking (st : BookingStatus) : Prop := st = PENDING \/ st = CONFIRMED.

#[global] Instance blocking_dec st : Decision (blocking st).
Proof. unfold blocking. apply _. Defined.

Module BookingRepository.

Definition get_by_id (booking_id : Z) (db : Database) : option Booking :=
  head (filter (fun b => Booking_id b = booking_id) (bookings db)).

(** [order_by(Booking.start_time.desc())]. *)
Definition start_time_desc (a b : Booking) : Prop :=
  Booking_start_time b <= Booking_start_time a.

#[global] Instance start_time_desc_dec a b : Decision (start_time_desc a b).
Proof. unfold start_time_desc. apply _. Defined.

Definition get_all (user_id : option Z) (status : option BookingStatus)
    (from_date to_date : option datetime) (db : Database) : list Booking :=
  let q := bookings db in
  let q := match user_id with
           | Some u => filter (fun b => Booking_user_id b = u) q
           | None => q
           end in
  let q := match status with
           | Some st => filter (fun b => Booking_status b = st) q
           | None => q
           end in
  let q := match from_date with
           | Some d => filter (fun b => Booking_start_time b >= d) q
           | None => q
           end in
  let q := match to_date with
           | Some d => filter (fun b => Booking_start_time b <= d) q
           | None => q
           end in
  merge_sort start_time_desc q.

(** The row filter of the query in [check_conflict]. *)
Definition conflict_row (service_id : Z) (start_time end_time : datetime)
    (b : Booking) : Prop :=
  Booking_service_id b = service_id
  /\ blocking (Booking_status b)
  /\ overlap_clauses (Booking_start_time b) (Booking_end_time b) start_time end_time.

#[global] Instance conflict_row_dec sid s e b : Decision (conflict_row sid s e b).
Proof. unfold conflict_row. apply _. Defined.

(** [if exclude_booking_id:] is a truth test: [None] and [0] both skip the
    extra filter. *)
Definition check_conflict (service_id : Z) (start_time end_time : datetime)
    (exclude_booking_id : option Z) (db : Database) : bool :=
  let q := filter (conflict_row service_id start_time end_time) (bookings db) in
  let q := match exclude_booking_id with
           | Some x =>
               if decide (x = 0) then q
               else filter (fun b => Booking_id b <> x) q
           | None => q
           end in
  match head q with
  | Some _ => true
  | None => false
  end.

(** [created_at] takes the column default [datetime.utcnow], read as [now]. *)
Definition create (user_id service_id : Z) (start_time end_time now : datetime)
  : Handler Booking :=
  fun db =>
    let booking :=
      {| Booking_id := fresh_id (Booking_id <$> bookings db);
         Booking_user_id := user_id;
         Booking_service_id := service_id;
         Booking_start_time := start_time;
         Booking_end_time := end_time;
         Booking_status := PENDING;
         Booking_created_at := now |} in
    (inr booking,
     {| services := services db;
        bookings := bookings db ++ [booking];
        reviews := reviews db |}).

(** [setattr] for each keyword whose value is not [None]. *)
Definition set_attrs (start_time end_time : option datetime)
    (status : option BookingStatus) (b : Booking) : Booking :=
  {| Booking_id := Booking_id b;
     Booking_user_id := Booking_user_id b;
     Booking_service_id := Booking_service_id b;
     Booking_start_time := default (Booking_start_time b) start_time;
     Booking_end_time := default (Booking_end_time b) end_time;
     Booking_status := default (Booking_status b) status;
     Booking_created_at := Booking_created_at b |}.

(** [update] with keyword arguments: the row keyed by [booking.id] takes the
    new attribute values on commit; the refreshed object is returned. *)
Definition update (booking : Booking) (start_time end_time : option datetime)
    (status : option BookingStatus) : Handler Booking :=
  fun db =>
    (inr (set_attrs start_time end_time status booking),
     {| services := services db;
        bookings :=
          (fun b => if decide (Booking_id b = Booking_id booking)
                    then set_attrs start_time end_time status b
                    else b) <$> bookings db;
        reviews := reviews db |}).

(** [delete(booking)]: the row goes, and with it the review that the
    [Booking.review] relationship reaches (cascade: all, delete-orphan). *)
Definition delete (booking : Booking) : Handler unit :=
  fun db =>
    (inr tt,
     {| services := services db;
        bookings := filter (fun b => Booking_id b <> Booking_id booking) (bookings db);
        reviews := filter (fun r => Review_booking_id r <> Booking_id booking) (reviews db) |}).

End BookingRepository.

Module ReviewRepository.

Definition get_by_booking_id (booking_id : Z) (db : Database) : option Review :=
  head (filter (fun r => Review_booking_id r = booking_id) (reviews db)).

(** The new row takes every field of [review_data]. *)
Definition create (review_data : ReviewCreate) (now : datetime) : Handler Review :=
  fun db =>
    let review :=
      {| Review_id := fresh_id (Review_id <$> reviews db);
         Review_booking_id := ReviewCreate_booking_id review_data;
         Review_rating := ReviewCreate_rating review_data;
         Review_comment := ReviewCreate_comment review_data;
         Review_created_at := now |} in
    (inr review,
     {| services := services db;
        bookings := bookings db;
        reviews := reviews db ++ [review] |}).

Definition get_by_id (review_id : Z) (db : Database) : option Review :=
  head (filter (fun r => Review_id r = review_id) (reviews db)).

(** [get_by_service_id]: the reviews joined to a booking of the service. *)
Definition get_by_service_id (service_id : Z) (db : Database) : list Review :=
  filter (fun r => Exists (fun b => Booking_id b = Review_booking_id r
                                    /\ Booking_service_id b = service_id)
                     (bookings db))
    (reviews db).

(** [setattr] for every field that was sent. *)
Definition set_attrs (review_data : ReviewUpdate) (r : Review) : Review :=
  {| Review_id := Review_id r;
     Review_booking_id := Review_booking_id r;
     Review_rating := assign (ReviewUpdate_rating review_data) (Review_rating r);
     Review_comment := assign (ReviewUpdate_comment review_data) (Review_comment r);
     Review_created_at := Review_created_at r |}.

(** [update(review, review_data)]: [rating] and [comment] are declared
    [nullable=False], so a field sent as [null] makes the commit raise and
    nothing is stored. *)
Definition update (review : Review) (review_data : ReviewUpdate) : Handler Review :=
  fun db =>
    if is_null (ReviewUpdate_rating review_data)
       || is_null (ReviewUpdate_comment review_data)
    then (inl InternalError, db)
    else
      (inr (set_attrs review_data review),
       {| services := services db;
          bookings := bookings db;
          reviews :=
            (fun r => if decide (Review_id r = Review_id review)
                      then set_attrs review_data r
                      else r) <$> reviews db |}).

Definition delete (review : Review) : Handler unit :=
  fun db =>
    (inr tt,
     {| services := services db;
        bookings := bookings db;
        reviews := filter (fun r => Review_id r <> Review_id review) (reviews db) |}).

End ReviewRepository.

(** ** Booking handlers ([api/v1/bookings.py]) *)

(** [POST /bookings].  The end time is computed before the conflict
    check; an [OverflowError] of that sum is not caught. *)
Definition create_booking (booking_data : BookingCreate) (current_user : User)
    (now : datetime) : Handler Booking :=
  let* service := query (ServiceRepository.get_by_id (BookingCreate_service_id booking_data)) in
  match service with
  | None => raise NotFound
  | Some service =>
      if negb (Service_is_active service) then raise InvalidState
      else
        match add_minutes (BookingCreate_start_time booking_data)
                (Service_duration_minutes service) with
        | None => raise InternalError
        | Some end_time =>
            let* has_conflict :=
              query (BookingRepository.check_conflict
                       (BookingCreate_service_id booking_data)
                       (BookingCreate_start_time booking_data) end_time None) in
            if (has_conflict : bool) then raise Conflict
            else
              BookingRepository.create (User_id current_user)
                (BookingCreate_service_id booking_data)
                (BookingCreate_start_time booking_data) end_time now
        end
  end.

(** [GET /bookings]: a non-admin caller is confined to their own bookings. *)
Definition get_bookings (status_filter : option BookingStatus)
    (from_date to_date : option datetime) (current_user : User)
  : Handler (list Booking) :=
  let user_id :=
    if decide (User_role current_user = ADMIN) then None
    else Some (User_id current_user) in
  query (BookingRepository.get_all user_id status_filter from_date to_date).

(** The block "Handle rescheduling" of [update_booking].  The guard
    [booking_data.start_time and is_owner] skips the block for a caller who
    is not the owner.  [service.duration_minutes] on a missing service is an
    uncaught exception, and so is an [OverflowError] of the new end time. *)
Definition handle_rescheduling (booking_data : BookingUpdate) (is_owner : bool)
    (booking : Booking) : Handler Booking :=
  match BookingUpdate_start_time booking_data with
  | Some start_time =>
      if is_owner then
        if decide (~ blocking (Booking_status booking)) then raise InvalidState
        else
          let* service := query (ServiceRepository.get_by_id (Booking_service_id booking)) in
          match service with
          | None => raise InternalError
          | Some service =>
              match add_minutes start_time (Service_duration_minutes service) with
              | None => raise InternalError
              | Some new_end_time =>
                  let* has_conflict :=
                    query (BookingRepository.check_conflict
                             (Booking_service_id booking) start_time new_end_time
                             (Some (Booking_id booking))) in
                  if (has_conflict : bool) then raise Conflict
                  else
                    BookingRepository.update booking
                      (Some start_time) (Some new_end_time) None
              end
          end
      else ret booking
  | None => ret booking
  end.

(** The block "Handle status update" of [update_booking]. *)
Definition handle_status_update (booking_data : BookingUpdate)
    (is_owner is_admin : bool) (booking : Booking) : Handler Booking :=
  match BookingUpdate_status booking_data with
  | Some status =>
      if is_admin then BookingRepository.update booking None None (Some status)
      else if is_owner && bool_decide (status = CANCELLED) then
        if decide (~ blocking (Booking_status booking)) then raise InvalidState
        else BookingRepository.update booking None None (Some CANCELLED)
      else raise Forbidden
  | None => ret booking
  end.

(** [PATCH /bookings/{booking_id}]. *)
Definition update_booking (booking_id : Z) (booking_data : BookingUpdate)
    (current_user : User) : Handler Booking :=
  let* booking := query (BookingRepository.get_by_id booking_id) in
  match booking with
  | None => raise NotFound
  | Some booking =>
      let is_owner := bool_decide (Booking_user_id booking = User_id current_user) in
      let is_admin := bool_decide (User_role current_user = ADMIN) in
      if negb is_owner && negb is_admin then raise Forbidden
      else
        let* booking := handle_rescheduling booking_data is_owner booking in
        let* booking := handle_status_update booking_data is_owner is_admin booking in
        ret booking
  end.

(** [DELETE /bookings/{booking_id}]; [now] is the reading of
    [datetime.utcnow()]. *)
Definition delete_booking (booking_id : Z) (current_user : User)
    (now : datetime) : Handler unit :=
  let* booking := query (BookingRepository.get_by_id booking_id) in
  match booking with
  | None => raise NotFound
  | Some booking =>
      let is_owner := bool_decide (Booking_user_id booking = User_id current_user) in
      let is_admin := bool_decide (User_role current_user = ADMIN) in
      if negb is_owner && negb is_admin then raise Forbidden
      else
        let* _ := (if is_owner && negb is_admin then
                   if decide (Booking_start_time booking <= now)
                   then raise InvalidState
                   else ret tt
                 else ret tt) in
        BookingRepository.delete booking
  end.

(** [GET /bookings/{booking_id}]. *)
Definition get_booking (booking_id : Z) (current_user : User) : Handler Booking :=
  let* booking := query (BookingRepository.get_by_id booking_id) in
  match booking with
  | None => raise NotFound
  | Some booking =>
      if bool_decide (Booking_user_id booking <> User_id current_user)
         && bool_decide (User_role current_user <> ADMIN)
      then raise Forbidden
      else ret booking
  end.

(** ** Review handler ([api/v1/reviews.py]) *)

(** [POST /reviews]. *)
Definition create_review (review_data : ReviewCreate) (current_user : User)
    (now : datetime) : Handler Review :=
  let* booking := query (BookingRepository.get_by_id (ReviewCreate_booking_id review_data)) in
  match booking with
  | None => raise NotFound
  | Some booking =>
      if decide (Booking_user_id booking <> User_id current_user) then raise Forbidden
      else if decide (Booking_status booking <> COMPLETED) then raise InvalidState
      else
        let* existing_review :=
          query (ReviewRepository.get_by_booking_id (ReviewCreate_booking_id review_data)) in
        match existing_review with
        | Some _ => raise AlreadyExists
        | None => ReviewRepository.create review_data now
        end
  end.

(** [GET /reviews/{review_id}]. *)
Definition get_review (review_id : Z) : Handler Review :=
  let* review := query (ReviewRepository.get_by_id review_id) in
  match review with
  | None => raise NotFound
  | Some review => ret review
  end.

(** [PATCH /reviews/{review_id}]; [booking.user_id] on a missing booking is
    an uncaught exception. *)
Definition update_review (review_id : Z) (review_data : ReviewUpdate)
    (current_user : User) : Handler Review :=
  let* review := query (ReviewRepository.get_by_id review_id) in
  match review with
  | None => raise NotFound
  | Some review =>
      let* booking := query (BookingRepository.get_by_id (Review_booking_id review)) in
      match booking with
      | None => raise InternalError
      | Some booking =>
          if decide (Booking_user_id booking <> User_id current_user)
          then raise Forbidden
          else ReviewRepository.update review review_data
      end
  end.

(** [DELETE /reviews/{review_id}]. *)
Definition delete_review (review_id : Z) (current_user : User) : Handler unit :=
  let* review := query (ReviewRepository.get_by_id review_id) in
  match review with
  | None => raise NotFound
  | Some review =>
      let* booking := query (BookingRepository.get_by_id (Review_booking_id review)) in
      match booking with
      | None => raise InternalError
      | Some booking =>
          let is_owner := bool_decide (Booking_user_id booking = User_id current_user) in
          let is_admin := bool_decide (User_role current_user = ADMIN) in
          if negb is_owner && negb is_admin then raise Forbidden
          else ReviewRepository.delete review
      end
  end.

(** ** Service handlers ([api/v1/services.py])

    The three mutating routes depend on [require_admin]; the bodies below
    run once that dependency has let the caller through. *)

(** [GET /services/{service_id}]. *)
Definition get_service (service_id : Z) : Handler Service :=
  let* service := query (ServiceRepository.get_by_id service_id) in
  match service with
  | None => raise NotFound
  | Some service => ret service
  end.

(** [PATCH /services/{service_id}]. *)
Definition update_service (service_id : Z) (service_data : ServiceUpdate)
  : Handler Service :=
  let* service := query (ServiceRepository.get_by_id service_id) in
  match service with
  | None => raise NotFound
  | Some service => ServiceRepository.update service service_data
  end.

(** [DELETE /services/{service_id}]. *)
Definition delete_service (service_id : Z) : Handler unit :=
  let* service := query (ServiceRepository.get_by_id service_id) in
  match service with
  | None => raise NotFound
  | Some service => ServiceRepository.delete service
  end.

(** [GET /services/{service_id}/reviews]. *)
Definition get_service_reviews (service_id : Z) : Handler (list Review) :=
  let* service := query (ServiceRepository.get_by_id service_id) in
  match service with
  | None => raise NotFound
  | Some _ => query (ReviewRepository.get_by_service_id service_id)
  end.

(** ** Endpoints

    The framework validates the request body against its schema before the
    handler body runs; a body that fails validation never reaches it. *)

Definition post_bookings (now : datetime) (booking_data : BookingCreate)
    (current_user : User) : Handler Booking :=
  match BookingCreateSchema.validate_start_time now
          (BookingCreate_start_time booking_data) with
  | inl e => raise e
  | inr _ => create_booking booking_data current_user now
  end.

Definition patch_booking (now : datetime) (booking_id : Z)
    (booking_data : BookingUpdate) (current_user : User) : Handler Booking :=
  match BookingUpdateSchema.validate_start_time now
          (BookingUpdate_start_time booking_data) with
  | inl e => raise e
  | inr _ => update_booking booking_id booking_data current_user
  end.

Definition post_reviews (now : datetime) (review_data : ReviewCreate)
    (current_user : User) : Handler Review :=
  match ReviewCreateSchema.validate review_data with
  | inl e => raise e
  | inr _ => create_review review_data current_user now
  end.

Definition patch_review (review_id : Z) (review_data : ReviewUpdate)
    (current_user : User) : Handler Review :=
  match ReviewUpdateSchema.validate review_data with
  | inl e => raise e
  | inr _ => update_review review_id review_data current_user
  end.

(** ** Specification-side notions *)

(** Half-open overlap of [s1, e1) and [s2, e2), as the specification
    writes it. *)
Definition half_open_overlap (s1 e1 s2 e2 : datetime) : Prop :=
  s1 < e2 /\ s2 < e1.

#[global] Instance half_open_overlap_dec s1 e1 s2 e2 :
  Decision (half_open_overlap s1 e1 s2 e2).
Proof. unfold half_open_overlap. apply _. Defined.

(** The rows [check_conflict] counts, with the exclusion spelled out. *)
Definition excluded_by (exclude_booking_id : option Z) (b : Booking) : Prop :=
  match exclude_booking_id with
  | Some x => x <> 0 /\ Booking_id b = x
  | None => False
  end.

#[global] Instance excluded_by_dec exclude b : Decision (excluded_by exclude b).
Proof. unfold excluded_by. destruct exclude; apply _. Defined.

(** The store with the cancelled and completed bookings taken out. *)
Definition without_terminal (db : Database) : Database :=
  {| services := services db;
     bookings := filter (fun b => blocking (Booking_status b)) (bookings db);
     reviews := reviews db |}.

(** What a request may never change of a booking: its key, its owner, its
    service and its creation time. *)
Definition same_identity (b b' : Booking) : Prop :=
  Booking_id b' = Booking_id b
  /\ Booking_user_id b' = Booking_user_id b
  /\ Booking_service_id b' = Booking_service_id b
  /\ Booking_created_at b' = Booking_created_at b.

(** The rest of the store is untouched: services, reviews and the bookings
    under every other key. *)
Definition same_elsewhere (booking_id : Z) (db db' : Database) : Prop :=
  services db' = services db
  /\ reviews db' = reviews db
  /\ forall j, j <> booking_id ->
       BookingRepository.get_by_id j db' = BookingRepository.get_by_id j db.

(** The store once a booking and the review that references it are gone. *)
Definition deleted (booking_id : Z) (db : Database) : Database :=
  {| services := services db;
     bookings := filter (fun b => Booking_id b <> booking_id) (bookings db);
     reviews := filter (fun r => Review_booking_id r <> booking_id) (reviews db) |}.

(** The reviews of a store that reference a given booking. *)
Definition reviews_of (booking_id : Z) (db : Database) : list Review :=
  filter (fun r => Review_booking_id r = booking_id) (reviews db).

(** What the request-body schema accepts. *)
Definition valid_review (r : ReviewCreate) : Prop :=
  (1 <= ReviewCreate_rating r <= 5)
  /\ (1 <= Z.of_nat (String.length (ReviewCreate_comment r)) <= 1000).

(** The [status], [from] and [to] filters of [GET /bookings]. *)
Definition matches_filters (status : option BookingStatus)
    (from_date to_date : option Z) (b : Booking) : Prop :=
  match status with Some st => Booking_status b = st | None => True end
  /\ match from_date with Some d => Booking_start_time b >= d | None => True end
  /\ match to_date with Some d => Booking_start_time b <= d | None => True end.

(** No two distinct rows of one service, both pending or confirmed, have
    overlapping windows. *)
Definition no_double_booking (l : list Booking) : Prop :=
  forall i j b1 b2,
    l !! i = Some b1 -> l !! j = Some b2 -> i <> j ->
    Booking_service_id b1 = Booking_service_id b2 ->
    blocking (Booking_status b1) -> blocking (Booking_status b2) ->
    ~ half_open_overlap (Booking_start_time b1) (Booking_end_time b1)
        (Booking_start_time b2) (Booking_end_time b2).

(** ** Accounts ([models.py], [user_repository.py], [auth.py], [users.py])

    The handlers of accounts read and write the table of users and no
    other; they are modelled over that table alone. *)

#[global] Instance string_eq_dec : EqDecision string := String.string_dec.

(** A row of the table of users. *)
Record UserRow := mkUserRow {
  UserRow_id : Z;
  UserRow_name : string;
  UserRow_email : string;
  UserRow_password_hash : string;
  UserRow_role : UserRole;
  UserRow_created_at : datetime
}.

Record UserRegister := mkUserRegister {
  UserRegister_name : string;
  UserRegister_email : string;
  UserRegister_password : string
}.

Record UserUpdate := mkUserUpdate {
  UserUpdate_name : option string;
  UserUpdate_email : option string
}.

Definition UserHandler (A : Type) : Type :=
  list UserRow -> (HTTPError + A) * list UserRow.

Module UserRepository.

Definition get_by_id (user_id : Z) (users : list UserRow) : option UserRow :=
  head (filter (fun u => UserRow_id u = user_id) users).

Definition get_by_email (email : string) (users : list UserRow) : option UserRow :=
  head (filter (fun u => UserRow_email u = email) users).

(** [role] and [created_at] take their column defaults. *)
Definition create (user_data : UserRegister) (password_hash : string)
    (now : datetime) : UserHandler UserRow :=
  fun users =>
    let user :=
      {| UserRow_id := fresh_id (UserRow_id <$> users);
         UserRow_name := UserRegister_name user_data;
         UserRow_email := UserRegister_email user_data;
         UserRow_password_hash := password_hash;
         UserRow_role := USER;
         UserRow_created_at := now |} in
    (inr user, users ++ [user]).

(** [name] and [email] are assigned when they are not [None]. *)
Definition set_attrs (user_data : UserUpdate) (u : UserRow) : UserRow :=
  {| UserRow_id := UserRow_id u;
     UserRow_name := default (UserRow_name u) (UserUpdate_name user_data);
     UserRow_email := default (UserRow_email u) (UserUpdate_email user_data);
     UserRow_password_hash := UserRow_password_hash u;
     UserRow_role := UserRow_role u;
     UserRow_created_at := UserRow_created_at u |}.

Definition update (user : UserRow) (user_data : UserUpdate) : UserHandler UserRow :=
  fun users =>
    (inr (set_attrs user_data user),
     (fun u => if decide (UserRow_id u = UserRow_id user)
               then set_attrs user_data u
               else u) <$> users).

End UserRepository.

(** [POST /auth/register]; [hash_password] belongs to the security module,
    which the handler takes as given. *)
Definition register (hash_password : string -> string) (user_data : UserRegister)
    (now : datetime) : UserHandler UserRow :=
  fun users =>
    match UserRepository.get_by_email (UserRegister_email user_data) users with
    | Some _ => (inl AlreadyExists, users)
    | None =>
        UserRepository.create user_data
          (hash_password (UserRegister_password user_data)) now users
    end.

(** [PATCH /me]; [if user_data.email:] is a truth test, which an empty
    string fails as [None] does. *)
Definition update_current_user (user_data : UserUpdate) (current_user : UserRow)
  : UserHandler UserRow :=
  fun users =>
    let taken :=
      match UserUpdate_email user_data with
      | Some email =>
          if decide (email = EmptyString) then false
          else
            match UserRepository.get_by_email email users with
            | Some existing_user =>
                bool_decide (UserRow_id existing_user <> UserRow_id current_user)
            | None => false
            end
      | None => false
      end in
    if taken then (inl AlreadyExists, users)
    else UserRepository.update current_user user_data users.

(** The accounts table as [models.py] declares it: [id] is the primary
    key and [email] is [unique]. *)
Definition unique_accounts (users : list UserRow) : Prop :=
  NoDup (UserRow_id <$> users) /\ NoDup (UserRow_email <$> users).

#[global] Instance unique_accounts_dec users : Decision (unique_accounts users).
Proof. unfold unique_accounts. apply _. Defined.

(** ** Store constraints ([models.py])

    What the table declarations ask of a store: primary keys, foreign keys,
    the unique [booking_id] of reviews and the three [CheckConstraint]s on
    durations, windows and ratings. *)

Definition unique_keys (db : Database) : Prop :=
  NoDup (Service_id <$> services db)
  /\ NoDup (Booking_id <$> bookings db)
  /\ NoDup (Review_id <$> reviews db).

Definition booking_has_service (db : Database) : Prop :=
  forall b, b ∈ bookings db ->
    exists s, s ∈ services db /\ Service_id s = Booking_service_id b.

Definition review_has_booking (db : Database) : Prop :=
  forall r, r ∈ reviews db ->
    exists b, b ∈ bookings db /\ Booking_id b = Review_booking_id r.

Definition one_review_per_booking (db : Database) : Prop :=
  NoDup (Review_booking_id <$> reviews db).

Definition positive_durations (db : Database) : Prop :=
  forall s, s ∈ services db -> Service_duration_minutes s > 0.

Definition valid_windows (db : Database) : Prop :=
  forall b, b ∈ bookings db -> Booking_end_time b > Booking_start_time b.

Definition valid_ratings (db : Database) : Prop :=
  forall r, r ∈ reviews db -> 1 <= Review_rating r <= 5.

(** ** Requests

    The mutating routes that are modelled, as one type of requests, each
    with the arguments its handler takes. *)
Inductive Request :=
  | CreateBooking (booking_data : BookingCreate) (current_user : User) (now : Z)
  | UpdateBooking (booking_id : Z) (booking_data : BookingUpdate) (current_user : User)
  | DeleteBooking (booking_id : Z) (current_user : User) (now : Z)
  | CreateReview (review_data : ReviewCreate) (current_user : User) (now : Z)
  | UpdateReview (review_id : Z) (review_data : ReviewUpdate) (current_user : User)
  | DeleteReview (review_id : Z) (current_user : User)
  | UpdateService (service_id : Z) (service_data : ServiceUpdate)
  | DeleteService (service_id : Z).

(** A handler run for its effect and its failure only. *)
Definition discard {A} (m : Handler A) : Handler unit :=
  fun db =>
    match m db with
    | (inl e, db') => (inl e, db')
    | (inr _, db') => (inr tt, db')
    end.

Definition run (r : Request) : Handler unit :=
  match r with
  | CreateBooking d u now => discard (create_booking d u now)
  | UpdateBooking i d u => discard (update_booking i d u)
  | DeleteBooking i u now => delete_booking i u now
  | CreateReview d u now => discard (create_review d u now)
  | UpdateReview i d u => discard (update_review i d u)
  | DeleteReview i u => delete_review i u
  | UpdateService i d => discard (update_service i d)
  | DeleteService i => delete_service i
  end.

(** What the body schemas guarantee of a request that reaches its handler,
    as far as the stored columns go: [duration_minutes] greater than 0 and
    [rating] between 1 and 5, whenever a value is sent. *)
Definition validated (r : Request) : Prop :=
  match r with
  | CreateReview d _ _ => 1 <= ReviewCreate_rating d <= 5
  | UpdateReview _ d _ => bound (fun v => 1 <= v <= 5) (ReviewUpdate_rating d)
  | UpdateService _ d => bound (fun v => v > 0) (ServiceUpdate_duration_minutes d)
  | _ => True
  end.

(** No field of the body was sent as [null]. *)
Definition without_null (r : Request) : Prop :=
  match r with
  | UpdateReview _ d _ =>
      is_null (ReviewUpdate_rating d) = false
      /\ is_null (ReviewUpdate_comment d) = false
  | UpdateService _ d =>
      is_null (ServiceUpdate_title d) = false
      /\ is_null (ServiceUpdate_description d) = false
      /\ is_null (ServiceUpdate_price d) = false
      /\ is_null (ServiceUpdate_duration_minutes d) = false
      /\ is_null (ServiceUpdate_is_active d) = false
  | _ => True
  end.

(** The request reaches the computation of an end time that is not
    representable: a creation for an active service, or a reschedule by
    the owner of a pending or confirmed booking whose service is stored. *)
Definition overflows (r : Request) (db : Database) : Prop :=
  match r with
  | CreateBooking d _ _ =>
      exists s,
        ServiceRepository.get_by_id (BookingCreate_service_id d) db = Some s
        /\ Service_is_active s = true
        /\ ~ representable (BookingCreate_start_time d) (Service_duration_minutes s)
  | UpdateBooking i d u =>
      exists b t s,
        BookingRepository.get_by_id i db = Some b
        /\ Booking_user_id b = User_id u
        /\ BookingUpdate_start_time d = Some t
        /\ blocking (Booking_status b)
        /\ ServiceRepository.get_by_id (Booking_service_id b) db = Some s
        /\ ~ representable t (Service_duration_minutes s)
  | _ => False
  end.

(** ** Writes

    The commits a handler can make, each with what the handler has
    established before it commits. *)
Inductive write (db : Database) : Database -> Prop :=
  | write_booking_created user_id service_id start_time now s :
      s ∈ services db ->
      Service_id s = service_id ->
      write db (snd (BookingRepository.create user_id service_id start_time
                       (start_time + timedelta (Service_duration_minutes s)) now db))
  | write_booking_times booking start_time s :
      s ∈ services db ->
      write db (snd (BookingRepository.update booking (Some start_time)
                       (Some (start_time + timedelta (Service_duration_minutes s)))
                       None db))
  | write_booking_status booking status :
      write db (snd (BookingRepository.update booking None None (Some status) db))
  | write_booking_deleted booking :
      write db (snd (BookingRepository.delete booking db))
  | write_review_created review_data now b :
      b ∈ bookings db ->
      Booking_id b = ReviewCreate_booking_id review_data ->
      ReviewRepository.get_by_booking_id (ReviewCreate_booking_id review_data) db = None ->
      write db (snd (ReviewRepository.create review_data now db))
  | write_review_updated review review_data db' :
      ReviewRepository.update review review_data db = (inr (ReviewRepository.set_attrs review_data review), db') ->
      write db db'
  | write_review_deleted review :
      write db (snd (ReviewRepository.delete review db))
  | write_service_updated service service_data db' :
      ServiceRepository.update service service_data db = (inr (ServiceRepository.set_attrs service_data service), db') ->
      write db db'
  | write_service_deleted service :
      write db (snd (ServiceRepository.delete service db)).

(** A [PATCH /bookings] body that names a start time and a status makes
    its handler commit twice; every other request commits at most once. *)
Definition single_commit (r : Request) : Prop :=
  match r with
  | UpdateBooking _ d _ =>
      BookingUpdate_start_time d = None \/ BookingUpdate_status d = None
  | _ => True
  end.

(** Two stores with the same bookings and reviews whose services have the
    same durations under every key. *)
Definition same_durations (db1 db2 : Database) : Prop :=
  bookings db1 = bookings db2
  /\ reviews db1 = reviews db2
  /\ forall j, Service_duration_minutes <$> ServiceRepository.get_by_id j db1
               = Service_duration_minutes <$> ServiceRepository.get_by_id j db2.

(** A sample store used by the concrete instances below: one active
    60-minute service, one inactive one, and four bookings of service 1,
    one in each status. *)
Definition hour : Z := timedelta 60.

Definition sample_db : Database :=
  {| services := [ mkService 1 60 true; mkService 2 30 false ];
     bookings :=
       [ mkBooking 1 10 1 (10 * hour) (11 * hour) PENDING 0;
         mkBooking 2 11 1 (12 * hour) (13 * hour) CONFIRMED 0;
         mkBooking 3 10 1 (14 * hour) (15 * hour) CANCELLED 0;
         mkBooking 4 10 1 (16 * hour) (17 * hour) COMPLETED 0;
         mkBooking 5 11 2 (10 * hour) (10 * hour + timedelta 30) PENDING 0 ];
     reviews := [ mkReview 1 4 5 "great" (18 * hour) ] |}.

(** The same store before any review was written. *)
Definition sample_db_unreviewed : Database :=
  {| services := services sample_db;
     bookings := bookings sample_db;
     reviews := [] |}.

(** A store whose one booking lies in the last hours of 9999-12-31:
    from 22:45 to 23:45 on the 60-minute service. *)
Definition last_day_db : Database :=
  {| services := [ mkService 1 60 true ];
     bookings :=
       [ mkBooking 1 10 1 (datetime_max + 1 - timedelta 75)
           (datetime_max + 1 - timedelta 15) PENDING 0 ];
     reviews := [] |}.

Definition alice : User := mkUser 10 USER.
Definition bob : User := mkUser 11 USER.
Definition root : User := mkUser 99 ADMIN.


Definition sample_users : list UserRow :=
  [ mkUserRow 10 "Alice" "alice@example.com" "h1" USER 0;
    mkUserRow 11 "Bob" "bob@example.com" "h2" USER 0;
    mkUserRow 99 "Root" "root@example.com" "h3" ADMIN 0 ].

Definition sample_hash (password : string) : string := ("#" ++ password)%string.

(** * Properties *)

(** ** Queries *)

Section Queries.
Context {A : Type} (P : A -> Prop) `{!forall x, Decision (P x)}.

(** [.first()] of a filtered query yields a row of the table that passes
    the filter. *)
Lemma first_row_passes (l : list A) (x : A) :
  head (filter P l) = Some x -> P x /\ x ∈ l.
Proof.
  intros Hhd. apply head_Some_elem_of in Hhd.
  by apply list_elem_of_filter in Hhd.
Qed.

(** A row that passes the filter makes [.first()] return some row. *)
Lemma first_row_exists (l : list A) (x : A) :
  x ∈ l -> P x -> exists y, head (filter P l) = Some y.
Proof.
  intros Hin HP.
  destruct (filter P l) as [|y k] eqn:Hf; [|by exists y].
  assert (Hx : x ∈ filter P l) by (apply list_elem_of_filter; done).
  rewrite Hf in Hx. by apply elem_of_nil in Hx.
Qed.

(** [.first()] is [None] exactly when no row passes the filter. *)
Lemma no_first_row (l : list A) :
  head (filter P l) = None <-> forall x, x ∈ l -> ~ P x.
Proof.
  rewrite head_None. split.
  - intros Hnil x Hin HP.
    assert (Hx : x ∈ filter P l) by (apply list_elem_of_filter; done).
    rewrite Hnil in Hx. by apply elem_of_nil in Hx.
  - intros Hno. apply elem_of_nil_inv. intros x Hx.
    apply list_elem_of_filter in Hx as [HP Hin]. by apply (Hno x).
Qed.
End Queries.

Lemma check_conflict_true service_id start_time end_time exclude db :
  BookingRepository.check_conflict service_id start_time end_time exclude db = true
  <-> exists b, b ∈ bookings db
             /\ BookingRepository.conflict_row service_id start_time end_time b
             /\ ~ excluded_by exclude b.
Proof.
  unfold BookingRepository.check_conflict, excluded_by.
  destruct exclude as [x|]; [destruct (decide (x = 0)) as [->|Hx]|].
  - destruct (head _) as [b|] eqn:Hhd; split; try done.
    + intros _. apply first_row_passes in Hhd as [Hrow Hin].
      exists b. split; [done|]. split; [done|]. intros [H0 _]. by apply H0.
    + intros (b' & Hin & Hrow & _).
      apply (first_row_exists _ _ _ Hin) in Hrow as [y Hy]. congruence.
  - rewrite list_filter_filter.
    destruct (head _) as [b|] eqn:Hhd; split; try done.
    + intros _. apply first_row_passes in Hhd as [[Hne Hrow] Hin].
      exists b. split; [done|]. split; [done|]. intros [_ H1]. by apply Hne.
    + intros (b' & Hin & Hrow & Hex).
      assert (Hne : Booking_id b' <> x) by (intros Heq; apply Hex; done).
      pose proof (first_row_exists
        (fun a => Booking_id a <> x
                  /\ BookingRepository.conflict_row service_id start_time end_time a)
        _ _ Hin (conj Hne Hrow)) as [y Hy].
      congruence.
  - destruct (head _) as [b|] eqn:Hhd; split; try done.
    + intros _. apply first_row_passes in Hhd as [Hrow Hin].
      exists b. split; [done|]. split; [done|]. intros [].
    + intros (b' & Hin & Hrow & _).
      apply (first_row_exists _ _ _ Hin) in Hrow as [y Hy]. congruence.
Qed.

Lemma check_conflict_false service_id start_time end_time exclude db :
  BookingRepository.check_conflict service_id start_time end_time exclude db = false
  <-> forall b, b ∈ bookings db ->
        BookingRepository.conflict_row service_id start_time end_time b ->
        excluded_by exclude b.
Proof.
  rewrite <- not_true_iff_false, check_conflict_true. split.
  - intros Hno b Hin Hrow.
    destruct (decide (excluded_by exclude b)) as [|Hn]; [done|].
    exfalso. apply Hno. by exists b.
  - intros Hall (b & Hin & Hrow & Hn). by apply Hn, Hall.
Qed.

(** Half-open overlap implies the three clauses, for any two windows. *)
Lemma half_open_overlap_clauses (s1 e1 s2 e2 : Z) :
  half_open_overlap s1 e1 s2 e2 -> overlap_clauses s2 e2 s1 e1.
Proof. unfold half_open_overlap, overlap_clauses. lia. Qed.

(** ** The overlap test *)

(** C2: for non-degenerate windows [s1, e1) (the candidate) and [s2, e2)
    (a stored booking), the three-clause test of [check_conflict] holds
    exactly when the half-open overlap test [s1 < e2 /\ s2 < e1] holds. *)
Theorem overlap_clauses_iff_half_open (s1 e1 s2 e2 : Z) :
  e1 > s1 -> e2 > s2 ->
  overlap_clauses s2 e2 s1 e1 <-> half_open_overlap s1 e1 s2 e2.
Proof. unfold half_open_overlap, overlap_clauses. lia. Qed.

Lemma overlap_clauses_iff_half_open_witness :
  (11 * hour > 10 * hour) /\ (12 * hour > 11 * hour)
  /\ (overlap_clauses (11 * hour) (12 * hour) (10 * hour) (11 * hour)
      <-> half_open_overlap (10 * hour) (11 * hour) (11 * hour) (12 * hour)).
Proof.
  split; [reflexivity|]. split; [reflexivity|].
  apply (overlap_clauses_iff_half_open (10 * hour) (11 * hour) (11 * hour) (12 * hour));
    reflexivity.
Defined.

(** ** The handlers, one branch at a time *)

(** The sum [start_time + timedelta(minutes=m)] is computed exactly when
    it is representable, and is then the sum of the two counts. *)
Lemma add_minutes_representable start_time minutes :
  add_minutes start_time minutes
  = if decide (representable start_time minutes)
    then Some (start_time + timedelta minutes)
    else None.
Proof.
  unfold add_minutes, timedelta_new, datetime_add, representable.
  destruct (decide (timedelta_in_range minutes)) as [Hd|Hd].
  - destruct (decide (datetime_min <= _ <= datetime_max)) as [Hr|Hr].
    + by rewrite decide_True.
    + rewrite decide_False; [done|]. by intros [_ ?].
  - rewrite decide_False; [done|]. by intros [? _].
Qed.

Lemma create_booking_unfold booking_data current_user now db :
  create_booking booking_data current_user now db =
  match ServiceRepository.get_by_id (BookingCreate_service_id booking_data) db with
  | None => (inl NotFound, db)
  | Some service =>
      if negb (Service_is_active service) then (inl InvalidState, db)
      else if decide (representable (BookingCreate_start_time booking_data)
                        (Service_duration_minutes service))
      then
        if BookingRepository.check_conflict
                (BookingCreate_service_id booking_data)
                (BookingCreate_start_time booking_data)
                (BookingCreate_start_time booking_data
                 + timedelta (Service_duration_minutes service)) None db
        then (inl Conflict, db)
        else BookingRepository.create (User_id current_user)
               (BookingCreate_service_id booking_data)
               (BookingCreate_start_time booking_data)
               (BookingCreate_start_time booking_data
                + timedelta (Service_duration_minutes service)) now db
      else (inl InternalError, db)
  end.
Proof.
  unfold create_booking, bind, query, raise.
  destruct (ServiceRepository.get_by_id _ db) as [service|]; [|done].
  destruct (negb (Service_is_active service)); [done|].
  rewrite add_minutes_representable.
  destruct (decide (representable _ _)); [|done].
  by destruct (BookingRepository.check_conflict _ _ _ _ db).
Qed.

Lemma handle_rescheduling_unfold booking_data is_owner booking db :
  handle_rescheduling booking_data is_owner booking db =
  match BookingUpdate_start_time booking_data with
  | Some start_time =>
      if is_owner then
        if decide (~ blocking (Booking_status booking)) then (inl InvalidState, db)
        else
          match ServiceRepository.get_by_id (Booking_service_id booking) db with
          | None => (inl InternalError, db)
          | Some service =>
              if decide (representable start_time (Service_duration_minutes service))
              then
                if BookingRepository.check_conflict (Booking_service_id booking)
                     start_time
                     (start_time + timedelta (Service_duration_minutes service))
                     (Some (Booking_id booking)) db
                then (inl Conflict, db)
                else BookingRepository.update booking (Some start_time)
                       (Some (start_time + timedelta (Service_duration_minutes service)))
                       None db
              else (inl InternalError, db)
          end
      else (inr booking, db)
  | None => (inr booking, db)
  end.
Proof.
  unfold handle_rescheduling, bind, query, raise, ret.
  destruct (BookingUpdate_start_time booking_data) as [start_time|]; [|done].
  destruct is_owner; [|done].
  destruct (decide (~ blocking (Booking_status booking))); [done|].
  destruct (ServiceRepository.get_by_id _ db) as [service|]; [|done].
  rewrite add_minutes_representable.
  destruct (decide (representable _ _)); [|done].
  by destruct (BookingRepository.check_conflict _ _ _ _ db).
Qed.

Lemma handle_status_update_unfold booking_data is_owner is_admin booking db :
  handle_status_update booking_data is_owner is_admin booking db =
  match BookingUpdate_status booking_data with
  | Some status =>
      if is_admin then BookingRepository.update booking None None (Some status) db
      else if is_owner && bool_decide (status = CANCELLED) then
        if decide (~ blocking (Booking_status booking)) then (inl InvalidState, db)
        else BookingRepository.update booking None None (Some CANCELLED) db
      else (inl Forbidden, db)
  | None => (inr booking, db)
  end.
Proof.
  unfold handle_status_update, raise, ret.
  destruct (BookingUpdate_status booking_data) as [status|]; [|done].
  destruct is_admin; [done|].
  destruct (is_owner && bool_decide (status = CANCELLED)); [|done].
  by destruct (decide (~ blocking (Booking_status booking))).
Qed.

Lemma update_booking_unfold booking_id booking_data current_user db :
  update_booking booking_id booking_data current_user db =
  match BookingRepository.get_by_id booking_id db with
  | None => (inl NotFound, db)
  | Some booking =>
      let is_owner := bool_decide (Booking_user_id booking = User_id current_user) in
      let is_admin := bool_decide (User_role current_user = ADMIN) in
      if negb is_owner && negb is_admin then (inl Forbidden, db)
      else
        match handle_rescheduling booking_data is_owner booking db with
        | (inl e, db') => (inl e, db')
        | (inr booking', db') =>
            handle_status_update booking_data is_owner is_admin booking' db'
        end
  end.
Proof.
  unfold update_booking, bind, query, raise, ret.
  destruct (BookingRepository.get_by_id booking_id db) as [booking|]; [|done].
  cbv zeta.
  destruct (negb _ && negb _); [done|].
  destruct (handle_rescheduling _ _ _ db) as [[e|booking'] db']; [done|].
  by destruct (handle_status_update _ _ _ booking' db') as [[e|b''] db''].
Qed.

(** ** Conflict detection *)

(** C1, as written, fails: a creation on an inactive service whose window
    overlaps a pending booking of that service is refused with
    [InvalidState]; a reschedule of a cancelled booking into the window of
    a confirmed one is refused with [InvalidState]; an administrator
    who does not own the booking sends an overlapping [start_time] with a
    status, the request succeeds and the booking is modified; and a
    creation or a reschedule at 23:30 on 9999-12-31, whose window would
    overlap a pending booking from 22:45 to 23:45, ends in the uncaught
    [OverflowError] of the end time. *)
Lemma overlapping_attempt_without_Conflict :
  ((mkBooking 5 11 2 (10 * hour) (10 * hour + timedelta 30) PENDING 0) ∈ bookings sample_db
   /\ half_open_overlap (10 * hour) (10 * hour + timedelta 30)
        (10 * hour) (10 * hour + timedelta 30)
   /\ create_booking (mkBookingCreate 2 (10 * hour)) alice 0 sample_db
      = (inl InvalidState, sample_db))
  /\ ((mkBooking 2 11 1 (12 * hour) (13 * hour) CONFIRMED 0) ∈ bookings sample_db
      /\ half_open_overlap (12 * hour) (12 * hour + timedelta 60) (12 * hour) (13 * hour)
      /\ update_booking 3 (mkBookingUpdate (Some (12 * hour)) None) alice sample_db
         = (inl InvalidState, sample_db)
      /\ fst (update_booking 1 (mkBookingUpdate (Some (12 * hour)) (Some COMPLETED))
                root sample_db)
         = inr (mkBooking 1 10 1 (10 * hour) (11 * hour) COMPLETED 0)
      /\ snd (update_booking 1 (mkBookingUpdate (Some (12 * hour)) (Some COMPLETED))
                root sample_db)
         <> sample_db)
  /\ ((mkBooking 1 10 1 (datetime_max + 1 - timedelta 75)
         (datetime_max + 1 - timedelta 15) PENDING 0) ∈ bookings last_day_db
      /\ half_open_overlap
           (datetime_max + 1 - timedelta 30)
           (datetime_max + 1 - timedelta 30 + timedelta 60)
           (datetime_max + 1 - timedelta 75) (datetime_max + 1 - timedelta 15)
      /\ create_booking (mkBookingCreate 1 (datetime_max + 1 - timedelta 30)) bob 0
           last_day_db
         = (inl InternalError, last_day_db)
      /\ update_booking 2
           (mkBookingUpdate (Some (datetime_max + 1 - timedelta 30)) None) bob
           {| services := services last_day_db;
              bookings := bookings last_day_db
                          ++ [mkBooking 2 11 1 (10 * hour) (11 * hour) CONFIRMED 0];
              reviews := [] |}
         = (inl InternalError,
            {| services := services last_day_db;
               bookings := bookings last_day_db
                           ++ [mkBooking 2 11 1 (10 * hour) (11 * hour) CONFIRMED 0];
               reviews := [] |})).
Proof.
  split; [|split].
  - split; [|split].
    + apply list_elem_of_In. vm_compute. tauto.
    + by vm_compute.
    + reflexivity.
  - split; [|split; [|split; [|split]]].
    + apply list_elem_of_In. vm_compute. tauto.
    + by vm_compute.
    + reflexivity.
    + reflexivity.
    + vm_compute. discriminate.
  - split; [|split; [|split]].
    + apply list_elem_of_In. vm_compute. tauto.
    + by vm_compute.
    + reflexivity.
    + reflexivity.
Qed.

(** C1 (amended): on a store [db],
    - a creation for an existing, active service whose end time
      [start + duration] is representable and whose window
      [start, start + duration) overlaps a pending or confirmed booking of
      that service fails with [Conflict] and leaves the store as it was;
    - a reschedule by the owner of a pending or confirmed booking whose new
      end time is representable and whose new window overlaps another
      pending or confirmed booking of the same service fails with
      [Conflict] and leaves the store as it was;
    - the conflict check gives the same answer once every cancelled and
      completed booking is taken out of the store, and a creation for an
      active service with a representable end time succeeds when every
      booking of that service is cancelled or completed;
    - when the end time is not representable, the creation for an active
      service and the owner's reschedule of a pending or confirmed booking
      end in the uncaught [OverflowError], whatever the store holds, and
      leave the store as it was. *)
Theorem overlapping_window_raises_Conflict (db : Database) :
  (forall booking_data current_user now service b,
      ServiceRepository.get_by_id (BookingCreate_service_id booking_data) db
        = Some service ->
      Service_is_active service = true ->
      representable (BookingCreate_start_time booking_data)
        (Service_duration_minutes service) ->
      b ∈ bookings db ->
      Booking_service_id b = BookingCreate_service_id booking_data ->
      blocking (Booking_status b) ->
      half_open_overlap
        (BookingCreate_start_time booking_data)
        (BookingCreate_start_time booking_data
         + timedelta (Service_duration_minutes service))
        (Booking_start_time b) (Booking_end_time b) ->
      create_booking booking_data current_user now db = (inl Conflict, db))
  /\ (forall booking_id start_time status current_user booking service b,
      BookingRepository.get_by_id booking_id db = Some booking ->
      Booking_user_id booking = User_id current_user ->
      blocking (Booking_status booking) ->
      ServiceRepository.get_by_id (Booking_service_id booking) db = Some service ->
      representable start_time (Service_duration_minutes service) ->
      b ∈ bookings db ->
      Booking_id b <> Booking_id booking ->
      Booking_service_id b = Booking_service_id booking ->
      blocking (Booking_status b) ->
      half_open_overlap
        start_time (start_time + timedelta (Service_duration_minutes service))
        (Booking_start_time b) (Booking_end_time b) ->
      update_booking booking_id (mkBookingUpdate (Some start_time) status)
        current_user db = (inl Conflict, db))
  /\ (forall service_id start_time end_time exclude,
      BookingRepository.check_conflict service_id start_time end_time exclude db
      = BookingRepository.check_conflict service_id start_time end_time exclude
          (without_terminal db))
  /\ (forall booking_data current_user now service,
      ServiceRepository.get_by_id (BookingCreate_service_id booking_data) db
        = Some service ->
      Service_is_active service = true ->
      representable (BookingCreate_start_time booking_data)
        (Service_duration_minutes service) ->
      (forall b, b ∈ bookings db ->
         Booking_service_id b = BookingCreate_service_id booking_data ->
         Booking_status b = CANCELLED \/ Booking_status b = COMPLETED) ->
      exists booking,
        create_booking booking_data current_user now db
        = (inr booking,
           {| services := services db;
              bookings := bookings db ++ [booking];
              reviews := reviews db |}))
  /\ (forall booking_data current_user now service,
      ServiceRepository.get_by_id (BookingCreate_service_id booking_data) db
        = Some service ->
      Service_is_active service = true ->
      ~ representable (BookingCreate_start_time booking_data)
          (Service_duration_minutes service) ->
      create_booking booking_data current_user now db = (inl InternalError, db))
  /\ (forall booking_id start_time status current_user booking service,
      BookingRepository.get_by_id booking_id db = Some booking ->
      Booking_user_id booking = User_id current_user ->
      blocking (Booking_status booking) ->
      ServiceRepository.get_by_id (Booking_service_id booking) db = Some service ->
      ~ representable start_time (Service_duration_minutes service) ->
      update_booking booking_id (mkBookingUpdate (Some start_time) status)
        current_user db = (inl InternalError, db)).
Proof.
  split; [|split; [|split; [|split; [|split]]]].
  - intros booking_data current_user now service b Hsvc Hact Hrep Hin Hsid Hst Hov.
    rewrite create_booking_unfold, Hsvc, Hact. cbn [negb].
    rewrite (decide_True _ _ Hrep).
    replace (BookingRepository.check_conflict _ _ _ _ db) with true; [done|].
    symmetry. apply check_conflict_true. exists b.
    split; [done|]. split; [|by intros []].
    split; [done|]. split; [done|]. by apply half_open_overlap_clauses.
  - intros booking_id start_time status current_user booking service b
      Hget Hown Hst Hsvc Hrep Hin Hne Hsid Hstb Hov.
    rewrite update_booking_unfold, Hget. cbv zeta.
    rewrite (bool_decide_eq_true_2 _ Hown). cbn [negb andb].
    rewrite handle_rescheduling_unfold. cbn [BookingUpdate_start_time].
    destruct (decide (~ blocking (Booking_status booking))) as [Hn|_]; [done|].
    rewrite Hsvc, (decide_True _ _ Hrep).
    replace (BookingRepository.check_conflict _ _ _ _ db) with true; [done|].
    symmetry. apply check_conflict_true. exists b.
    split; [done|]. split; [|by intros [_ ?]].
    split; [done|]. split; [done|]. by apply half_open_overlap_clauses.
  - intros service_id start_time end_time exclude.
    apply eq_true_iff_eq. rewrite !check_conflict_true.
    unfold without_terminal. cbn [bookings].
    split; intros (b & Hin & Hrow & Hex); exists b; (split; [|done]).
    + apply list_elem_of_filter. split; [|done]. by destruct Hrow as (_ & ? & _).
    + by apply list_elem_of_filter in Hin as [_ ?].
  - intros booking_data current_user now service Hsvc Hact Hrep Hall.
    rewrite create_booking_unfold, Hsvc, Hact. cbn [negb].
    rewrite (decide_True _ _ Hrep).
    replace (BookingRepository.check_conflict _ _ _ _ db) with false.
    + eexists. reflexivity.
    + symmetry. apply check_conflict_false.
      intros b Hin (Hsid & Hst & _). exfalso.
      destruct (Hall b Hin Hsid) as [Hc|Hc]; rewrite Hc in Hst;
        by destruct Hst.
  - intros booking_data current_user now service Hsvc Hact Hrep.
    rewrite create_booking_unfold, Hsvc, Hact. cbn [negb].
    by rewrite (decide_False _ _ Hrep).
  - intros booking_id start_time status current_user booking service
      Hget Hown Hst Hsvc Hrep.
    rewrite update_booking_unfold, Hget. cbv zeta.
    rewrite (bool_decide_eq_true_2 _ Hown). cbn [negb andb].
    rewrite handle_rescheduling_unfold. cbn [BookingUpdate_start_time].
    destruct (decide (~ blocking (Booking_status booking))) as [Hn|_]; [done|].
    by rewrite Hsvc, (decide_False _ _ Hrep).
Qed.

Lemma overlapping_window_raises_Conflict_witness :
  create_booking (mkBookingCreate 1 (10 * hour + timedelta 30)) bob 0 sample_db
    = (inl Conflict, sample_db)
  /\ update_booking 1 (mkBookingUpdate (Some (11 * hour + 1)) None) alice sample_db
     = (inl Conflict, sample_db)
  /\ (exists booking,
        create_booking (mkBookingCreate 1 (14 * hour)) bob 0
          (mkDatabase [mkService 1 60 true]
             [mkBooking 3 10 1 (14 * hour) (15 * hour) CANCELLED 0;
              mkBooking 4 10 1 (14 * hour) (15 * hour) COMPLETED 0] [])
        = (inr booking,
           mkDatabase [mkService 1 60 true]
             ([mkBooking 3 10 1 (14 * hour) (15 * hour) CANCELLED 0;
               mkBooking 4 10 1 (14 * hour) (15 * hour) COMPLETED 0] ++ [booking])
             []))
  /\ create_booking (mkBookingCreate 1 (datetime_max + 1 - timedelta 30)) bob 0
       last_day_db
     = (inl InternalError, last_day_db)
  /\ update_booking 1 (mkBookingUpdate (Some (datetime_max + 1 - timedelta 30)) None)
       alice last_day_db
     = (inl InternalError, last_day_db).
Proof.
  split; [|split; [|split; [|split]]].
  - apply (proj1 (overlapping_window_raises_Conflict sample_db)
             (mkBookingCreate 1 (10 * hour + timedelta 30)) bob 0
             (mkService 1 60 true)
             (mkBooking 1 10 1 (10 * hour) (11 * hour) PENDING 0)).
    + reflexivity.
    + reflexivity.
    + apply (bool_decide_unpack _). vm_compute. reflexivity.
    + apply list_elem_of_In. vm_compute. tauto.
    + reflexivity.
    + left. reflexivity.
    + vm_compute. split; reflexivity.
  - apply (proj1 (proj2 (overlapping_window_raises_Conflict sample_db))
             1 (11 * hour + 1) None alice
             (mkBooking 1 10 1 (10 * hour) (11 * hour) PENDING 0)
             (mkService 1 60 true)
             (mkBooking 2 11 1 (12 * hour) (13 * hour) CONFIRMED 0)).
    + reflexivity.
    + reflexivity.
    + left. reflexivity.
    + reflexivity.
    + apply (bool_decide_unpack _). vm_compute. reflexivity.
    + apply list_elem_of_In. vm_compute. tauto.
    + vm_compute. discriminate.
    + reflexivity.
    + right. reflexivity.
    + vm_compute. split; reflexivity.
  - apply (proj1 (proj2 (proj2 (proj2 (overlapping_window_raises_Conflict
             (mkDatabase [mkService 1 60 true]
                [mkBooking 3 10 1 (14 * hour) (15 * hour) CANCELLED 0;
                 mkBooking 4 10 1 (14 * hour) (15 * hour) COMPLETED 0] [])))))
             (mkBookingCreate 1 (14 * hour)) bob 0 (mkService 1 60 true)).
    + reflexivity.
    + reflexivity.
    + apply (bool_decide_unpack _). vm_compute. reflexivity.
    + intros b Hin _. cbn [bookings] in Hin.
      apply elem_of_cons in Hin as [->|Hin]; [by left|].
      apply list_elem_of_singleton in Hin as ->. by right.
  - apply (proj1 (proj2 (proj2 (proj2 (proj2
             (overlapping_window_raises_Conflict last_day_db)))))
             (mkBookingCreate 1 (datetime_max + 1 - timedelta 30)) bob 0
             (mkService 1 60 true)).
    + reflexivity.
    + reflexivity.
    + intros Hrep. apply (bool_decide_pack _) in Hrep. vm_compute in Hrep.
      destruct Hrep.
  - apply (proj2 (proj2 (proj2 (proj2 (proj2
             (overlapping_window_raises_Conflict last_day_db)))))
             1 (datetime_max + 1 - timedelta 30) None alice
             (mkBooking 1 10 1 (datetime_max + 1 - timedelta 75)
                (datetime_max + 1 - timedelta 15) PENDING 0)
             (mkService 1 60 true)).
    + reflexivity.
    + reflexivity.
    + left. reflexivity.
    + reflexivity.
    + intros Hrep. apply (bool_decide_pack _) in Hrep. vm_compute in Hrep.
      destruct Hrep.
Defined.

(** ** Row updates *)

Lemma get_by_id_key booking_id db b :
  BookingRepository.get_by_id booking_id db = Some b -> Booking_id b = booking_id.
Proof. intros Hget. by apply first_row_passes in Hget as [? _]. Qed.

Lemma get_by_id_elem booking_id db b :
  BookingRepository.get_by_id booking_id db = Some b -> b ∈ bookings db.
Proof. intros Hget. by apply first_row_passes in Hget as [_ ?]. Qed.

(** After [update] the row under the booking's key is the refreshed object. *)
Lemma update_get_by_id booking start_time end_time status db :
  BookingRepository.get_by_id (Booking_id booking) db = Some booking ->
  BookingRepository.get_by_id (Booking_id booking)
    (snd (BookingRepository.update booking start_time end_time status db))
  = Some (BookingRepository.set_attrs start_time end_time status booking).
Proof.
  unfold BookingRepository.get_by_id, BookingRepository.update. cbn [snd bookings].
  induction (bookings db) as [|x l IH]; [done|].
  rewrite fmap_cons, !filter_cons.
  destruct (decide (Booking_id x = Booking_id booking)) as [Heq|Hne].
  - cbn [BookingRepository.set_attrs Booking_id].
    rewrite (decide_True _ _ Heq). cbn [head]. by intros [= ->].
  - rewrite (decide_False _ _ Hne). apply IH.
Qed.

(** [update] leaves the row under every other key as it was. *)
Lemma update_get_by_id_other booking start_time end_time status db booking_id :
  booking_id <> Booking_id booking ->
  BookingRepository.get_by_id booking_id
    (snd (BookingRepository.update booking start_time end_time status db))
  = BookingRepository.get_by_id booking_id db.
Proof.
  intros Hother.
  unfold BookingRepository.get_by_id, BookingRepository.update. cbn [snd bookings].
  induction (bookings db) as [|x l IH]; [done|].
  rewrite fmap_cons, !filter_cons.
  destruct (decide (Booking_id x = Booking_id booking)) as [Heq|Hne].
  - cbn [BookingRepository.set_attrs Booking_id].
    destruct (decide (Booking_id x = booking_id)) as [Hx|_]; [congruence|]. apply IH.
  - destruct (decide (Booking_id x = booking_id)); cbn [head]; [done|]. apply IH.
Qed.

Lemma update_services booking start_time end_time status db :
  services (snd (BookingRepository.update booking start_time end_time status db))
  = services db.
Proof. reflexivity. Qed.

Lemma update_reviews booking start_time end_time status db :
  reviews (snd (BookingRepository.update booking start_time end_time status db))
  = reviews db.
Proof. reflexivity. Qed.

Lemma update_result booking start_time end_time status db :
  fst (BookingRepository.update booking start_time end_time status db)
  = inr (BookingRepository.set_attrs start_time end_time status booking).
Proof. reflexivity. Qed.

Lemma same_elsewhere_refl booking_id db : same_elsewhere booking_id db db.
Proof. by repeat split. Qed.

Lemma same_elsewhere_trans booking_id db1 db2 db3 :
  same_elsewhere booking_id db1 db2 -> same_elsewhere booking_id db2 db3 ->
  same_elsewhere booking_id db1 db3.
Proof.
  intros (Hs1 & Hr1 & Hb1) (Hs2 & Hr2 & Hb2). repeat split; [congruence..|].
  intros j Hj. by rewrite Hb2, Hb1.
Qed.

Lemma update_same_elsewhere booking start_time end_time status db :
  same_elsewhere (Booking_id booking) db
    (snd (BookingRepository.update booking start_time end_time status db)).
Proof.
  repeat split. intros j Hj. by apply update_get_by_id_other.
Qed.

(** A successful "Handle rescheduling" block. *)
Lemma handle_rescheduling_ok booking_data is_owner b db b' db' :
  BookingRepository.get_by_id (Booking_id b) db = Some b ->
  handle_rescheduling booking_data is_owner b db = (inr b', db') ->
  BookingRepository.get_by_id (Booking_id b) db' = Some b'
  /\ same_elsewhere (Booking_id b) db db'
  /\ same_identity b b'
  /\ Booking_status b' = Booking_status b
  /\ match BookingUpdate_start_time booking_data, is_owner with
     | Some t, true =>
         blocking (Booking_status b)
         /\ exists service,
              ServiceRepository.get_by_id (Booking_service_id b) db = Some service
              /\ BookingRepository.check_conflict (Booking_service_id b) t
                   (t + timedelta (Service_duration_minutes service))
                   (Some (Booking_id b)) db = false
              /\ Booking_start_time b' = t
              /\ Booking_end_time b' = t + timedelta (Service_duration_minutes service)
     | _, _ => b' = b /\ db' = db
     end.
Proof.
  intros Hget. rewrite handle_rescheduling_unfold.
  destruct (BookingUpdate_start_time booking_data) as [t|];
    [destruct is_owner|].
  - destruct (decide (~ blocking (Booking_status b))) as [|Hst]; [done|].
    apply dec_stable in Hst.
    destruct (ServiceRepository.get_by_id _ db) as [service|] eqn:Hsvc; [|done].
    destruct (decide (representable _ _)) as [_|_]; [|done].
    destruct (BookingRepository.check_conflict _ _ _ _ db) eqn:Hc; [done|].
    intros Hup.
    pose proof (update_result b (Some t)
      (Some (t + timedelta (Service_duration_minutes service))) None db) as Hres.
    pose proof (update_get_by_id b (Some t)
      (Some (t + timedelta (Service_duration_minutes service))) None db Hget) as Hrow.
    pose proof (update_same_elsewhere b (Some t)
      (Some (t + timedelta (Service_duration_minutes service))) None db) as Hfr.
    rewrite Hup in Hres, Hrow, Hfr. cbn [fst snd] in Hres, Hrow, Hfr.
    injection Hres as ->.
    split; [done|]. split; [done|]. split; [by repeat split|]. split; [done|].
    split; [done|]. exists service. by repeat split.
  - intros [= <- <-]. split; [done|]. split; [apply same_elsewhere_refl|].
    by repeat split.
  - intros [= <- <-]. split; [done|]. split; [apply same_elsewhere_refl|].
    destruct is_owner; by repeat split.
Qed.

(** A successful "Handle status update" block. *)
Lemma handle_status_update_ok booking_data is_owner is_admin b db b' db' :
  BookingRepository.get_by_id (Booking_id b) db = Some b ->
  handle_status_update booking_data is_owner is_admin b db = (inr b', db') ->
  BookingRepository.get_by_id (Booking_id b) db' = Some b'
  /\ same_elsewhere (Booking_id b) db db'
  /\ same_identity b b'
  /\ Booking_start_time b' = Booking_start_time b
  /\ Booking_end_time b' = Booking_end_time b
  /\ Booking_status b' = default (Booking_status b) (BookingUpdate_status booking_data).
Proof.
  intros Hget. rewrite handle_status_update_unfold.
  destruct (BookingUpdate_status booking_data) as [status|].
  - assert (Hupd : forall st,
      BookingRepository.update b None None (Some st) db = (inr b', db') ->
      BookingRepository.get_by_id (Booking_id b) db' = Some b'
      /\ same_elsewhere (Booking_id b) db db'
      /\ same_identity b b'
      /\ Booking_start_time b' = Booking_start_time b
      /\ Booking_end_time b' = Booking_end_time b
      /\ Booking_status b' = st).
    { intros st Hup.
      pose proof (update_result b None None (Some st) db) as Hres.
      pose proof (update_get_by_id b None None (Some st) db Hget) as Hrow.
      pose proof (update_same_elsewhere b None None (Some st) db) as Hfr.
      rewrite Hup in Hres, Hrow, Hfr. cbn [fst snd] in Hres, Hrow, Hfr.
      injection Hres as ->. split; [done|]. split; [done|]. by repeat split. }
    destruct is_admin; [apply Hupd|].
    destruct (is_owner && bool_decide (status = CANCELLED)) eqn:Hoc; [|done].
    destruct (decide (~ blocking (Booking_status b))); [done|].
    apply andb_prop in Hoc as [_ Hcan]. apply bool_decide_eq_true_1 in Hcan as ->.
    apply Hupd.
  - intros [= <- <-]. split; [done|]. split; [apply same_elsewhere_refl|].
    by repeat split.
Qed.

(** A successful [PATCH]: what the stored booking looks like afterwards. *)
Lemma update_booking_ok booking_id booking_data current_user old db b' db' :
  BookingRepository.get_by_id booking_id db = Some old ->
  update_booking booking_id booking_data current_user db = (inr b', db') ->
  BookingRepository.get_by_id booking_id db' = Some b'
  /\ same_elsewhere booking_id db db'
  /\ same_identity old b'
  /\ Booking_status b'
     = default (Booking_status old) (BookingUpdate_status booking_data)
  /\ match BookingUpdate_start_time booking_data,
           bool_decide (Booking_user_id old = User_id current_user) with
     | Some t, true =>
         blocking (Booking_status old)
         /\ exists service,
              ServiceRepository.get_by_id (Booking_service_id old) db = Some service
              /\ BookingRepository.check_conflict (Booking_service_id old) t
                   (t + timedelta (Service_duration_minutes service))
                   (Some (Booking_id old)) db = false
              /\ Booking_start_time b' = t
              /\ Booking_end_time b' = t + timedelta (Service_duration_minutes service)
     | _, _ =>
         Booking_start_time b' = Booking_start_time old
         /\ Booking_end_time b' = Booking_end_time old
     end.
Proof.
  intros Hget. pose proof (get_by_id_key _ _ _ Hget) as Hkey.
  rewrite update_booking_unfold, Hget. cbv zeta.
  destruct (negb _ && negb _); [done|].
  destruct (handle_rescheduling _ _ old db) as [[e|b1] db1] eqn:Hre; [done|].
  intros Hst.
  rewrite <- Hkey in Hget.
  destruct (handle_rescheduling_ok _ _ _ _ _ _ Hget Hre)
    as (Hrow1 & Hfr1 & Hid1 & Hst1 & Htimes).
  assert (Hk1 : Booking_id b1 = Booking_id old) by apply Hid1.
  rewrite <- Hk1 in Hrow1.
  destruct (handle_status_update_ok _ _ _ _ _ _ _ Hrow1 Hst)
    as (Hrow2 & Hfr2 & Hid2 & Hs2 & He2 & Hst2).
  rewrite Hk1 in Hrow2, Hfr2. rewrite <- Hkey.
  split; [done|]. split; [by eapply same_elsewhere_trans|].
  split.
  { destruct Hid1 as (? & ? & ? & ?), Hid2 as (? & ? & ? & ?).
    repeat split; congruence. }
  split; [by rewrite Hst2, Hst1|].
  destruct (BookingUpdate_start_time booking_data) as [t|];
    [destruct (bool_decide _)|].
  - destruct Htimes as (Hbl & service & Hsvc & Hc & Hs & He).
    split; [done|]. exists service. repeat split; congruence.
  - destruct Htimes as [-> _]. by split.
  - assert (b1 = old) as ->; [|by split].
    by destruct (bool_decide _), Htimes.
Qed.

(** ** End times *)

(** C3: a successful creation persists a booking with status [PENDING]
    whose end is the requested start plus the service's duration; a
    successful reschedule by the owner persists the new start and the end
    computed from the service's duration read at that time; whenever the
    duration is positive the end lies after the start. *)
Theorem end_time_is_start_plus_duration (db : Database) :
  (forall booking_data current_user now booking db',
      create_booking booking_data current_user now db = (inr booking, db') ->
      exists service,
        ServiceRepository.get_by_id (BookingCreate_service_id booking_data) db
          = Some service
        /\ bookings db' = bookings db ++ [booking]
        /\ Booking_status booking = PENDING
        /\ Booking_start_time booking = BookingCreate_start_time booking_data
        /\ Booking_end_time booking
           = BookingCreate_start_time booking_data
             + timedelta (Service_duration_minutes service)
        /\ (Service_duration_minutes service > 0 ->
            Booking_end_time booking > Booking_start_time booking))
  /\ (forall booking_id start_time status current_user old booking db',
      BookingRepository.get_by_id booking_id db = Some old ->
      Booking_user_id old = User_id current_user ->
      update_booking booking_id (mkBookingUpdate (Some start_time) status)
        current_user db = (inr booking, db') ->
      exists service,
        ServiceRepository.get_by_id (Booking_service_id old) db = Some service
        /\ BookingRepository.get_by_id booking_id db' = Some booking
        /\ Booking_start_time booking = start_time
        /\ Booking_end_time booking
           = start_time + timedelta (Service_duration_minutes service)
        /\ (Service_duration_minutes service > 0 ->
            Booking_end_time booking > Booking_start_time booking)).
Proof.
  split.
  - intros booking_data current_user now booking db'.
    rewrite create_booking_unfold.
    destruct (ServiceRepository.get_by_id _ db) as [service|]; [|done].
    destruct (negb _); [done|].
    destruct (decide (representable _ _)) as [_|_]; [|done].
    destruct (BookingRepository.check_conflict _ _ _ _ db); [done|].
    unfold BookingRepository.create. intros [= <- <-].
    exists service. cbn. repeat split; try done.
    unfold timedelta. lia.
  - intros booking_id start_time status current_user old booking db'
      Hget Hown Hup.
    destruct (update_booking_ok _ _ _ _ _ _ _ Hget Hup)
      as (Hrow & _ & _ & _ & Htimes).
    cbn [BookingUpdate_start_time] in Htimes.
    rewrite (bool_decide_eq_true_2 _ Hown) in Htimes.
    destruct Htimes as (_ & service & Hsvc & _ & Hs & He).
    exists service. repeat split; try done.
    rewrite Hs, He. unfold timedelta. lia.
Qed.

Lemma end_time_is_start_plus_duration_witness :
  (exists service,
     ServiceRepository.get_by_id 1 sample_db = Some service
     /\ BookingRepository.get_by_id 1
          (snd (update_booking 1 (mkBookingUpdate (Some (18 * hour)) None)
                  alice sample_db))
        = Some (mkBooking 1 10 1 (18 * hour) (19 * hour) PENDING 0)
     /\ Booking_start_time (mkBooking 1 10 1 (18 * hour) (19 * hour) PENDING 0)
        = 18 * hour
     /\ Booking_end_time (mkBooking 1 10 1 (18 * hour) (19 * hour) PENDING 0)
        = 18 * hour + timedelta (Service_duration_minutes service)
     /\ (Service_duration_minutes service > 0 ->
         Booking_end_time (mkBooking 1 10 1 (18 * hour) (19 * hour) PENDING 0)
         > Booking_start_time (mkBooking 1 10 1 (18 * hour) (19 * hour) PENDING 0)))
  /\ (exists service,
     ServiceRepository.get_by_id 1 sample_db = Some service
     /\ bookings (snd (create_booking (mkBookingCreate 1 (18 * hour)) bob 7 sample_db))
        = bookings sample_db ++ [mkBooking 6 11 1 (18 * hour) (19 * hour) PENDING 7]
     /\ Booking_status (mkBooking 6 11 1 (18 * hour) (19 * hour) PENDING 7) = PENDING
     /\ Booking_start_time (mkBooking 6 11 1 (18 * hour) (19 * hour) PENDING 7)
        = 18 * hour
     /\ Booking_end_time (mkBooking 6 11 1 (18 * hour) (19 * hour) PENDING 7)
        = 18 * hour + timedelta (Service_duration_minutes service)
     /\ (Service_duration_minutes service > 0 ->
         Booking_end_time (mkBooking 6 11 1 (18 * hour) (19 * hour) PENDING 7)
         > Booking_start_time (mkBooking 6 11 1 (18 * hour) (19 * hour) PENDING 7))).
Proof.
  split.
  - apply (proj2 (end_time_is_start_plus_duration sample_db)
             1 (18 * hour) None alice
             (mkBooking 1 10 1 (10 * hour) (11 * hour) PENDING 0)
             (mkBooking 1 10 1 (18 * hour) (19 * hour) PENDING 0)
             (snd (update_booking 1 (mkBookingUpdate (Some (18 * hour)) None)
                     alice sample_db))).
    + reflexivity.
    + reflexivity.
    + reflexivity.
  - apply (proj1 (end_time_is_start_plus_duration sample_db)
             (mkBookingCreate 1 (18 * hour)) bob 7
             (mkBooking 6 11 1 (18 * hour) (19 * hour) PENDING 7)
             (snd (create_booking (mkBookingCreate 1 (18 * hour)) bob 7 sample_db))).
    reflexivity.
Defined.

(** ** Rescheduling *)

(** C4: for a reschedule by the owner of a stored booking,
    - the request fails with [InvalidState], and changes nothing, unless
      the booking is pending or confirmed, and never fails so when it is;
    - when the rescheduling block succeeds, the stored booking keeps its
      status, owner, service, key and creation time, and the rest of the
      store is as before;
    - when the whole request succeeds, the same holds of the stored
      booking, its status being the old one unless the request itself
      names a status for the status block to apply. *)
Theorem owner_reschedule_frame db booking_id start_time current_user old :
  BookingRepository.get_by_id booking_id db = Some old ->
  Booking_user_id old = User_id current_user ->
  (forall status,
      ~ blocking (Booking_status old) ->
      update_booking booking_id (mkBookingUpdate (Some start_time) status)
        current_user db = (inl InvalidState, db))
  /\ (forall status,
      blocking (Booking_status old) ->
      fst (update_booking booking_id (mkBookingUpdate (Some start_time) status)
             current_user db) <> inl InvalidState)
  /\ (forall status b' db',
      handle_rescheduling (mkBookingUpdate (Some start_time) status) true old db
        = (inr b', db') ->
      BookingRepository.get_by_id booking_id db' = Some b'
      /\ same_identity old b'
      /\ Booking_status b' = Booking_status old
      /\ same_elsewhere booking_id db db')
  /\ (forall status b' db',
      update_booking booking_id (mkBookingUpdate (Some start_time) status)
        current_user db = (inr b', db') ->
      BookingRepository.get_by_id booking_id db' = Some b'
      /\ same_identity old b'
      /\ Booking_status b' = default (Booking_status old) status
      /\ same_elsewhere booking_id db db').
Proof.
  intros Hget Hown. pose proof (get_by_id_key _ _ _ Hget) as Hkey.
  split; [|split; [|split]].
  - intros status Hst.
    rewrite update_booking_unfold, Hget. cbv zeta.
    rewrite (bool_decide_eq_true_2 _ Hown). cbn [negb andb].
    rewrite handle_rescheduling_unfold. cbn [BookingUpdate_start_time].
    by rewrite (decide_True _ _ Hst).
  - intros status Hst.
    rewrite update_booking_unfold, Hget. cbv zeta.
    rewrite (bool_decide_eq_true_2 _ Hown). cbn [negb andb].
    destruct (handle_rescheduling _ _ old db) as [[e|b1] db1] eqn:Hre.
    + rewrite handle_rescheduling_unfold in Hre. cbn [BookingUpdate_start_time] in Hre.
      destruct (decide (~ blocking (Booking_status old))); [done|].
      destruct (ServiceRepository.get_by_id _ db); [|by injection Hre as <- _].
      destruct (decide (representable _ _)); [|by injection Hre as <- _].
      destruct (BookingRepository.check_conflict _ _ _ _ db);
        [by injection Hre as <- _|done].
    + rewrite <- Hkey in Hget.
      destruct (handle_rescheduling_ok _ _ _ _ _ _ Hget Hre)
        as (_ & _ & _ & Hst1 & _).
      rewrite handle_status_update_unfold. cbn [BookingUpdate_status].
      destruct status as [s|]; [|done].
      destruct (bool_decide (User_role current_user = ADMIN)); [done|].
      destruct (true && bool_decide (s = CANCELLED)); [|done].
      rewrite Hst1. destruct (decide (~ blocking (Booking_status old))); done.
  - intros status b' db' Hre. rewrite <- Hkey in Hget |- *.
    destruct (handle_rescheduling_ok _ _ _ _ _ _ Hget Hre)
      as (Hrow & Hfr & Hid & Hst1 & _).
    done.
  - intros status b' db' Hup.
    destruct (update_booking_ok _ _ _ _ _ _ _ Hget Hup)
      as (Hrow & Hfr & Hid & Hst1 & _).
    done.
Qed.

Lemma owner_reschedule_frame_witness :
  update_booking 3 (mkBookingUpdate (Some (18 * hour)) None) alice sample_db
    = (inl InvalidState, sample_db)
  /\ (BookingRepository.get_by_id 1
        (snd (update_booking 1 (mkBookingUpdate (Some (18 * hour)) None)
                alice sample_db))
      = Some (mkBooking 1 10 1 (18 * hour) (19 * hour) PENDING 0)
      /\ same_identity (mkBooking 1 10 1 (10 * hour) (11 * hour) PENDING 0)
           (mkBooking 1 10 1 (18 * hour) (19 * hour) PENDING 0)
      /\ Booking_status (mkBooking 1 10 1 (18 * hour) (19 * hour) PENDING 0)
         = Booking_status (mkBooking 1 10 1 (10 * hour) (11 * hour) PENDING 0)
      /\ same_elsewhere 1 sample_db
           (snd (update_booking 1 (mkBookingUpdate (Some (18 * hour)) None)
                   alice sample_db)))
  /\ fst (update_booking 1 (mkBookingUpdate (Some (12 * hour)) (Some CANCELLED))
            alice sample_db) <> inl InvalidState
  /\ Booking_status (mkBooking 1 10 1 (18 * hour) (19 * hour) PENDING 0)
     = Booking_status (mkBooking 1 10 1 (10 * hour) (11 * hour) PENDING 0).
Proof.
  split; [|split; [|split]].
  - apply (proj1 (owner_reschedule_frame sample_db 3 (18 * hour) alice
                    (mkBooking 3 10 1 (14 * hour) (15 * hour) CANCELLED 0)
                    eq_refl eq_refl) None).
    vm_compute. intros [H|H]; discriminate H.
  - apply (proj2 (proj2 (proj2
             (owner_reschedule_frame sample_db 1 (18 * hour) alice
                (mkBooking 1 10 1 (10 * hour) (11 * hour) PENDING 0)
                eq_refl eq_refl)))
             None
             (mkBooking 1 10 1 (18 * hour) (19 * hour) PENDING 0)
             (snd (update_booking 1 (mkBookingUpdate (Some (18 * hour)) None)
                     alice sample_db))).
    reflexivity.
  - apply (proj1 (proj2
             (owner_reschedule_frame sample_db 1 (12 * hour) alice
                (mkBooking 1 10 1 (10 * hour) (11 * hour) PENDING 0)
                eq_refl eq_refl)) (Some CANCELLED)).
    by left.
  - apply (proj1 (proj2 (proj2
             (owner_reschedule_frame sample_db 1 (18 * hour) alice
                (mkBooking 1 10 1 (10 * hour) (11 * hour) PENDING 0)
                eq_refl eq_refl)))
             (Some CANCELLED)
             (mkBooking 1 10 1 (18 * hour) (19 * hour) PENDING 0)
             (snd (handle_rescheduling
                     (mkBookingUpdate (Some (18 * hour)) (Some CANCELLED)) true
                     (mkBooking 1 10 1 (10 * hour) (11 * hour) PENDING 0)
                     sample_db))).
    reflexivity.
Defined.

(** C10: a request that carries a new start time and comes from an
    administrator who does not own the booking does not fail; the
    rescheduling block is skipped, so the stored start and end are as
    before, and the only change is the status, when the request names one. *)
Theorem admin_reschedule_is_skipped db booking_id start_time status current_user old :
  BookingRepository.get_by_id booking_id db = Some old ->
  User_role current_user = ADMIN ->
  Booking_user_id old <> User_id current_user ->
  exists b' db',
    update_booking booking_id (mkBookingUpdate (Some start_time) status)
      current_user db = (inr b', db')
    /\ BookingRepository.get_by_id booking_id db' = Some b'
    /\ Booking_start_time b' = Booking_start_time old
    /\ Booking_end_time b' = Booking_end_time old
    /\ Booking_status b' = default (Booking_status old) status
    /\ same_identity old b'
    /\ same_elsewhere booking_id db db'.
Proof.
  intros Hget Hadmin Hnot.
  destruct (update_booking booking_id (mkBookingUpdate (Some start_time) status)
              current_user db) as [[e|b'] db'] eqn:Hup.
  - exfalso. revert Hup.
    rewrite update_booking_unfold, Hget. cbv zeta.
    rewrite (bool_decide_eq_false_2 _ Hnot), (bool_decide_eq_true_2 _ Hadmin).
    cbn [negb andb].
    rewrite handle_rescheduling_unfold. cbn [BookingUpdate_start_time].
    rewrite handle_status_update_unfold. cbn [BookingUpdate_status].
    by destruct status.
  - exists b', db'. split; [done|].
    destruct (update_booking_ok _ _ _ _ _ _ _ Hget Hup)
      as (Hrow & Hfr & Hid & Hst & Htimes).
    cbn [BookingUpdate_start_time BookingUpdate_status] in Hst, Htimes.
    rewrite (bool_decide_eq_false_2 _ Hnot) in Htimes.
    destruct Htimes as [Hs He]. done.
Qed.

Lemma admin_reschedule_is_skipped_witness :
  exists b' db',
    update_booking 1 (mkBookingUpdate (Some (12 * hour)) (Some COMPLETED))
      root sample_db = (inr b', db')
    /\ BookingRepository.get_by_id 1 db' = Some b'
    /\ Booking_start_time b' = 10 * hour
    /\ Booking_end_time b' = 11 * hour
    /\ Booking_status b' = COMPLETED
    /\ same_identity (mkBooking 1 10 1 (10 * hour) (11 * hour) PENDING 0) b'
    /\ same_elsewhere 1 sample_db db'.
Proof.
  apply (admin_reschedule_is_skipped sample_db 1 (12 * hour) (Some COMPLETED) root
           (mkBooking 1 10 1 (10 * hour) (11 * hour) PENDING 0)).
  - reflexivity.
  - reflexivity.
  - vm_compute. discriminate.
Defined.

(** ** Status changes *)

(** C5, as written, fails: an owner without the administrator role who asks
    for a status other than [CANCELLED] is refused with [Forbidden], not
    with [InvalidState]. *)
Lemma owner_confirm_is_Forbidden :
  BookingRepository.get_by_id 1 sample_db
    = Some (mkBooking 1 10 1 (10 * hour) (11 * hour) PENDING 0)
  /\ Booking_user_id (mkBooking 1 10 1 (10 * hour) (11 * hour) PENDING 0) = User_id alice
  /\ User_role alice <> ADMIN
  /\ update_booking 1 (mkBookingUpdate None (Some CONFIRMED)) alice sample_db
     = (inl Forbidden, sample_db)
  /\ update_booking 1 (mkBookingUpdate None (Some CONFIRMED)) alice sample_db
     <> (inl InvalidState, sample_db).
Proof.
  split; [reflexivity|]. split; [reflexivity|]. split; [discriminate|].
  split; [reflexivity|]. vm_compute. discriminate.
Qed.

(** C5 (amended): for a status request on a stored booking,
    - an administrator's request succeeds whatever the current status and
      stores the requested status;
    - an owner who is not an administrator and asks for [CANCELLED]
      succeeds when the booking is pending or confirmed and fails with
      [InvalidState] otherwise;
    - an owner who is not an administrator and asks for any other status
      fails with [Forbidden];
    - a caller who is neither the owner nor an administrator fails with
      [Forbidden]. *)
Theorem set_status_policy db booking_id status current_user old :
  BookingRepository.get_by_id booking_id db = Some old ->
  (User_role current_user = ADMIN ->
     exists b' db',
       update_booking booking_id (mkBookingUpdate None (Some status))
         current_user db = (inr b', db')
       /\ BookingRepository.get_by_id booking_id db' = Some b'
       /\ Booking_status b' = status
       /\ Booking_start_time b' = Booking_start_time old
       /\ Booking_end_time b' = Booking_end_time old
       /\ same_identity old b'
       /\ same_elsewhere booking_id db db')
  /\ (User_role current_user <> ADMIN ->
      Booking_user_id old = User_id current_user ->
      status = CANCELLED ->
      (blocking (Booking_status old) ->
         exists b' db',
           update_booking booking_id (mkBookingUpdate None (Some status))
             current_user db = (inr b', db')
           /\ BookingRepository.get_by_id booking_id db' = Some b'
           /\ Booking_status b' = CANCELLED
           /\ Booking_start_time b' = Booking_start_time old
           /\ Booking_end_time b' = Booking_end_time old
           /\ same_identity old b'
           /\ same_elsewhere booking_id db db')
      /\ (~ blocking (Booking_status old) ->
          update_booking booking_id (mkBookingUpdate None (Some status))
            current_user db = (inl InvalidState, db)))
  /\ (User_role current_user <> ADMIN ->
      Booking_user_id old = User_id current_user ->
      status <> CANCELLED ->
      update_booking booking_id (mkBookingUpdate None (Some status))
        current_user db = (inl Forbidden, db))
  /\ (User_role current_user <> ADMIN ->
      Booking_user_id old <> User_id current_user ->
      forall booking_data,
        update_booking booking_id booking_data current_user db
        = (inl Forbidden, db)).
Proof.
  intros Hget.
  assert (Hok : forall b' db',
    update_booking booking_id (mkBookingUpdate None (Some status))
      current_user db = (inr b', db') ->
    BookingRepository.get_by_id booking_id db' = Some b'
    /\ Booking_status b' = status
    /\ Booking_start_time b' = Booking_start_time old
    /\ Booking_end_time b' = Booking_end_time old
    /\ same_identity old b'
    /\ same_elsewhere booking_id db db').
  { intros b' db' Hup.
    destruct (update_booking_ok _ _ _ _ _ _ _ Hget Hup)
      as (Hrow & Hfr & Hid & Hst & Hs & He).
    done. }
  split; [|split; [|split]].
  - intros Hadmin.
    destruct (update_booking booking_id (mkBookingUpdate None (Some status))
                current_user db) as [[e|b'] db'] eqn:Hup.
    + exfalso. revert Hup.
      rewrite update_booking_unfold, Hget. cbv zeta.
      rewrite (bool_decide_eq_true_2 _ Hadmin), andb_false_r.
      rewrite handle_rescheduling_unfold. cbn [BookingUpdate_start_time].
      by rewrite handle_status_update_unfold.
    + exists b', db'. split; [done|]. by apply Hok.
  - intros Hrole Hown ->. split.
    + intros Hbl.
      destruct (update_booking booking_id (mkBookingUpdate None (Some CANCELLED))
                  current_user db) as [[e|b'] db'] eqn:Hup.
      * exfalso. revert Hup.
        rewrite update_booking_unfold, Hget. cbv zeta.
        rewrite (bool_decide_eq_true_2 _ Hown), (bool_decide_eq_false_2 _ Hrole).
        cbn [negb andb].
        rewrite handle_rescheduling_unfold. cbn [BookingUpdate_start_time].
        rewrite handle_status_update_unfold. cbn [BookingUpdate_status andb].
        rewrite bool_decide_eq_true_2 by done.
        by destruct (decide (~ blocking (Booking_status old))).
      * exists b', db'. split; [done|]. by apply Hok.
    + intros Hbl.
      rewrite update_booking_unfold, Hget. cbv zeta.
      rewrite (bool_decide_eq_true_2 _ Hown), (bool_decide_eq_false_2 _ Hrole).
      cbn [negb andb].
      rewrite handle_rescheduling_unfold. cbn [BookingUpdate_start_time].
      rewrite handle_status_update_unfold. cbn [BookingUpdate_status andb].
      rewrite bool_decide_eq_true_2 by done.
      by rewrite (decide_True _ _ Hbl).
  - intros Hrole Hown Hne.
    rewrite update_booking_unfold, Hget. cbv zeta.
    rewrite (bool_decide_eq_true_2 _ Hown), (bool_decide_eq_false_2 _ Hrole).
    cbn [negb andb].
    rewrite handle_rescheduling_unfold. cbn [BookingUpdate_start_time].
    rewrite handle_status_update_unfold. cbn [BookingUpdate_status andb].
    by rewrite (bool_decide_eq_false_2 _ Hne).
  - intros Hrole Hnot booking_data.
    rewrite update_booking_unfold, Hget. cbv zeta.
    by rewrite (bool_decide_eq_false_2 _ Hnot), (bool_decide_eq_false_2 _ Hrole).
Qed.

Lemma set_status_policy_witness :
  (exists b' db',
     update_booking 4 (mkBookingUpdate None (Some PENDING)) root sample_db
       = (inr b', db')
     /\ BookingRepository.get_by_id 4 db' = Some b'
     /\ Booking_status b' = PENDING
     /\ Booking_start_time b' = 16 * hour
     /\ Booking_end_time b' = 17 * hour
     /\ same_identity (mkBooking 4 10 1 (16 * hour) (17 * hour) COMPLETED 0) b'
     /\ same_elsewhere 4 sample_db db')
  /\ update_booking 4 (mkBookingUpdate None (Some CANCELLED)) alice sample_db
     = (inl InvalidState, sample_db)
  /\ update_booking 1 (mkBookingUpdate None (Some COMPLETED)) alice sample_db
     = (inl Forbidden, sample_db)
  /\ update_booking 1 (mkBookingUpdate None (Some CANCELLED)) bob sample_db
     = (inl Forbidden, sample_db).
Proof.
  split; [|split; [|split]].
  - apply (proj1 (set_status_policy sample_db 4 PENDING root
                    (mkBooking 4 10 1 (16 * hour) (17 * hour) COMPLETED 0) eq_refl)).
    reflexivity.
  - apply (proj1 (proj2 (set_status_policy sample_db 4 CANCELLED alice
                    (mkBooking 4 10 1 (16 * hour) (17 * hour) COMPLETED 0) eq_refl))).
    + discriminate.
    + reflexivity.
    + reflexivity.
    + intros [H|H]; discriminate H.
  - apply (proj1 (proj2 (proj2 (set_status_policy sample_db 1 COMPLETED alice
                    (mkBooking 1 10 1 (10 * hour) (11 * hour) PENDING 0) eq_refl)))).
    + discriminate.
    + reflexivity.
    + discriminate.
  - apply (proj2 (proj2 (proj2 (set_status_policy sample_db 1 CANCELLED bob
                    (mkBooking 1 10 1 (10 * hour) (11 * hour) PENDING 0) eq_refl)))).
    + discriminate.
    + vm_compute. discriminate.
Defined.

(** ** Deletion *)

Lemma delete_booking_unfold booking_id current_user now db :
  delete_booking booking_id current_user now db =
  match BookingRepository.get_by_id booking_id db with
  | None => (inl NotFound, db)
  | Some booking =>
      let is_owner := bool_decide (Booking_user_id booking = User_id current_user) in
      let is_admin := bool_decide (User_role current_user = ADMIN) in
      if negb is_owner && negb is_admin then (inl Forbidden, db)
      else if is_owner && negb is_admin then
        if decide (Booking_start_time booking <= now) then (inl InvalidState, db)
        else BookingRepository.delete booking db
      else BookingRepository.delete booking db
  end.
Proof.
  unfold delete_booking, bind, query, raise, ret.
  destruct (BookingRepository.get_by_id booking_id db) as [booking|]; [|done].
  cbv zeta.
  destruct (negb _ && negb _); [done|].
  destruct (_ && negb _); [|done].
  by destruct (decide (Booking_start_time booking <= now)).
Qed.

Lemma deleted_no_booking booking_id db :
  BookingRepository.get_by_id booking_id (deleted booking_id db) = None.
Proof.
  unfold BookingRepository.get_by_id, deleted. cbn [bookings].
  apply no_first_row. intros b Hin. by apply list_elem_of_filter in Hin as [? _].
Qed.

Lemma deleted_no_review booking_id db :
  ReviewRepository.get_by_booking_id booking_id (deleted booking_id db) = None.
Proof.
  unfold ReviewRepository.get_by_booking_id, deleted. cbn [reviews].
  apply no_first_row. intros r Hin. by apply list_elem_of_filter in Hin as [? _].
Qed.

(** C6: for a delete request on a stored booking,
    - an owner who is not an administrator succeeds exactly when the clock
      reads strictly before the booking's start, and fails with
      [InvalidState], changing nothing, otherwise;
    - an administrator always succeeds;
    - a successful delete removes the booking and every review that
      references it, and keeps the other rows. *)
Theorem delete_booking_policy db booking_id current_user now old :
  BookingRepository.get_by_id booking_id db = Some old ->
  (User_role current_user <> ADMIN ->
   Booking_user_id old = User_id current_user ->
     (now < Booking_start_time old <->
        delete_booking booking_id current_user now db
        = (inr tt, deleted booking_id db))
     /\ (~ now < Booking_start_time old ->
        delete_booking booking_id current_user now db = (inl InvalidState, db)))
  /\ (User_role current_user = ADMIN ->
      delete_booking booking_id current_user now db
      = (inr tt, deleted booking_id db))
  /\ BookingRepository.get_by_id booking_id (deleted booking_id db) = None
  /\ ReviewRepository.get_by_booking_id booking_id (deleted booking_id db) = None
  /\ (forall r, r ∈ reviews (deleted booking_id db)
        <-> r ∈ reviews db /\ Review_booking_id r <> booking_id)
  /\ (forall b, b ∈ bookings (deleted booking_id db)
        <-> b ∈ bookings db /\ Booking_id b <> booking_id).
Proof.
  intros Hget. pose proof (get_by_id_key _ _ _ Hget) as Hkey.
  assert (Hdel : BookingRepository.delete old db = (inr tt, deleted booking_id db)).
  { unfold BookingRepository.delete, deleted. by rewrite Hkey. }
  split; [|split; [|split; [|split; [|split]]]].
  - intros Hrole Hown.
    rewrite delete_booking_unfold, Hget. cbv zeta.
    rewrite (bool_decide_eq_true_2 _ Hown), (bool_decide_eq_false_2 _ Hrole).
    cbn [negb andb].
    destruct (decide (Booking_start_time old <= now)) as [Hle|Hgt].
    + split; [|done]. split; [lia|done].
    + rewrite Hdel. split; [|lia]. split; [done|lia].
  - intros Hadmin.
    rewrite delete_booking_unfold, Hget. cbv zeta.
    rewrite (bool_decide_eq_true_2 _ Hadmin), !andb_false_r. done.
  - apply deleted_no_booking.
  - apply deleted_no_review.
  - intros r. unfold deleted. cbn [reviews]. rewrite list_elem_of_filter. tauto.
  - intros b. unfold deleted. cbn [bookings]. rewrite list_elem_of_filter. tauto.
Qed.

Lemma delete_booking_policy_witness :
  ((9 * hour < 16 * hour <->
      delete_booking 4 alice (9 * hour) sample_db = (inr tt, deleted 4 sample_db))
   /\ (~ 9 * hour < 16 * hour ->
       delete_booking 4 alice (9 * hour) sample_db = (inl InvalidState, sample_db)))
  /\ delete_booking 4 root (20 * hour) sample_db = (inr tt, deleted 4 sample_db)
  /\ delete_booking 1 alice (10 * hour) sample_db = (inl InvalidState, sample_db)
  /\ reviews (deleted 4 sample_db) = [].
Proof.
  split; [|split; [|split]].
  - apply (proj1 (delete_booking_policy sample_db 4 alice (9 * hour)
                    (mkBooking 4 10 1 (16 * hour) (17 * hour) COMPLETED 0) eq_refl)).
    + discriminate.
    + reflexivity.
  - apply (proj1 (proj2 (delete_booking_policy sample_db 4 root (20 * hour)
                    (mkBooking 4 10 1 (16 * hour) (17 * hour) COMPLETED 0) eq_refl))).
    reflexivity.
  - apply (proj1 (delete_booking_policy sample_db 1 alice (10 * hour)
                    (mkBooking 1 10 1 (10 * hour) (11 * hour) PENDING 0) eq_refl)).
    + discriminate.
    + reflexivity.
    + vm_compute. discriminate.
  - reflexivity.
Defined.

(** ** Reviews *)

Lemma create_review_unfold review_data current_user now db :
  create_review review_data current_user now db =
  match BookingRepository.get_by_id (ReviewCreate_booking_id review_data) db with
  | None => (inl NotFound, db)
  | Some booking =>
      if decide (Booking_user_id booking <> User_id current_user)
      then (inl Forbidden, db)
      else if decide (Booking_status booking <> COMPLETED)
      then (inl InvalidState, db)
      else
        match ReviewRepository.get_by_booking_id
                (ReviewCreate_booking_id review_data) db with
        | Some _ => (inl AlreadyExists, db)
        | None => ReviewRepository.create review_data now db
        end
  end.
Proof.
  unfold create_review, bind, query, raise.
  destruct (BookingRepository.get_by_id _ db) as [booking|]; [|done].
  destruct (decide (Booking_user_id booking <> User_id current_user)); [done|].
  destruct (decide (Booking_status booking <> COMPLETED)); [done|].
  by destruct (ReviewRepository.get_by_booking_id _ db).
Qed.

(** C7: a review request whose rating is outside [1, 5] or whose comment
    length is outside [1, 1000] is rejected as a validation error; a valid
    one meets the checks in this order: [NotFound] when the booking is
    absent, else [Forbidden] when the caller is not its owner, else
    [InvalidState] when its status is not [COMPLETED], else
    [AlreadyExists] when a review references it; otherwise exactly one
    review is added, it carries the request's fields, and it is then the
    only review of that booking.  A rejected request changes nothing. *)
Theorem review_gate_order db review_data current_user now :
  (~ valid_review review_data ->
     post_reviews now review_data current_user db = (inl ValidationError, db))
  /\ (valid_review review_data ->
     post_reviews now review_data current_user db
     = create_review review_data current_user now db)
  /\ (BookingRepository.get_by_id (ReviewCreate_booking_id review_data) db = None ->
     create_review review_data current_user now db = (inl NotFound, db))
  /\ (forall booking,
     BookingRepository.get_by_id (ReviewCreate_booking_id review_data) db
       = Some booking ->
     (Booking_user_id booking <> User_id current_user ->
        create_review review_data current_user now db = (inl Forbidden, db))
     /\ (Booking_user_id booking = User_id current_user ->
         Booking_status booking <> COMPLETED ->
         create_review review_data current_user now db = (inl InvalidState, db))
     /\ (Booking_user_id booking = User_id current_user ->
         Booking_status booking = COMPLETED ->
         reviews_of (ReviewCreate_booking_id review_data) db <> [] ->
         create_review review_data current_user now db = (inl AlreadyExists, db))
     /\ (Booking_user_id booking = User_id current_user ->
         Booking_status booking = COMPLETED ->
         reviews_of (ReviewCreate_booking_id review_data) db = [] ->
         exists review,
           create_review review_data current_user now db
           = (inr review,
              {| services := services db;
                 bookings := bookings db;
                 reviews := reviews db ++ [review] |})
           /\ Review_booking_id review = ReviewCreate_booking_id review_data
           /\ Review_rating review = ReviewCreate_rating review_data
           /\ Review_comment review = ReviewCreate_comment review_data
           /\ reviews_of (ReviewCreate_booking_id review_data)
                {| services := services db;
                   bookings := bookings db;
                   reviews := reviews db ++ [review] |}
              = [review])).
Proof.
  split; [|split; [|split]].
  - intros Hbad. unfold post_reviews, ReviewCreateSchema.validate, raise.
    destruct (decide (1 <= ReviewCreate_rating review_data
                      /\ ReviewCreate_rating review_data <= 5)) as [Hr|]; [|done].
    destruct (decide (1 <= Z.of_nat (String.length (ReviewCreate_comment review_data))
                      /\ Z.of_nat (String.length (ReviewCreate_comment review_data))
                         <= 1000)) as [Hc|]; [|done].
    by destruct Hbad.
  - intros [Hr Hc]. unfold post_reviews, ReviewCreateSchema.validate.
    by rewrite (decide_True _ _ Hr), (decide_True _ _ Hc).
  - intros Hnone. by rewrite create_review_unfold, Hnone.
  - intros booking Hget. rewrite create_review_unfold, Hget.
    split; [|split; [|split]].
    + intros Hne. by rewrite (decide_True _ _ Hne).
    + intros Hown Hst.
      rewrite decide_False by (by intros ?). by rewrite (decide_True _ _ Hst).
    + intros Hown Hst Hex.
      rewrite decide_False by (by intros ?).
      rewrite decide_False by (by intros ?).
      unfold ReviewRepository.get_by_booking_id. unfold reviews_of in Hex.
      by destruct (filter _ (reviews db)).
    + intros Hown Hst Hnone.
      rewrite decide_False by (by intros ?).
      rewrite decide_False by (by intros ?).
      unfold ReviewRepository.get_by_booking_id. unfold reviews_of in Hnone.
      rewrite Hnone. cbn [head].
      eexists. split; [reflexivity|]. cbn [Review_booking_id Review_rating Review_comment].
      repeat split.
      unfold reviews_of. cbn [reviews]. rewrite filter_app, Hnone.
      rewrite filter_cons, filter_nil. cbn [Review_booking_id].
      by rewrite decide_True.
Qed.

Lemma review_gate_order_witness :
  post_reviews 0 (mkReviewCreate 4 6 "fine") alice sample_db
    = (inl ValidationError, sample_db)
  /\ post_reviews 0 (mkReviewCreate 4 5 "fine") alice sample_db
     = create_review (mkReviewCreate 4 5 "fine") alice 0 sample_db
  /\ create_review (mkReviewCreate 9 5 "fine") alice 0 sample_db
     = (inl NotFound, sample_db)
  /\ create_review (mkReviewCreate 2 5 "fine") alice 0 sample_db
     = (inl Forbidden, sample_db)
  /\ create_review (mkReviewCreate 1 5 "fine") alice 0 sample_db
     = (inl InvalidState, sample_db)
  /\ create_review (mkReviewCreate 4 5 "fine") alice 0 sample_db
     = (inl AlreadyExists, sample_db)
  /\ (exists review,
        create_review (mkReviewCreate 4 5 "fine") alice 0 sample_db_unreviewed
        = (inr review,
           {| services := services sample_db_unreviewed;
              bookings := bookings sample_db_unreviewed;
              reviews := reviews sample_db_unreviewed ++ [review] |})
        /\ Review_booking_id review = 4
        /\ Review_rating review = 5
        /\ Review_comment review = "fine"%string
        /\ reviews_of 4
             {| services := services sample_db_unreviewed;
                bookings := bookings sample_db_unreviewed;
                reviews := reviews sample_db_unreviewed ++ [review] |}
           = [review]).
Proof.
  split; [|split; [|split; [|split; [|split; [|split]]]]].
  - apply (proj1 (review_gate_order sample_db (mkReviewCreate 4 6 "fine") alice 0)).
    vm_compute. intros [[_ H] _]. by apply H.
  - apply (proj1 (proj2
             (review_gate_order sample_db (mkReviewCreate 4 5 "fine") alice 0))).
    vm_compute. repeat split; discriminate.
  - apply (proj1 (proj2 (proj2
             (review_gate_order sample_db (mkReviewCreate 9 5 "fine") alice 0)))).
    reflexivity.
  - apply (proj2 (proj2 (proj2
             (review_gate_order sample_db (mkReviewCreate 2 5 "fine") alice 0)))
             (mkBooking 2 11 1 (12 * hour) (13 * hour) CONFIRMED 0) eq_refl).
    vm_compute. discriminate.
  - apply (proj2 (proj2 (proj2
             (review_gate_order sample_db (mkReviewCreate 1 5 "fine") alice 0)))
             (mkBooking 1 10 1 (10 * hour) (11 * hour) PENDING 0) eq_refl).
    + reflexivity.
    + discriminate.
  - apply (proj2 (proj2 (proj2
             (review_gate_order sample_db (mkReviewCreate 4 5 "fine") alice 0)))
             (mkBooking 4 10 1 (16 * hour) (17 * hour) COMPLETED 0) eq_refl).
    + reflexivity.
    + reflexivity.
    + vm_compute. discriminate.
  - apply (proj2 (proj2 (proj2
             (review_gate_order sample_db_unreviewed
                (mkReviewCreate 4 5 "fine") alice 0)))
             (mkBooking 4 10 1 (16 * hour) (17 * hour) COMPLETED 0) eq_refl).
    + reflexivity.
    + reflexivity.
    + reflexivity.
Defined.

(** ** Start-time validation *)

(** The validator rejects a start time that lies strictly in the past. *)
Lemma validate_start_time_rejects_past now booking_data current_user db :
  BookingCreate_start_time booking_data < now ->
  post_bookings now booking_data current_user db = (inl ValidationError, db).
Proof.
  intros Hpast. unfold post_bookings, BookingCreateSchema.validate_start_time.
  by rewrite (decide_True _ _ Hpast).
Qed.

(** The validator lets through every start time that is not strictly in the
    past, the current instant included. *)
Lemma validate_start_time_accepts now v :
  now <= v -> BookingCreateSchema.validate_start_time now v = inr v.
Proof.
  intros Hle. unfold BookingCreateSchema.validate_start_time.
  by rewrite decide_False by lia.
Qed.

(** C8 (the code at the boundary): a creation request whose start time
    equals the current time passes validation, and on the sample store a
    booking is created for it, although that start time is not strictly in
    the future. *)
Theorem start_time_equal_to_now_is_accepted :
  BookingCreateSchema.validate_start_time (18 * hour) (18 * hour) = inr (18 * hour)
  /\ post_bookings (18 * hour) (mkBookingCreate 1 (18 * hour)) bob sample_db
     = (inr (mkBooking 6 11 1 (18 * hour) (19 * hour) PENDING (18 * hour)),
        {| services := services sample_db;
           bookings := bookings sample_db
                       ++ [mkBooking 6 11 1 (18 * hour) (19 * hour) PENDING (18 * hour)];
           reviews := reviews sample_db |}).
Proof. split; reflexivity. Qed.

(** ** Listing *)

Lemma get_all_elem user_id status from_date to_date db b :
  b ∈ BookingRepository.get_all user_id status from_date to_date db
  <-> b ∈ bookings db
      /\ match user_id with Some u => Booking_user_id b = u | None => True end
      /\ matches_filters status from_date to_date b.
Proof.
  unfold BookingRepository.get_all, matches_filters.
  rewrite merge_sort_Permutation.
  destruct to_date as [t|], from_date as [f|], status as [st|], user_id as [u|];
    rewrite ?list_elem_of_filter; tauto.
Qed.

#[local] Instance start_time_desc_total : Total BookingRepository.start_time_desc.
Proof. intros a b. unfold BookingRepository.start_time_desc. lia. Qed.

(** The listing comes back ordered by start time, latest first. *)
Lemma get_all_sorted user_id status from_date to_date db :
  Sorted BookingRepository.start_time_desc
    (BookingRepository.get_all user_id status from_date to_date db).
Proof. unfold BookingRepository.get_all. apply (Sorted_merge_sort _). Qed.

(** C9: [GET /bookings] reads the store without changing it.  For a caller
    who is not an administrator the returned bookings are exactly the
    caller's own bookings that pass the filters, so each of them has the
    caller's [user_id]; for an administrator they are exactly the bookings
    of the store that pass the filters, whoever owns them. *)
Theorem get_bookings_scope status from_date to_date current_user db :
  exists l,
    get_bookings status from_date to_date current_user db = (inr l, db)
    /\ (User_role current_user <> ADMIN ->
        (forall b, b ∈ l -> Booking_user_id b = User_id current_user)
        /\ (forall b, b ∈ l <->
              b ∈ bookings db
              /\ Booking_user_id b = User_id current_user
              /\ matches_filters status from_date to_date b))
    /\ (User_role current_user = ADMIN ->
        forall b, b ∈ l <->
          b ∈ bookings db /\ matches_filters status from_date to_date b).
Proof.
  unfold get_bookings, query. eexists. split; [reflexivity|]. split.
  - intros Hrole. rewrite (decide_False _ _ Hrole).
    split.
    + intros b Hin. by apply get_all_elem in Hin as (_ & ? & _).
    + intros b. apply get_all_elem.
  - intros Hrole b. rewrite (decide_True _ _ Hrole), get_all_elem. tauto.
Qed.

Lemma get_bookings_scope_witness :
  (exists l,
     get_bookings (Some PENDING) None None alice sample_db = (inr l, sample_db)
     /\ forall b, b ∈ l -> Booking_user_id b = User_id alice)
  /\ (exists l,
     get_bookings None None None root sample_db = (inr l, sample_db)
     /\ forall b, b ∈ l <->
          b ∈ bookings sample_db /\ matches_filters None None None b).
Proof.
  split.
  - destruct (get_bookings_scope (Some PENDING) None None alice sample_db)
      as (l & Heq & Hown & _).
    exists l. split; [exact Heq|]. apply Hown. discriminate.
  - destruct (get_bookings_scope None None None root sample_db)
      as (l & Heq & _ & Hadmin).
    exists l. split; [exact Heq|]. apply Hadmin. reflexivity.
Defined.

(** ** The no-double-booking invariant *)

Lemma half_open_overlap_sym s1 e1 s2 e2 :
  half_open_overlap s1 e1 s2 e2 <-> half_open_overlap s2 e2 s1 e1.
Proof. unfold half_open_overlap. lia. Qed.

(** A window that passed the conflict check overlaps no pending or
    confirmed booking of the service, the excluded one apart. *)
Lemma check_conflict_false_disjoint service_id start_time end_time exclude db b :
  BookingRepository.check_conflict service_id start_time end_time exclude db = false ->
  b ∈ bookings db ->
  Booking_service_id b = service_id ->
  blocking (Booking_status b) ->
  ~ excluded_by exclude b ->
  ~ half_open_overlap start_time end_time (Booking_start_time b) (Booking_end_time b).
Proof.
  intros Hc Hin Hsid Hst Hex Hov. apply Hex.
  apply (proj1 (check_conflict_false _ _ _ _ _) Hc b Hin).
  split; [done|]. split; [done|]. by apply half_open_overlap_clauses.
Qed.

(** A successful creation keeps the invariant. *)
Lemma create_booking_no_double_booking booking_data current_user now db booking db' :
  no_double_booking (bookings db) ->
  create_booking booking_data current_user now db = (inr booking, db') ->
  no_double_booking (bookings db').
Proof.
  intros Hinv. rewrite create_booking_unfold.
  destruct (ServiceRepository.get_by_id _ db) as [service|]; [|done].
  destruct (negb _); [done|].
  destruct (decide (representable _ _)) as [_|_]; [|done].
  destruct (BookingRepository.check_conflict _ _ _ _ db) eqn:Hc; [done|].
  unfold BookingRepository.create. intros [= <- <-]. cbn [bookings].
  intros i j b1 b2 Hi Hj Hij Hsid Hst1 Hst2.
  apply lookup_snoc_Some in Hi as [[Hi1 Hi2]|[Hi1 Hi2]];
    apply lookup_snoc_Some in Hj as [[Hj1 Hj2]|[Hj1 Hj2]].
  - by apply (Hinv i j).
  - subst b2. cbn [Booking_start_time Booking_end_time Booking_service_id] in *.
    rewrite half_open_overlap_sym.
    apply (check_conflict_false_disjoint _ _ _ _ _ b1 Hc);
      [by eapply list_elem_of_lookup_2|done|done|by intros []].
  - subst b1. cbn [Booking_start_time Booking_end_time Booking_service_id] in *.
    apply (check_conflict_false_disjoint _ _ _ _ _ b2 Hc);
      [by eapply list_elem_of_lookup_2|done|done|by intros []].
  - lia.
Qed.

(** Under unique keys, the row stored under a key is the only row with
    that key. *)
Lemma unique_key_row db booking i x :
  NoDup (Booking_id <$> bookings db) ->
  BookingRepository.get_by_id (Booking_id booking) db = Some booking ->
  bookings db !! i = Some x ->
  Booking_id x = Booking_id booking ->
  x = booking.
Proof.
  intros Hnd Hget Hi Hid.
  apply get_by_id_elem, list_elem_of_lookup_1 in Hget as [k Hk].
  assert (Hik : i = k).
  { apply (NoDup_lookup _ i k (Booking_id booking) Hnd);
      rewrite list_lookup_fmap; [rewrite Hi|rewrite Hk]; cbn; congruence. }
  subst k. congruence.
Qed.

(** A successful rescheduling block keeps the invariant when keys are
    unique. *)
Lemma reschedule_no_double_booking booking_data is_owner booking db b' db' :
  NoDup (Booking_id <$> bookings db) ->
  no_double_booking (bookings db) ->
  BookingRepository.get_by_id (Booking_id booking) db = Some booking ->
  handle_rescheduling booking_data is_owner booking db = (inr b', db') ->
  no_double_booking (bookings db').
Proof.
  intros Hnd Hinv Hget. rewrite handle_rescheduling_unfold.
  destruct (BookingUpdate_start_time booking_data) as [t|];
    [destruct is_owner|]; [|by intros [= _ <-]..].
  destruct (decide (~ blocking (Booking_status booking))); [done|].
  destruct (ServiceRepository.get_by_id _ db) as [service|]; [|done].
  destruct (decide (representable _ _)) as [_|_]; [|done].
  destruct (BookingRepository.check_conflict _ _ _ _ db) eqn:Hc; [done|].
  unfold BookingRepository.update. intros [= _ <-]. cbn [bookings].
  set (e := t + timedelta (Service_duration_minutes service)) in *.
  intros i j b1 b2 Hi Hj Hij Hsid Hst1 Hst2.
  apply list_lookup_fmap_Some in Hi as (x1 & -> & Hi).
  apply list_lookup_fmap_Some in Hj as (x2 & -> & Hj).
  assert (Hfree : forall x k,
    bookings db !! k = Some x ->
    Booking_id x <> Booking_id booking ->
    Booking_service_id x = Booking_service_id booking ->
    blocking (Booking_status x) ->
    ~ half_open_overlap t e (Booking_start_time x) (Booking_end_time x)).
  { intros x k Hk Hne Hs Hb.
    apply (check_conflict_false_disjoint _ _ _ _ _ x Hc);
      [by eapply list_elem_of_lookup_2|done|done|by intros [_ ?]]. }
  destruct (decide (Booking_id x1 = Booking_id booking)) as [H1|H1];
    destruct (decide (Booking_id x2 = Booking_id booking)) as [H2|H2].
  - exfalso. apply Hij.
    apply (NoDup_lookup _ i j (Booking_id booking) Hnd);
      rewrite list_lookup_fmap; [rewrite Hi|rewrite Hj]; cbn; congruence.
  - assert (x1 = booking) as -> by (by eapply unique_key_row).
    cbn in Hsid, Hst2 |- *. by apply (Hfree x2 j).
  - assert (x2 = booking) as -> by (by eapply unique_key_row).
    cbn in Hsid, Hst1 |- *. rewrite half_open_overlap_sym. by apply (Hfree x1 i).
  - by apply (Hinv i j).
Qed.

(** ** Scenarios *)

(** A 60-minute service with a booking at 10:00: a request for 10:30 is a
    conflict, a request for 11:00 succeeds, the windows being half-open. *)
Example adjacent_window_is_free :
  fst (create_booking (mkBookingCreate 1 (10 * hour + timedelta 30)) bob 0 sample_db)
    = inl Conflict
  /\ fst (create_booking (mkBookingCreate 1 (11 * hour)) bob 0 sample_db)
     = inr (mkBooking 6 11 1 (11 * hour) (12 * hour) PENDING 0).
Proof. split; reflexivity. Qed.

(** Once the owner has cancelled a pending booking, its window is free. *)
Example cancelled_window_is_free :
  fst (create_booking (mkBookingCreate 1 (10 * hour)) bob 0 sample_db) = inl Conflict
  /\ fst (create_booking (mkBookingCreate 1 (10 * hour)) bob 0
            (snd (update_booking 1 (mkBookingUpdate None (Some CANCELLED))
                    alice sample_db)))
     = inr (mkBooking 6 11 1 (10 * hour) (11 * hour) PENDING 0).
Proof. split; reflexivity. Qed.

(** A review is refused while the booking is pending and accepted once an
    administrator has completed it. *)
Example review_after_completion :
  fst (post_reviews 0 (mkReviewCreate 1 4 "good") alice sample_db) = inl InvalidState
  /\ fst (post_reviews 0 (mkReviewCreate 1 4 "good") alice
            (snd (update_booking 1 (mkBookingUpdate None (Some COMPLETED))
                    root sample_db)))
     = inr (mkReview 2 1 4 "good" 0).
Proof. split; reflexivity. Qed.

(** One request may carry a start time and a status.  The rescheduling
    block commits first: when the status block then refuses, the request
    fails and the new times stay in the store. *)
Example reschedule_survives_refused_status :
  fst (update_booking 1 (mkBookingUpdate (Some (18 * hour)) (Some CONFIRMED))
         alice sample_db) = inl Forbidden
  /\ BookingRepository.get_by_id 1
       (snd (update_booking 1 (mkBookingUpdate (Some (18 * hour)) (Some CONFIRMED))
               alice sample_db))
     = Some (mkBooking 1 10 1 (18 * hour) (19 * hour) PENDING 0).
Proof. split; reflexivity. Qed.

(** The administrator's override is outside the invariant: reopening a
    cancelled booking whose window was taken meanwhile leaves two confirmed
    or pending bookings on one window. *)
Example admin_override_can_double_book :
  let db1 := snd (create_booking (mkBookingCreate 1 (14 * hour)) bob 0 sample_db) in
  let db2 := snd (update_booking 3 (mkBookingUpdate None (Some CONFIRMED)) root db1) in
  BookingRepository.get_by_id 3 db2
    = Some (mkBooking 3 10 1 (14 * hour) (15 * hour) CONFIRMED 0)
  /\ BookingRepository.get_by_id 6 db2
     = Some (mkBooking 6 11 1 (14 * hour) (15 * hour) PENDING 0)
  /\ half_open_overlap (14 * hour) (15 * hour) (14 * hour) (15 * hour).
Proof. split; [reflexivity|]. split; [reflexivity|]. by vm_compute. Qed.

(** ** Requests as sequences of writes *)

Lemma get_service_elem service_id db s :
  ServiceRepository.get_by_id service_id db = Some s ->
  s ∈ services db /\ Service_id s = service_id.
Proof. intros Hget. by apply first_row_passes in Hget as [? ?]. Qed.

Lemma get_review_elem review_id db r :
  ReviewRepository.get_by_id review_id db = Some r ->
  r ∈ reviews db /\ Review_id r = review_id.
Proof. intros Hget. by apply first_row_passes in Hget as [? ?]. Qed.

Lemma update_review_unfold review_id review_data current_user db :
  update_review review_id review_data current_user db =
  match ReviewRepository.get_by_id review_id db with
  | None => (inl NotFound, db)
  | Some review =>
      match BookingRepository.get_by_id (Review_booking_id review) db with
      | None => (inl InternalError, db)
      | Some booking =>
          if decide (Booking_user_id booking <> User_id current_user)
          then (inl Forbidden, db)
          else ReviewRepository.update review review_data db
      end
  end.
Proof.
  unfold update_review, bind, query, raise.
  destruct (ReviewRepository.get_by_id review_id db) as [review|]; [|done].
  destruct (BookingRepository.get_by_id _ db) as [booking|]; [|done].
  by destruct (decide (Booking_user_id booking <> User_id current_user)).
Qed.

Lemma delete_review_unfold review_id current_user db :
  delete_review review_id current_user db =
  match ReviewRepository.get_by_id review_id db with
  | None => (inl NotFound, db)
  | Some review =>
      match BookingRepository.get_by_id (Review_booking_id review) db with
      | None => (inl InternalError, db)
      | Some booking =>
          if negb (bool_decide (Booking_user_id booking = User_id current_user))
             && negb (bool_decide (User_role current_user = ADMIN))
          then (inl Forbidden, db)
          else ReviewRepository.delete review db
      end
  end.
Proof.
  unfold delete_review, bind, query, raise.
  destruct (ReviewRepository.get_by_id review_id db) as [review|]; [|done].
  destruct (BookingRepository.get_by_id _ db) as [booking|]; [|done].
  cbv zeta. by destruct (negb _ && negb _).
Qed.

Lemma update_service_unfold service_id service_data db :
  update_service service_id service_data db =
  match ServiceRepository.get_by_id service_id db with
  | None => (inl NotFound, db)
  | Some service => ServiceRepository.update service service_data db
  end.
Proof.
  unfold update_service, bind, query, raise.
  by destruct (ServiceRepository.get_by_id service_id db).
Qed.

Lemma delete_service_unfold service_id db :
  delete_service service_id db =
  match ServiceRepository.get_by_id service_id db with
  | None => (inl NotFound, db)
  | Some service => ServiceRepository.delete service db
  end.
Proof.
  unfold delete_service, bind, query, raise.
  by destruct (ServiceRepository.get_by_id service_id db).
Qed.

(** The rescheduling block makes at most one write. *)
Lemma handle_rescheduling_writes booking_data is_owner booking db :
  rtc write db (snd (handle_rescheduling booking_data is_owner booking db)).
Proof.
  rewrite handle_rescheduling_unfold.
  destruct (BookingUpdate_start_time booking_data) as [t|]; [|done].
  destruct is_owner; [|done].
  destruct (decide (~ blocking (Booking_status booking))); [done|].
  destruct (ServiceRepository.get_by_id _ db) as [s|] eqn:Hs; [|done].
  destruct (decide (representable _ _)) as [_|_]; [|done].
  destruct (BookingRepository.check_conflict _ _ _ _ db); [done|].
  apply rtc_once. apply write_booking_times. by apply get_service_elem in Hs as [? _].
Qed.

(** The status block makes at most one write. *)
Lemma handle_status_update_writes booking_data is_owner is_admin booking db :
  rtc write db (snd (handle_status_update booking_data is_owner is_admin booking db)).
Proof.
  rewrite handle_status_update_unfold.
  destruct (BookingUpdate_status booking_data) as [st|]; [|done].
  destruct is_admin; [apply rtc_once, write_booking_status|].
  destruct (is_owner && bool_decide (st = CANCELLED)); [|done].
  destruct (decide (~ blocking (Booking_status booking))); [done|].
  apply rtc_once, write_booking_status.
Qed.

(** Whatever its outcome, a request leaves the store it found changed by a
    sequence of writes. *)
Lemma run_writes r db : rtc write db (snd (run r db)).
Proof.
  destruct r as [d u now|i d u|i u now|d u now|i d u|i u|i d|i]; cbn [run];
    unfold discard.
  - rewrite create_booking_unfold.
    destruct (ServiceRepository.get_by_id _ db) as [s|] eqn:Hs; [|done].
    destruct (negb _); [done|].
    destruct (decide (representable _ _)) as [_|_]; [|done].
    destruct (BookingRepository.check_conflict _ _ _ _ db); [done|].
    apply get_service_elem in Hs as [Hin Hid].
    apply rtc_once. by apply (write_booking_created db _ _ _ _ s).
  - rewrite update_booking_unfold.
    destruct (BookingRepository.get_by_id i db) as [b|]; [|done]. cbv zeta.
    destruct (negb _ && negb _); [done|].
    pose proof (handle_rescheduling_writes d
      (bool_decide (Booking_user_id b = User_id u)) b db) as H1.
    destruct (handle_rescheduling _ _ b db) as [[e|b1] db1]; [done|].
    cbn [snd] in H1.
    pose proof (handle_status_update_writes d
      (bool_decide (Booking_user_id b = User_id u))
      (bool_decide (User_role u = ADMIN)) b1 db1) as H2.
    destruct (handle_status_update _ _ _ b1 db1) as [[e|b2] db2];
      cbn [snd] in H2 |- *; by etrans.
  - rewrite delete_booking_unfold.
    destruct (BookingRepository.get_by_id i db) as [b|]; [|done]. cbv zeta.
    destruct (negb _ && negb _); [done|].
    destruct (_ && negb _);
      [destruct (decide (Booking_start_time b <= now)); [done|]|];
      apply rtc_once, write_booking_deleted.
  - rewrite create_review_unfold.
    destruct (BookingRepository.get_by_id _ db) as [b|] eqn:Hb; [|done].
    destruct (decide (Booking_user_id b <> User_id u)); [done|].
    destruct (decide (Booking_status b <> COMPLETED)); [done|].
    destruct (ReviewRepository.get_by_booking_id _ db) eqn:Hr; [done|].
    apply rtc_once.
    apply (write_review_created db d now b);
      [by eapply get_by_id_elem|by eapply get_by_id_key|done].
  - rewrite update_review_unfold.
    destruct (ReviewRepository.get_by_id i db) as [r|]; [|done].
    destruct (BookingRepository.get_by_id _ db) as [b|]; [|done].
    destruct (decide (Booking_user_id b <> User_id u)); [done|].
    destruct (ReviewRepository.update r d db) as [[e|r'] db'] eqn:Hup.
    + revert Hup. unfold ReviewRepository.update.
      destruct (_ || _); [by intros [= _ <-]|done].
    + apply rtc_once. apply (write_review_updated db r d).
      revert Hup. unfold ReviewRepository.update.
      destruct (_ || _); [done|by intros [= <- <-]].
  - rewrite delete_review_unfold.
    destruct (ReviewRepository.get_by_id i db) as [r|]; [|done].
    destruct (BookingRepository.get_by_id _ db) as [b|]; [|done].
    destruct (negb _ && negb _); [done|].
    apply rtc_once, write_review_deleted.
  - rewrite update_service_unfold.
    destruct (ServiceRepository.get_by_id i db) as [s|]; [|done].
    destruct (ServiceRepository.update s d db) as [[e|s'] db'] eqn:Hup.
    + revert Hup. unfold ServiceRepository.update.
      destruct (_ || _); [by intros [= _ <-]|done].
    + apply rtc_once. apply (write_service_updated db s d).
      revert Hup. unfold ServiceRepository.update.
      destruct (_ || _); [done|by intros [= <- <-]].
  - rewrite delete_service_unfold.
    destruct (ServiceRepository.get_by_id i db) as [s|]; [|done].
    apply rtc_once, write_service_deleted.
Qed.

(** ** Keys *)

Lemma fresh_id_above ids x : x ∈ ids -> x < fresh_id ids.
Proof.
  unfold fresh_id. induction ids as [|y ids IH]; intros Hin.
  - by apply elem_of_nil in Hin.
  - apply elem_of_cons in Hin as [->|Hin]; cbn [foldr]; [lia|].
    specialize (IH Hin). lia.
Qed.

Lemma fresh_id_fresh ids : fresh_id ids ∉ ids.
Proof. intros Hin. apply fresh_id_above in Hin. lia. Qed.

Lemma NoDup_fmap_filter {A B} (f : A -> B) (P : A -> Prop)
    `{!forall x, Decision (P x)} (l : list A) :
  NoDup (f <$> l) -> NoDup (f <$> filter P l).
Proof.
  intros Hnd. apply (sublist_NoDup _ _ Hnd).
  apply fmap_sublist. by apply sublist_filter.
Qed.

Lemma NoDup_snoc_fresh (ids : list Z) (x : Z) :
  NoDup ids -> x ∉ ids -> NoDup (ids ++ [x]).
Proof.
  intros Hnd Hx. apply NoDup_app. split; [done|]. split; [|apply NoDup_singleton].
  intros y Hy Hy'. apply list_elem_of_singleton in Hy' as ->. done.
Qed.

Lemma booking_update_ids booking start_time end_time status db :
  Booking_id <$> bookings
    (snd (BookingRepository.update booking start_time end_time status db))
  = Booking_id <$> bookings db.
Proof.
  unfold BookingRepository.update. cbn [snd bookings].
  rewrite <- list_fmap_compose. apply list_fmap_ext. intros i x _. cbn.
  by destruct (decide (Booking_id x = Booking_id booking)).
Qed.

Lemma review_update_rows review review_data db r' db' :
  ReviewRepository.update review review_data db = (inr r', db') ->
  services db' = services db
  /\ bookings db' = bookings db
  /\ Review_id <$> reviews db' = Review_id <$> reviews db
  /\ Review_booking_id <$> reviews db' = Review_booking_id <$> reviews db.
Proof.
  unfold ReviewRepository.update. destruct (_ || _); [done|].
  intros [= _ <-]. cbn [services bookings reviews].
  split; [done|]. split; [done|].
  split; rewrite <- list_fmap_compose; apply list_fmap_ext; intros i x _; cbn;
    by destruct (decide (Review_id x = Review_id review)).
Qed.

Lemma service_update_rows service service_data db s' db' :
  ServiceRepository.update service service_data db = (inr s', db') ->
  bookings db' = bookings db
  /\ reviews db' = reviews db
  /\ Service_id <$> services db' = Service_id <$> services db.
Proof.
  unfold ServiceRepository.update. destruct (_ || _); [done|].
  intros [= _ <-]. cbn [services bookings reviews].
  split; [done|]. split; [done|].
  rewrite <- list_fmap_compose; apply list_fmap_ext; intros i x _; cbn.
  by destruct (decide (Service_id x = Service_id service)).
Qed.

Lemma write_unique_keys db db' :
  write db db' -> unique_keys db -> unique_keys db'.
Proof.
  intros Hw (Hs & Hb & Hr).
  destruct Hw as [user_id service_id start_time now s _ _
                 |booking start_time s _
                 |booking status
                 |booking
                 |review_data now b _ _ _
                 |review review_data db' Hup
                 |review
                 |service service_data db' Hup
                 |service]; unfold unique_keys.
  - cbn [snd BookingRepository.create services bookings reviews].
    split; [done|]. split; [|done].
    rewrite fmap_app. cbn. apply NoDup_snoc_fresh; [done|apply fresh_id_fresh].
  - rewrite booking_update_ids. by repeat split.
  - rewrite booking_update_ids. by repeat split.
  - cbn [snd BookingRepository.delete services bookings reviews].
    split; [done|]. split; by apply NoDup_fmap_filter.
  - cbn [snd ReviewRepository.create services bookings reviews].
    split; [done|]. split; [done|].
    rewrite fmap_app. cbn. apply NoDup_snoc_fresh; [done|apply fresh_id_fresh].
  - apply review_update_rows in Hup as (-> & -> & -> & _). by repeat split.
  - cbn [snd ReviewRepository.delete services bookings reviews].
    split; [done|]. split; [done|]. by apply NoDup_fmap_filter.
  - apply service_update_rows in Hup as (-> & -> & ->). by repeat split.
  - cbn [snd ServiceRepository.delete services bookings reviews].
    split; [|split]; by apply NoDup_fmap_filter.
Qed.

(** X1: no request makes two rows of a table share a key: when the
    primary keys of services, bookings and reviews are unique before a
    request, they are unique after it, whether it succeeds or fails. *)
Theorem requests_keep_unique_keys r db :
  unique_keys db -> unique_keys (snd (run r db)).
Proof.
  intros Hk. induction (run_writes r db) as [|db1 db2 db3 Hw _ IH]; [done|].
  apply IH. by eapply write_unique_keys.
Qed.

(** ** References *)

Lemma booking_update_elem booking start_time end_time status db x :
  x ∈ bookings (snd (BookingRepository.update booking start_time end_time status db))
  <-> exists y, y ∈ bookings db
        /\ x = (if decide (Booking_id y = Booking_id booking)
                then BookingRepository.set_attrs start_time end_time status y
                else y).
Proof.
  unfold BookingRepository.update. cbn [snd bookings].
  rewrite list_elem_of_fmap. split; intros (y & Hy1 & Hy2); by exists y.
Qed.

Lemma write_booking_has_service db db' :
  write db db' -> booking_has_service db -> booking_has_service db'.
Proof.
  intros Hw Hfk.
  destruct Hw as [user_id service_id start_time now s Hs Hsid
                 |booking start_time s _
                 |booking status
                 |booking
                 |review_data now b _ _ _
                 |review review_data db' Hup
                 |review
                 |service service_data db' Hup
                 |service]; intros x Hx.
  - cbn [snd BookingRepository.create services bookings] in Hx |- *.
    apply elem_of_app in Hx as [Hx|Hx]; [by apply Hfk|].
    apply list_elem_of_singleton in Hx as ->. by exists s.
  - apply booking_update_elem in Hx as (y & Hy & ->).
    destruct (Hfk y Hy) as (s' & Hs' & Hid). exists s'. split; [done|].
    by destruct (decide (Booking_id y = Booking_id booking)).
  - apply booking_update_elem in Hx as (y & Hy & ->).
    destruct (Hfk y Hy) as (s' & Hs' & Hid). exists s'. split; [done|].
    by destruct (decide (Booking_id y = Booking_id booking)).
  - cbn [snd BookingRepository.delete services bookings] in Hx |- *.
    apply list_elem_of_filter in Hx as [_ Hx]. by apply Hfk.
  - by apply Hfk.
  - apply review_update_rows in Hup as (Hs & Hb & _). rewrite Hs. rewrite Hb in Hx.
    by apply Hfk.
  - by apply Hfk.
  - revert Hup Hx. unfold ServiceRepository.update. destruct (_ || _); [done|].
    intros [= <-]. cbn [services bookings]. intros Hx.
    destruct (Hfk x Hx) as (s' & Hs' & Hid).
    exists (if decide (Service_id s' = Service_id service)
            then ServiceRepository.set_attrs service_data s' else s').
    split.
    + apply list_elem_of_fmap. by exists s'.
    + by destruct (decide (Service_id s' = Service_id service)).
  - cbn [snd ServiceRepository.delete services bookings] in Hx |- *.
    apply list_elem_of_filter in Hx as [Hne Hx].
    destruct (Hfk x Hx) as (s' & Hs' & Hid). exists s'. split; [|done].
    apply list_elem_of_filter. split; [congruence|done].
Qed.

Lemma write_review_has_booking db db' :
  write db db' -> review_has_booking db -> review_has_booking db'.
Proof.
  intros Hw Hfk.
  destruct Hw as [user_id service_id start_time now s Hs Hsid
                 |booking start_time s _
                 |booking status
                 |booking
                 |review_data now b Hb Hbid _
                 |review review_data db' Hup
                 |review
                 |service service_data db' Hup
                 |service]; intros x Hx.
  - cbn [snd BookingRepository.create bookings reviews] in Hx |- *.
    destruct (Hfk x Hx) as (b & Hb & Hid). exists b. split; [|done].
    apply elem_of_app. by left.
  - destruct (Hfk x Hx) as (b & Hb & Hid).
    eexists. split; [apply booking_update_elem; by exists b|].
    by destruct (decide (Booking_id b = Booking_id booking)).
  - destruct (Hfk x Hx) as (b & Hb & Hid).
    eexists. split; [apply booking_update_elem; by exists b|].
    by destruct (decide (Booking_id b = Booking_id booking)).
  - cbn [snd BookingRepository.delete bookings reviews] in Hx |- *.
    apply list_elem_of_filter in Hx as [Hne Hx].
    destruct (Hfk x Hx) as (b & Hb & Hid). exists b. split; [|done].
    apply list_elem_of_filter. split; [congruence|done].
  - cbn [snd ReviewRepository.create bookings reviews] in Hx |- *.
    apply elem_of_app in Hx as [Hx|Hx]; [by apply Hfk|].
    apply list_elem_of_singleton in Hx as ->. by exists b.
  - revert Hup Hx. unfold ReviewRepository.update. destruct (_ || _); [done|].
    intros [= <-]. cbn [bookings reviews]. intros Hx.
    apply list_elem_of_fmap in Hx as (y & -> & Hy).
    destruct (Hfk y Hy) as (b & Hb & Hid). exists b. split; [done|].
    by destruct (decide (Review_id y = Review_id review)).
  - cbn [snd ReviewRepository.delete bookings reviews] in Hx |- *.
    apply list_elem_of_filter in Hx as [_ Hx]. by apply Hfk.
  - apply service_update_rows in Hup as (Hb & Hr & _). rewrite Hb. rewrite Hr in Hx.
    by apply Hfk.
  - cbn [snd ServiceRepository.delete bookings reviews] in Hx |- *.
    apply list_elem_of_filter in Hx as [Hkeep Hx].
    destruct (Hfk x Hx) as (b & Hb & Hid). exists b. split; [|done].
    apply list_elem_of_filter. split; [|done].
    intros Hsid. apply Hkeep. rewrite <- Hid.
    apply list_elem_of_fmap. exists b. split; [done|].
    by apply list_elem_of_filter.
Qed.

(** X2: no request leaves a dangling reference: when every booking names a
    stored service it still does after any request, and when every review
    names a stored booking it still does after any request, whether the
    request succeeds or fails. *)
Theorem requests_keep_references r db :
  (booking_has_service db -> booking_has_service (snd (run r db)))
  /\ (review_has_booking db -> review_has_booking (snd (run r db))).
Proof.
  induction (run_writes r db) as [|db1 db2 db3 Hw _ IH]; [done|].
  destruct IH as [IH1 IH2].
  split; intros H; [apply IH1|apply IH2];
    by eauto using write_booking_has_service, write_review_has_booking.
Qed.

(** ** One review per booking *)

Lemma write_one_review_per_booking db db' :
  write db db' -> one_review_per_booking db -> one_review_per_booking db'.
Proof.
  unfold one_review_per_booking. intros Hw Hnd.
  destruct Hw as [user_id service_id start_time now s Hs Hsid
                 |booking start_time s _
                 |booking status
                 |booking
                 |review_data now b Hb Hbid Hnone
                 |review review_data db' Hup
                 |review
                 |service service_data db' Hup
                 |service]; try done.
  - cbn [snd BookingRepository.delete reviews]. by apply NoDup_fmap_filter.
  - cbn [snd ReviewRepository.create reviews]. rewrite fmap_app. cbn.
    apply NoDup_snoc_fresh; [done|].
    intros Hin. apply list_elem_of_fmap in Hin as (x & Hx & Hin).
    apply (proj1 (no_first_row _ _) Hnone x Hin). done.
  - by apply review_update_rows in Hup as (_ & _ & _ & ->).
  - cbn [snd ReviewRepository.delete reviews]. by apply NoDup_fmap_filter.
  - by apply service_update_rows in Hup as (_ & -> & _).
  - cbn [snd ServiceRepository.delete reviews]. by apply NoDup_fmap_filter.
Qed.

(** X3: no request gives a booking a second review: when no two stored
    reviews name the same booking before a request, none do after it. *)
Theorem requests_keep_one_review_per_booking r db :
  one_review_per_booking db -> one_review_per_booking (snd (run r db)).
Proof.
  intros Hk. induction (run_writes r db) as [|db1 db2 db3 Hw _ IH]; [done|].
  apply IH. by eapply write_one_review_per_booking.
Qed.

(** ** Checked columns *)

Lemma timedelta_positive m : m > 0 -> timedelta m > 0.
Proof. unfold timedelta. lia. Qed.

Lemma booking_update_windows booking start_time end_time status db :
  match start_time, end_time with
  | Some t, Some e => e > t
  | None, None => True
  | _, _ => False
  end ->
  valid_windows db ->
  valid_windows (snd (BookingRepository.update booking start_time end_time status db)).
Proof.
  intros Hte Hv x Hx. apply booking_update_elem in Hx as (y & Hy & ->).
  specialize (Hv y Hy).
  destruct (decide (Booking_id y = Booking_id booking)); [|done].
  destruct start_time, end_time; cbn; done.
Qed.

Lemma handle_rescheduling_windows booking_data is_owner booking db :
  positive_durations db -> valid_windows db ->
  valid_windows (snd (handle_rescheduling booking_data is_owner booking db))
  /\ services (snd (handle_rescheduling booking_data is_owner booking db)) = services db
  /\ reviews (snd (handle_rescheduling booking_data is_owner booking db)) = reviews db.
Proof.
  intros Hd Hv. rewrite handle_rescheduling_unfold.
  destruct (BookingUpdate_start_time booking_data) as [t|]; [|done].
  destruct is_owner; [|done].
  destruct (decide (~ blocking (Booking_status booking))); [done|].
  destruct (ServiceRepository.get_by_id _ db) as [s|] eqn:Hs; [|done].
  destruct (decide (representable _ _)) as [_|_]; [|done].
  destruct (BookingRepository.check_conflict _ _ _ _ db); [done|].
  split; [|done]. apply booking_update_windows; [|done].
  apply get_service_elem in Hs as [Hs _]. apply Hd, timedelta_positive in Hs. lia.
Qed.

Lemma handle_status_update_windows booking_data is_owner is_admin booking db :
  valid_windows db ->
  valid_windows (snd (handle_status_update booking_data is_owner is_admin booking db))
  /\ services (snd (handle_status_update booking_data is_owner is_admin booking db))
     = services db
  /\ reviews (snd (handle_status_update booking_data is_owner is_admin booking db))
     = reviews db.
Proof.
  intros Hv. rewrite handle_status_update_unfold.
  destruct (BookingUpdate_status booking_data) as [st|]; [|done].
  destruct is_admin; [split; [by apply booking_update_windows|done]|].
  destruct (is_owner && bool_decide (st = CANCELLED)); [|done].
  destruct (decide (~ blocking (Booking_status booking))); [done|].
  split; [by apply booking_update_windows|done].
Qed.

(** X4: the checked columns stay within their checks: when every stored
    service has a positive duration, every stored booking ends after it
    starts and every stored rating lies between 1 and 5, the same holds
    after any request whose body passed its schema, whether the request
    succeeds or fails. *)
Theorem requests_keep_checks r db :
  validated r ->
  positive_durations db -> valid_windows db -> valid_ratings db ->
  positive_durations (snd (run r db))
  /\ valid_windows (snd (run r db))
  /\ valid_ratings (snd (run r db)).
Proof.
  intros Hok Hd Hv Hr.
  destruct r as [d u now|i d u|i u now|d u now|i d u|i u|i d|i]; cbn [run validated] in *;
    unfold discard.
  - rewrite create_booking_unfold.
    destruct (ServiceRepository.get_by_id _ db) as [s|] eqn:Hs; [|done].
    destruct (negb _); [done|].
    destruct (decide (representable _ _)) as [_|_]; [|done].
    destruct (BookingRepository.check_conflict _ _ _ _ db); [done|].
    cbn [BookingRepository.create snd services bookings reviews].
    split; [done|]. split; [|done].
    intros x Hx. apply elem_of_app in Hx as [Hx|Hx]; [by apply Hv|].
    apply list_elem_of_singleton in Hx as ->. cbn.
    apply get_service_elem in Hs as [Hs _]. apply Hd, timedelta_positive in Hs. lia.
  - rewrite update_booking_unfold.
    destruct (BookingRepository.get_by_id i db) as [b|]; [|done]. cbv zeta.
    destruct (negb _ && negb _); [done|].
    destruct (handle_rescheduling_windows d
      (bool_decide (Booking_user_id b = User_id u)) b db Hd Hv) as (Hv1 & Hs1 & Hr1).
    destruct (handle_rescheduling _ _ b db) as [[e|b1] db1];
      cbn [snd] in Hv1, Hs1, Hr1 |- *.
    { unfold positive_durations, valid_ratings. by rewrite Hs1, Hr1. }
    destruct (handle_status_update_windows d
      (bool_decide (Booking_user_id b = User_id u))
      (bool_decide (User_role u = ADMIN)) b1 db1 Hv1) as (Hv2 & Hs2 & Hr2).
    destruct (handle_status_update _ _ _ b1 db1) as [[e|b2] db2];
      cbn [snd] in Hv2, Hs2, Hr2 |- *;
      unfold positive_durations, valid_ratings; by rewrite Hs2, Hs1, Hr2, Hr1.
  - rewrite delete_booking_unfold.
    destruct (BookingRepository.get_by_id i db) as [b|]; [|done]. cbv zeta.
    assert (Hdel : positive_durations (snd (BookingRepository.delete b db))
                   /\ valid_windows (snd (BookingRepository.delete b db))
                   /\ valid_ratings (snd (BookingRepository.delete b db))).
    { cbn [BookingRepository.delete snd]. split; [done|].
      split; intros x Hx; apply list_elem_of_filter in Hx as [_ Hx];
        [by apply Hv|by apply Hr]. }
    destruct (negb _ && negb _); [done|].
    destruct (_ && negb _); [|done].
    by destruct (decide (Booking_start_time b <= now)).
  - rewrite create_review_unfold.
    destruct (BookingRepository.get_by_id _ db) as [b|]; [|done].
    destruct (decide (Booking_user_id b <> User_id u)); [done|].
    destruct (decide (Booking_status b <> COMPLETED)); [done|].
    destruct (ReviewRepository.get_by_booking_id _ db); [done|].
    cbn [ReviewRepository.create snd]. split; [done|]. split; [done|].
    intros x Hx. cbn [reviews] in Hx.
    apply elem_of_app in Hx as [Hx|Hx]; [by apply Hr|].
    by apply list_elem_of_singleton in Hx as ->.
  - rewrite update_review_unfold.
    destruct (ReviewRepository.get_by_id i db) as [r|]; [|done].
    destruct (BookingRepository.get_by_id _ db) as [b|]; [|done].
    destruct (decide (Booking_user_id b <> User_id u)); [done|].
    unfold ReviewRepository.update. destruct (_ || _); [done|].
    cbn [snd]. split; [done|]. split; [done|].
    intros x Hx. cbn [reviews] in Hx.
    apply list_elem_of_fmap in Hx as (y & -> & Hy). specialize (Hr y Hy).
    destruct (decide (Review_id y = Review_id r)); [|done].
    cbn. by destruct (ReviewUpdate_rating d).
  - rewrite delete_review_unfold.
    destruct (ReviewRepository.get_by_id i db) as [r|]; [|done].
    destruct (BookingRepository.get_by_id _ db) as [b|]; [|done].
    destruct (negb _ && negb _); [done|].
    cbn [ReviewRepository.delete snd]. split; [done|]. split; [done|].
    intros x Hx. apply list_elem_of_filter in Hx as [_ Hx]. by apply Hr.
  - rewrite update_service_unfold.
    destruct (ServiceRepository.get_by_id i db) as [s|]; [|done].
    unfold ServiceRepository.update. destruct (_ || _); [done|].
    cbn [snd]. split; [|done].
    intros x Hx. cbn [services] in Hx.
    apply list_elem_of_fmap in Hx as (y & -> & Hy). specialize (Hd y Hy).
    destruct (decide (Service_id y = Service_id s)); [|done].
    cbn. by destruct (ServiceUpdate_duration_minutes d).
  - rewrite delete_service_unfold.
    destruct (ServiceRepository.get_by_id i db) as [s|]; [|done].
    cbn [ServiceRepository.delete snd].
    split; [|split]; intros x Hx; apply list_elem_of_filter in Hx as [_ Hx];
      [by apply Hd|by apply Hv|by apply Hr].
Qed.

(** ** Uncaught exceptions *)

Lemma service_found db b :
  booking_has_service db -> b ∈ bookings db ->
  exists s, ServiceRepository.get_by_id (Booking_service_id b) db = Some s.
Proof.
  intros Hfk Hb. destruct (Hfk b Hb) as (s & Hs & Hid).
  by apply (first_row_exists _ _ s).
Qed.

Lemma booking_found db r :
  review_has_booking db -> r ∈ reviews db ->
  exists b, BookingRepository.get_by_id (Review_booking_id r) db = Some b.
Proof.
  intros Hfk Hr. destruct (Hfk r Hr) as (b & Hb & Hid).
  by apply (first_row_exists _ _ b).
Qed.

(** X5: on a store without dangling references, a request none of whose
    fields was sent as [null] ends in an uncaught exception exactly when
    it reaches the computation of an end time that is not representable:
    a creation for an active service, or a reschedule by the owner of a
    pending or confirmed booking. *)
Theorem requests_crash_only_by_overflow r db :
  booking_has_service db -> review_has_booking db -> without_null r ->
  fst (run r db) = inl InternalError <-> overflows r db.
Proof.
  intros Hbs Hrb Hnn.
  destruct r as [d u now|i d u|i u now|d u now|i d u|i u|i d|i];
    cbn [run without_null overflows] in *; unfold discard.
  - rewrite create_booking_unfold.
    destruct (ServiceRepository.get_by_id _ db) as [s|]; [|by split; [|intros (? & ? & _)]].
    destruct (Service_is_active s) eqn:Hact; cbn [negb].
    + destruct (decide (representable _ _)) as [Hrep|Hrep].
      * split; [by destruct (BookingRepository.check_conflict _ _ _ _ db)|].
        intros (s' & [= <-] & _ & Hno). by destruct Hno.
      * split; [|done]. intros _. by exists s.
    + split; [done|]. intros (s' & [= <-] & Hact' & _). congruence.
  - rewrite update_booking_unfold.
    destruct (BookingRepository.get_by_id i db) as [b|] eqn:Hb;
      [|by split; [|intros (? & ? & ? & ? & _)]].
    cbv zeta.
    destruct (decide (Booking_user_id b = User_id u)) as [Hown|Hown].
    + rewrite (bool_decide_eq_true_2 _ Hown). cbn [negb andb].
      rewrite handle_rescheduling_unfold.
      destruct (BookingUpdate_start_time d) as [t|].
      * destruct (decide (~ blocking (Booking_status b))) as [Hst|Hst].
        { split; [done|]. intros (b' & t' & s' & [= <-] & _ & _ & Hbl & _). done. }
        apply get_by_id_elem in Hb. destruct (service_found db b Hbs Hb) as [s Hs].
        rewrite Hs.
        destruct (decide (representable _ _)) as [Hrep|Hrep].
        -- split.
           ++ destruct (BookingRepository.check_conflict _ _ _ _ db); [done|].
              unfold BookingRepository.update.
              rewrite handle_status_update_unfold.
              destruct (BookingUpdate_status d) as [st|]; [|done].
              destruct (bool_decide (User_role u = ADMIN)); [done|].
              destruct (_ && bool_decide (st = CANCELLED)); [|done].
              by destruct (decide (~ blocking _)).
           ++ intros (b' & t' & s' & [= <-] & _ & [= <-] & _ & Hs' & Hno).
              rewrite Hs in Hs'. injection Hs' as <-. by destruct Hno.
        -- split; [|done]. intros _. exists b, t, s.
           split; [done|]. split; [done|]. split; [done|].
           split; [by apply dec_stable|]. done.
      * split; [|by intros (? & ? & ? & _ & _ & ? & _)].
        rewrite handle_status_update_unfold.
        destruct (BookingUpdate_status d) as [st|]; [|done].
        destruct (bool_decide (User_role u = ADMIN)); [done|].
        destruct (_ && bool_decide (st = CANCELLED)); [|done].
        by destruct (decide (~ blocking (Booking_status b))).
    + rewrite (bool_decide_eq_false_2 _ Hown). cbn [negb andb].
      split; [|by intros (b' & ? & ? & [= <-] & ? & _)].
      destruct (negb (bool_decide (User_role u = ADMIN))); [done|].
      rewrite handle_rescheduling_unfold.
      destruct (BookingUpdate_start_time d) as [t|];
        rewrite handle_status_update_unfold;
        (destruct (BookingUpdate_status d) as [st|]; [|done]);
        (destruct (bool_decide (User_role u = ADMIN)); [done|]);
        cbn [andb]; done.
  - rewrite delete_booking_unfold. split; [|done].
    destruct (BookingRepository.get_by_id i db) as [b|]; [|done]. cbv zeta.
    destruct (negb _ && negb _); [done|].
    destruct (_ && negb _); [|done].
    by destruct (decide (Booking_start_time b <= now)).
  - rewrite create_review_unfold. split; [|done].
    destruct (BookingRepository.get_by_id _ db) as [b|]; [|done].
    destruct (decide (Booking_user_id b <> User_id u)); [done|].
    destruct (decide (Booking_status b <> COMPLETED)); [done|].
    by destruct (ReviewRepository.get_by_booking_id _ db).
  - rewrite update_review_unfold. split; [|done].
    destruct (ReviewRepository.get_by_id i db) as [r|] eqn:Hr; [|done].
    apply get_review_elem in Hr as [Hr _].
    destruct (booking_found db r Hrb Hr) as [b ->].
    destruct (decide (Booking_user_id b <> User_id u)); [done|].
    unfold ReviewRepository.update. destruct Hnn as [-> ->]. done.
  - rewrite delete_review_unfold. split; [|done].
    destruct (ReviewRepository.get_by_id i db) as [r|] eqn:Hr; [|done].
    apply get_review_elem in Hr as [Hr _].
    destruct (booking_found db r Hrb Hr) as [b ->].
    by destruct (negb _ && negb _).
  - rewrite update_service_unfold. split; [|done].
    destruct (ServiceRepository.get_by_id i db) as [s|]; [|done].
    unfold ServiceRepository.update.
    destruct Hnn as (-> & -> & -> & -> & ->). done.
  - rewrite delete_service_unfold. split; [|done].
    by destruct (ServiceRepository.get_by_id i db).
Qed.

(** ** Exact conflict detection *)

(** On windows that end after they start, the three clauses imply the
    half-open overlap. *)
Lemma overlap_clauses_half_open (s1 e1 s2 e2 : Z) :
  e1 > s1 -> e2 > s2 ->
  overlap_clauses s2 e2 s1 e1 -> half_open_overlap s1 e1 s2 e2.
Proof. unfold half_open_overlap, overlap_clauses. lia. Qed.

(** X6: for an active service of positive duration on a store whose
    bookings end after they start, a creation has exactly three outcomes:
    the uncaught [OverflowError] when the end time is not representable;
    [Conflict] when it is and the window overlaps a pending or confirmed
    booking of the service; and a stored booking when it is and the window
    overlaps none.  The store is as it was in the first two. *)
Theorem create_booking_conflict_exact booking_data current_user now db service :
  ServiceRepository.get_by_id (BookingCreate_service_id booking_data) db
    = Some service ->
  Service_is_active service = true ->
  Service_duration_minutes service > 0 ->
  valid_windows db ->
  let start_time := BookingCreate_start_time booking_data in
  let end_time := start_time + timedelta (Service_duration_minutes service) in
  let in_range := representable start_time (Service_duration_minutes service) in
  let taken :=
    exists b, b ∈ bookings db
      /\ Booking_service_id b = BookingCreate_service_id booking_data
      /\ blocking (Booking_status b)
      /\ half_open_overlap start_time end_time
           (Booking_start_time b) (Booking_end_time b) in
  (~ in_range <->
   create_booking booking_data current_user now db = (inl InternalError, db))
  /\ (in_range /\ taken <->
      create_booking booking_data current_user now db = (inl Conflict, db))
  /\ (in_range /\ ~ taken <->
      exists booking,
        create_booking booking_data current_user now db
        = (inr booking,
           {| services := services db;
              bookings := bookings db ++ [booking];
              reviews := reviews db |})).
Proof.
  intros Hsvc Hact Hdur Hv start_time end_time in_range taken.
  assert (Hiff : BookingRepository.check_conflict
                   (BookingCreate_service_id booking_data) start_time end_time None db
                 = true <-> taken).
  { rewrite check_conflict_true. unfold taken. split.
    - intros (b & Hb & (Hsid & Hst & Hov) & _). exists b.
      split; [done|]. split; [done|]. split; [done|].
      apply overlap_clauses_half_open; [|by apply Hv|done].
      unfold end_time. apply timedelta_positive in Hdur. lia.
    - intros (b & Hb & Hsid & Hst & Hov). exists b.
      split; [done|]. split; [|by intros []].
      split; [done|]. split; [done|]. by apply half_open_overlap_clauses. }
  rewrite create_booking_unfold, Hsvc, Hact. cbn [negb].
  fold start_time. fold end_time. fold in_range.
  destruct (decide in_range) as [Hrep|Hrep].
  - destruct (BookingRepository.check_conflict _ _ _ _ db) eqn:Hc.
    + assert taken by (by apply Hiff).
      split; [by split|]. split; [by split|].
      split; [by intros [_ ?]|by intros [booking Heq]].
    + assert (~ taken) by (intros Ht; apply Hiff in Ht; done).
      split; [by split|]. split; [by split; [intros [_ ?]|]|].
      split; [|done]. intros _. eexists. reflexivity.
  - split; [done|]. split; [by split; [intros [? _]|]|].
    split; [by intros [? _]|by intros [booking Heq]].
Qed.

(** X7: the owner of a pending or confirmed booking can move it to any
    window with a representable end that overlaps no other pending or
    confirmed booking of the service, its own current window included; the
    request succeeds and the stored booking carries the new start.
    (Durations positive, stored windows valid, the booking's key other
    than 0.) *)
Theorem reschedule_over_own_window db booking_id start_time current_user old service :
  BookingRepository.get_by_id booking_id db = Some old ->
  Booking_user_id old = User_id current_user ->
  blocking (Booking_status old) ->
  booking_id <> 0 ->
  ServiceRepository.get_by_id (Booking_service_id old) db = Some service ->
  Service_duration_minutes service > 0 ->
  representable start_time (Service_duration_minutes service) ->
  valid_windows db ->
  (forall b, b ∈ bookings db ->
     Booking_id b <> booking_id ->
     Booking_service_id b = Booking_service_id old ->
     blocking (Booking_status b) ->
     ~ half_open_overlap start_time
         (start_time + timedelta (Service_duration_minutes service))
         (Booking_start_time b) (Booking_end_time b)) ->
  exists b' db',
    update_booking booking_id (mkBookingUpdate (Some start_time) None)
      current_user db = (inr b', db')
    /\ BookingRepository.get_by_id booking_id db' = Some b'
    /\ Booking_start_time b' = start_time
    /\ Booking_end_time b'
       = start_time + timedelta (Service_duration_minutes service).
Proof.
  intros Hget Hown Hst Hnz Hsvc Hdur Hrep Hv Hfree.
  pose proof (get_by_id_key _ _ _ Hget) as Hkey.
  destruct (update_booking booking_id (mkBookingUpdate (Some start_time) None)
              current_user db) as [[e|b'] db'] eqn:Hup.
  - exfalso. revert Hup.
    rewrite update_booking_unfold, Hget. cbv zeta.
    rewrite (bool_decide_eq_true_2 _ Hown). cbn [negb andb].
    rewrite handle_rescheduling_unfold. cbn [BookingUpdate_start_time].
    destruct (decide (~ blocking (Booking_status old))); [done|].
    rewrite Hsvc, (decide_True _ _ Hrep).
    replace (BookingRepository.check_conflict _ _ _ _ db) with false; [done|].
    symmetry. apply check_conflict_false. intros b Hb (Hsid & Hstb & Hov).
    cbn [excluded_by]. rewrite Hkey. split; [done|].
    destruct (decide (Booking_id b = booking_id)) as [|Hne]; [done|].
    exfalso. apply (Hfree b Hb Hne Hsid Hstb).
    apply overlap_clauses_half_open; [|by apply Hv|done].
    apply timedelta_positive in Hdur. lia.
  - exists b', db'. split; [done|].
    destruct (update_booking_ok _ _ _ _ _ _ _ Hget Hup)
      as (Hrow & _ & _ & _ & Htimes).
    cbn [BookingUpdate_start_time] in Htimes.
    rewrite (bool_decide_eq_true_2 _ Hown) in Htimes.
    destruct Htimes as (_ & s & Hs & _ & Hs' & He').
    rewrite Hsvc in Hs. injection Hs as <-. done.
Qed.

(** ** Failed requests and the store *)

(** X8: a request that fails leaves the store as it found it, provided it
    is not a booking update naming both a start time and a status. *)
Theorem failed_request_changes_nothing r db e :
  single_commit r ->
  fst (run r db) = inl e ->
  snd (run r db) = db.
Proof.
  destruct r as [d u now|i d u|i u now|d u now|i d u|i u|i d|i];
    cbn [run single_commit]; unfold discard; intros Hsc.
  - rewrite create_booking_unfold.
    destruct (ServiceRepository.get_by_id _ db) as [s|]; [|done].
    destruct (negb _); [done|].
    destruct (decide (representable _ _)) as [_|_]; [|done].
    by destruct (BookingRepository.check_conflict _ _ _ _ db).
  - rewrite update_booking_unfold.
    destruct (BookingRepository.get_by_id i db) as [b|]; [|done]. cbv zeta.
    destruct (negb _ && negb _); [done|].
    rewrite handle_rescheduling_unfold.
    destruct Hsc as [-> | Hst].
    + rewrite handle_status_update_unfold.
      destruct (BookingUpdate_status d) as [st|]; [|done].
      destruct (bool_decide (User_role u = ADMIN)); [done|].
      destruct (_ && bool_decide (st = CANCELLED)); [|done].
      by destruct (decide (~ blocking (Booking_status b))).
    + destruct (BookingUpdate_start_time d) as [t|].
      * destruct (bool_decide (Booking_user_id b = User_id u)).
        -- destruct (decide (~ blocking (Booking_status b))); [done|].
           destruct (ServiceRepository.get_by_id _ db); [|done].
           destruct (decide (representable _ _)) as [_|_]; [|done].
           destruct (BookingRepository.check_conflict _ _ _ _ db); [done|].
           unfold BookingRepository.update.
           rewrite handle_status_update_unfold, Hst. done.
        -- rewrite handle_status_update_unfold, Hst. done.
      * rewrite handle_status_update_unfold, Hst. done.
  - rewrite delete_booking_unfold.
    destruct (BookingRepository.get_by_id i db) as [b|]; [|done]. cbv zeta.
    destruct (negb _ && negb _); [done|].
    destruct (_ && negb _); [|done].
    by destruct (decide (Booking_start_time b <= now)).
  - rewrite create_review_unfold.
    destruct (BookingRepository.get_by_id _ db) as [b|]; [|done].
    destruct (decide (Booking_user_id b <> User_id u)); [done|].
    destruct (decide (Booking_status b <> COMPLETED)); [done|].
    by destruct (ReviewRepository.get_by_booking_id _ db).
  - rewrite update_review_unfold.
    destruct (ReviewRepository.get_by_id i db) as [r|]; [|done].
    destruct (BookingRepository.get_by_id _ db) as [b|]; [|done].
    destruct (decide (Booking_user_id b <> User_id u)); [done|].
    unfold ReviewRepository.update. by destruct (_ || _).
  - rewrite delete_review_unfold.
    destruct (ReviewRepository.get_by_id i db) as [r|]; [|done].
    destruct (BookingRepository.get_by_id _ db) as [b|]; [|done].
    by destruct (negb _ && negb _).
  - rewrite update_service_unfold.
    destruct (ServiceRepository.get_by_id i db) as [s|]; [|done].
    unfold ServiceRepository.update. by destruct (_ || _).
  - rewrite delete_service_unfold.
    by destruct (ServiceRepository.get_by_id i db).
Qed.


(** ** Deleting a service *)

(** X10: deleting a stored service removes it, every booking of it and
    every review of those bookings, and keeps every other row; afterwards
    a booking request for that service finds no service. *)
Theorem delete_service_cascade db service_id service :
  ServiceRepository.get_by_id service_id db = Some service ->
  exists db',
    delete_service service_id db = (inr tt, db')
    /\ ServiceRepository.get_by_id service_id db' = None
    /\ (forall s, s ∈ services db' <-> s ∈ services db /\ Service_id s <> service_id)
    /\ (forall b, b ∈ bookings db' <->
          b ∈ bookings db /\ Booking_service_id b <> service_id)
    /\ (forall r, r ∈ reviews db' <->
          r ∈ reviews db
          /\ ~ exists b, b ∈ bookings db
                 /\ Booking_id b = Review_booking_id r
                 /\ Booking_service_id b = service_id)
    /\ (forall start_time current_user now,
          create_booking (mkBookingCreate service_id start_time) current_user now db'
          = (inl NotFound, db')).
Proof.
  intros Hget. pose proof (get_service_elem _ _ _ Hget) as [_ Hid].
  rewrite delete_service_unfold, Hget. eexists. split; [reflexivity|].
  cbn [ServiceRepository.delete]. rewrite Hid.
  assert (Hnone : ServiceRepository.get_by_id service_id
            {| services := filter (fun s => Service_id s <> service_id) (services db);
               bookings := filter (fun b => Booking_service_id b <> service_id)
                             (bookings db);
               reviews := filter
                 (fun r => Review_booking_id r
                           ∉ Booking_id <$> filter
                               (fun b => Booking_service_id b = service_id)
                               (bookings db))
                 (reviews db) |} = None).
  { unfold ServiceRepository.get_by_id. cbn [services].
    apply no_first_row. intros s Hs. by apply list_elem_of_filter in Hs as [? _]. }
  split; [done|]. cbn [services bookings reviews].
  split; [intros s; rewrite list_elem_of_filter; tauto|].
  split; [intros b; rewrite list_elem_of_filter; tauto|].
  split.
  - intros r. rewrite list_elem_of_filter.
    split; intros [H1 H2].
    + split; [done|].
      intros (b & Hb & Hbid & Hsid). apply H1. rewrite <- Hbid.
      apply list_elem_of_fmap. exists b. split; [done|].
      by apply list_elem_of_filter.
    + split; [|done]. intros Hin. apply H2.
      apply list_elem_of_fmap in Hin as (b & Hbid & Hb).
      apply list_elem_of_filter in Hb as [Hsid Hb]. by exists b.
  - intros start_time current_user now.
    rewrite create_booking_unfold. cbn [BookingCreate_service_id].
    by rewrite Hnone.
Qed.

(** ** Reviews of a service *)

Lemma get_service_reviews_unfold service_id db :
  get_service_reviews service_id db =
  match ServiceRepository.get_by_id service_id db with
  | None => (inl NotFound, db)
  | Some _ => (inr (ReviewRepository.get_by_service_id service_id db), db)
  end.
Proof.
  unfold get_service_reviews, bind, query, raise.
  by destruct (ServiceRepository.get_by_id service_id db).
Qed.

Lemma get_by_service_id_elem service_id db r :
  r ∈ ReviewRepository.get_by_service_id service_id db
  <-> r ∈ reviews db
      /\ exists b, b ∈ bookings db
           /\ Booking_id b = Review_booking_id r
           /\ Booking_service_id b = service_id.
Proof.
  unfold ReviewRepository.get_by_service_id.
  rewrite list_elem_of_filter, Exists_exists. tauto.
Qed.

(** X11: a review that was just created is listed under the service of
    its booking, next to the reviews that were listed there before; the
    listing of a service that is not stored is [NotFound]. *)
Theorem created_review_is_listed review_data current_user now db review db' booking :
  create_review review_data current_user now db = (inr review, db') ->
  BookingRepository.get_by_id (ReviewCreate_booking_id review_data) db = Some booking ->
  (is_Some (ServiceRepository.get_by_id (Booking_service_id booking) db) ->
   exists l,
     get_service_reviews (Booking_service_id booking) db' = (inr l, db')
     /\ review ∈ l
     /\ forall r, r ∈ ReviewRepository.get_by_service_id
                        (Booking_service_id booking) db -> r ∈ l)
  /\ (ServiceRepository.get_by_id (Booking_service_id booking) db = None ->
      get_service_reviews (Booking_service_id booking) db' = (inl NotFound, db')).
Proof.
  intros Hcr Hget.
  pose proof (get_by_id_elem _ _ _ Hget) as Hb.
  pose proof (get_by_id_key _ _ _ Hget) as Hkey.
  revert Hcr. rewrite create_review_unfold, Hget.
  destruct (decide (Booking_user_id booking <> User_id current_user)); [done|].
  destruct (decide (Booking_status booking <> COMPLETED)); [done|].
  destruct (ReviewRepository.get_by_booking_id _ db); [done|].
  unfold ReviewRepository.create. intros [= <- <-].
  rewrite get_service_reviews_unfold. unfold ServiceRepository.get_by_id.
  cbn [services]. fold (ServiceRepository.get_by_id (Booking_service_id booking) db).
  split.
  - intros [s ->]. eexists. split; [reflexivity|]. split.
    + apply get_by_service_id_elem. cbn [reviews bookings Review_booking_id].
      split; [apply elem_of_app; right; by apply list_elem_of_singleton|].
      by exists booking.
    + intros r Hr. apply get_by_service_id_elem in Hr as [Hr Hex].
      apply get_by_service_id_elem. cbn [reviews bookings].
      split; [apply elem_of_app; by left|done].
  - by intros ->.
Qed.

(** ** Deleting and rewriting a review *)

(** X12: once the review of a completed booking has been deleted, by the
    owner or by an administrator, the owner can review the booking again
    (no two stored reviews naming one booking beforehand). *)
Theorem review_can_be_rewritten db review_id deleter owner review booking
    rating comment now :
  one_review_per_booking db ->
  ReviewRepository.get_by_id review_id db = Some review ->
  BookingRepository.get_by_id (Review_booking_id review) db = Some booking ->
  Booking_user_id booking = User_id owner ->
  Booking_status booking = COMPLETED ->
  Booking_user_id booking = User_id deleter \/ User_role deleter = ADMIN ->
  exists db1 review' db2,
    delete_review review_id deleter db = (inr tt, db1)
    /\ ReviewRepository.get_by_booking_id (Review_booking_id review) db1 = None
    /\ create_review (mkReviewCreate (Review_booking_id review) rating comment)
         owner now db1 = (inr review', db2)
    /\ reviews_of (Review_booking_id review) db2 = [review'].
Proof.
  intros Hone Hget Hb Hown Hst Hmay.
  pose proof (get_review_elem _ _ _ Hget) as [Hin Hid].
  rewrite delete_review_unfold, Hget, Hb.
  assert (Hguard : negb (bool_decide (Booking_user_id booking = User_id deleter))
                   && negb (bool_decide (User_role deleter = ADMIN)) = false).
  { destruct Hmay as [H|H]; rewrite (bool_decide_eq_true_2 _ H);
      [done|apply andb_false_r]. }
  rewrite Hguard. eexists _, _, _. split; [reflexivity|].
  cbn [ReviewRepository.delete snd].
  assert (Hnone : filter (fun r => Review_booking_id r = Review_booking_id review)
                    (filter (fun r => Review_id r <> Review_id review) (reviews db))
                  = []).
  { apply elem_of_nil_inv. intros x Hx.
    apply list_elem_of_filter in Hx as [Hbid Hx].
    apply list_elem_of_filter in Hx as [Hne Hx].
    apply Hne. f_equal.
    apply list_elem_of_lookup_1 in Hx as [i Hi].
    apply list_elem_of_lookup_1 in Hin as [j Hj].
    assert (i = j) as ->; [|congruence].
    apply (NoDup_lookup _ i j (Review_booking_id review) Hone);
      rewrite list_lookup_fmap; [rewrite Hi|rewrite Hj]; cbn; congruence. }
  split.
  { unfold ReviewRepository.get_by_booking_id. cbn [reviews]. by rewrite Hnone. }
  rewrite create_review_unfold. cbn [ReviewCreate_booking_id].
  unfold BookingRepository.get_by_id. cbn [bookings].
  fold (BookingRepository.get_by_id (Review_booking_id review) db). rewrite Hb.
  rewrite decide_False by (by intros ?).
  rewrite decide_False by (by intros ?).
  unfold ReviewRepository.get_by_booking_id. cbn [reviews]. rewrite Hnone. cbn [head].
  unfold ReviewRepository.create. split; [reflexivity|].
  unfold reviews_of. cbn [reviews ReviewCreate_booking_id].
  rewrite filter_app, Hnone, filter_cons, filter_nil. cbn [Review_booking_id].
  by rewrite decide_True.
Qed.

(** ** Editing a review *)

Lemma review_update_get_by_id review review_data db r' db' :
  ReviewRepository.get_by_id (Review_id review) db = Some review ->
  ReviewRepository.update review review_data db = (inr r', db') ->
  r' = ReviewRepository.set_attrs review_data review
  /\ ReviewRepository.get_by_id (Review_id review) db' = Some r'.
Proof.
  unfold ReviewRepository.update. intros Hget.
  destruct (_ || _); [done|]. intros [= <- <-]. split; [done|].
  revert Hget. unfold ReviewRepository.get_by_id. cbn [reviews].
  induction (reviews db) as [|x l IH]; [done|].
  rewrite fmap_cons, !filter_cons.
  destruct (decide (Review_id x = Review_id review)) as [Heq|Hne].
  - cbn [ReviewRepository.set_attrs Review_id].
    rewrite (decide_True _ _ Heq). cbn [head]. by intros [= ->].
  - rewrite (decide_False _ _ Hne). apply IH.
Qed.

(** X13: an administrator who does not own the booking may delete its
    review but not edit it: the edit is refused with [Forbidden] and
    changes nothing, the delete succeeds and the review is gone. *)
Theorem admin_deletes_but_cannot_edit_review db review_id review_data admin
    review booking :
  ReviewRepository.get_by_id review_id db = Some review ->
  BookingRepository.get_by_id (Review_booking_id review) db = Some booking ->
  User_role admin = ADMIN ->
  Booking_user_id booking <> User_id admin ->
  update_review review_id review_data admin db = (inl Forbidden, db)
  /\ exists db',
       delete_review review_id admin db = (inr tt, db')
       /\ ReviewRepository.get_by_id review_id db' = None
       /\ forall r, r ∈ reviews db' <-> r ∈ reviews db /\ Review_id r <> review_id.
Proof.
  intros Hget Hb Hadmin Hnot.
  pose proof (get_review_elem _ _ _ Hget) as [_ Hid].
  split.
  - rewrite update_review_unfold, Hget, Hb. by rewrite (decide_True _ _ Hnot).
  - rewrite delete_review_unfold, Hget, Hb.
    rewrite (bool_decide_eq_true_2 _ Hadmin), andb_false_r.
    eexists. split; [reflexivity|]. cbn [ReviewRepository.delete]. rewrite Hid.
    split.
    + unfold ReviewRepository.get_by_id. cbn [reviews]. apply no_first_row.
      intros r Hr. by apply list_elem_of_filter in Hr as [? _].
    + intros r. cbn [reviews]. rewrite list_elem_of_filter. tauto.
Qed.

(** X14: the owner of the booking can edit its review whatever the
    booking's status has become: the fields that were sent replace the
    stored ones, the review keeps its key, its booking and its creation
    time, reading it back returns the edited review, and bookings and
    services are untouched. *)
Theorem owner_edits_review db review_id review_data owner review booking :
  ReviewRepository.get_by_id review_id db = Some review ->
  BookingRepository.get_by_id (Review_booking_id review) db = Some booking ->
  Booking_user_id booking = User_id owner ->
  is_null (ReviewUpdate_rating review_data) = false ->
  is_null (ReviewUpdate_comment review_data) = false ->
  exists review' db',
    update_review review_id review_data owner db = (inr review', db')
    /\ get_review review_id db' = (inr review', db')
    /\ Review_id review' = Review_id review
    /\ Review_booking_id review' = Review_booking_id review
    /\ Review_created_at review' = Review_created_at review
    /\ Review_rating review' = assign (ReviewUpdate_rating review_data) (Review_rating review)
    /\ Review_comment review'
       = assign (ReviewUpdate_comment review_data) (Review_comment review)
    /\ bookings db' = bookings db
    /\ services db' = services db.
Proof.
  intros Hget Hb Hown Hn1 Hn2.
  pose proof (get_review_elem _ _ _ Hget) as [_ Hid].
  rewrite update_review_unfold, Hget, Hb.
  rewrite decide_False by (by intros ?).
  destruct (ReviewRepository.update review review_data db) as [[e|r'] db'] eqn:Hup.
  { revert Hup. unfold ReviewRepository.update. by rewrite Hn1, Hn2. }
  rewrite <- Hid in Hget.
  destruct (review_update_get_by_id _ _ _ _ _ Hget Hup) as [-> Hrow].
  rewrite Hid in Hrow.
  exists (ReviewRepository.set_attrs review_data review), db'.
  split; [done|]. split.
  { unfold get_review, bind, query, ret. by rewrite Hrow. }
  apply review_update_rows in Hup as (Hs & Hbk & _). by repeat split.
Qed.

(** X15: a [PATCH] body that sends [null] for a column gets past the
    schema and into the commit, which raises: editing a review with a
    null rating or comment, or a service with any null column, ends in an
    uncaught exception and stores nothing. *)
Theorem null_field_is_an_uncaught_exception db :
  (forall review_id review_data owner review booking,
      ReviewRepository.get_by_id review_id db = Some review ->
      BookingRepository.get_by_id (Review_booking_id review) db = Some booking ->
      Booking_user_id booking = User_id owner ->
      ReviewUpdate_rating review_data = Null
      \/ ReviewUpdate_comment review_data = Null ->
      ReviewUpdateSchema.validate review_data = inr review_data ->
      patch_review review_id review_data owner db = (inl InternalError, db))
  /\ (forall service_id service_data service,
      ServiceRepository.get_by_id service_id db = Some service ->
      ServiceUpdate_title service_data = Null
      \/ ServiceUpdate_description service_data = Null
      \/ ServiceUpdate_price service_data = Null
      \/ ServiceUpdate_duration_minutes service_data = Null
      \/ ServiceUpdate_is_active service_data = Null ->
      update_service service_id service_data db = (inl InternalError, db)).
Proof.
  split.
  - intros review_id review_data owner review booking Hget Hb Hown Hnull Hval.
    unfold patch_review. rewrite Hval.
    rewrite update_review_unfold, Hget, Hb.
    rewrite decide_False by (by intros ?).
    unfold ReviewRepository.update.
    destruct Hnull as [-> | ->]; [done|]. by rewrite orb_true_r.
  - intros service_id service_data service Hget Hnull.
    rewrite update_service_unfold, Hget. unfold ServiceRepository.update.
    destruct Hnull as [-> | [-> | [-> | [-> | ->]]]]; cbn [is_null orb];
      rewrite ?orb_true_r; done.
Qed.

(** ** Editing a service *)

Lemma service_update_get_by_id service service_data db s' db' j :
  ServiceRepository.update service service_data db = (inr s', db') ->
  ServiceRepository.get_by_id j db'
  = (fun s => if decide (Service_id s = Service_id service)
              then ServiceRepository.set_attrs service_data s
              else s) <$> ServiceRepository.get_by_id j db.
Proof.
  unfold ServiceRepository.update. destruct (_ || _); [done|].
  intros [= _ <-]. unfold ServiceRepository.get_by_id. cbn [services].
  induction (services db) as [|x l IH]; [done|].
  rewrite fmap_cons, !filter_cons.
  assert (Hid : Service_id (if decide (Service_id x = Service_id service)
                            then ServiceRepository.set_attrs service_data x else x)
                = Service_id x).
  { by destruct (decide (Service_id x = Service_id service)). }
  rewrite Hid. by destruct (decide (Service_id x = j)).
Qed.

Lemma check_conflict_bookings service_id start_time end_time exclude db1 db2 :
  bookings db1 = bookings db2 ->
  BookingRepository.check_conflict service_id start_time end_time exclude db1
  = BookingRepository.check_conflict service_id start_time end_time exclude db2.
Proof. unfold BookingRepository.check_conflict. by intros ->. Qed.

Lemma booking_update_same_durations booking start_time end_time status db1 db2 :
  same_durations db1 db2 ->
  same_durations
    (snd (BookingRepository.update booking start_time end_time status db1))
    (snd (BookingRepository.update booking start_time end_time status db2)).
Proof.
  intros (Hb & Hr & Hs). unfold BookingRepository.update. cbn [snd].
  split; [cbn [bookings]; by rewrite Hb|]. split; [done|]. apply Hs.
Qed.

(** The booking update reads of the services their durations only. *)
Lemma update_booking_same_durations booking_id booking_data current_user db1 db2 :
  same_durations db1 db2 ->
  fst (update_booking booking_id booking_data current_user db1)
  = fst (update_booking booking_id booking_data current_user db2)
  /\ same_durations (snd (update_booking booking_id booking_data current_user db1))
       (snd (update_booking booking_id booking_data current_user db2)).
Proof.
  intros Hsame. pose proof Hsame as (Hb & Hr & Hs).
  rewrite !update_booking_unfold. unfold BookingRepository.get_by_id. rewrite Hb.
  destruct (head _) as [b|]; [|done]. cbv zeta.
  destruct (negb _ && negb _); [done|].
  assert (Hre : fst (handle_rescheduling booking_data
                       (bool_decide (Booking_user_id b = User_id current_user)) b db1)
                = fst (handle_rescheduling booking_data
                       (bool_decide (Booking_user_id b = User_id current_user)) b db2)
                /\ same_durations
                     (snd (handle_rescheduling booking_data
                       (bool_decide (Booking_user_id b = User_id current_user)) b db1))
                     (snd (handle_rescheduling booking_data
                       (bool_decide (Booking_user_id b = User_id current_user)) b db2))).
  { rewrite !handle_rescheduling_unfold.
    destruct (BookingUpdate_start_time booking_data) as [t|]; [|done].
    destruct (bool_decide _); [|done].
    destruct (decide (~ blocking (Booking_status b))); [done|].
    specialize (Hs (Booking_service_id b)).
    destruct (ServiceRepository.get_by_id _ db1) as [s1|],
             (ServiceRepository.get_by_id _ db2) as [s2|]; try done.
    injection Hs as Hs. rewrite Hs.
    rewrite (check_conflict_bookings _ _ _ _ db1 db2 Hb).
    destruct (decide (representable _ _)) as [_|_]; [|done].
    destruct (BookingRepository.check_conflict _ _ _ _ db2); [done|].
    split; [done|]. by apply booking_update_same_durations. }
  destruct (handle_rescheduling _ _ b db1) as [[e1|b1] d1],
           (handle_rescheduling _ _ b db2) as [[e2|b2] d2];
    cbn [fst snd] in Hre; destruct Hre as [Hfst Hsnd]; try done.
  injection Hfst as ->.
  rewrite !handle_status_update_unfold.
  destruct (BookingUpdate_status booking_data) as [st|]; [|done].
  destruct (bool_decide (User_role current_user = ADMIN)).
  { split; [done|]. by apply booking_update_same_durations. }
  destruct (_ && bool_decide (st = CANCELLED)); [|done].
  destruct (decide (~ blocking (Booking_status b2))); [done|].
  split; [done|]. by apply booking_update_same_durations.
Qed.

(** X16: taking a service out of service stops new bookings of it and
    nothing else: creations are refused with [InvalidState], while every
    booking update, reschedules included, has the outcome and the effect
    on the bookings that it had before. *)
Theorem deactivated_service_still_reschedules db service_id service :
  ServiceRepository.get_by_id service_id db = Some service ->
  exists service' db1,
    update_service service_id
      (mkServiceUpdate Unset Unset Unset Unset (Value false)) db
    = (inr service', db1)
    /\ (forall start_time current_user now,
          create_booking (mkBookingCreate service_id start_time) current_user now db1
          = (inl InvalidState, db1))
    /\ (forall booking_id booking_data current_user,
          fst (update_booking booking_id booking_data current_user db1)
          = fst (update_booking booking_id booking_data current_user db)
          /\ bookings (snd (update_booking booking_id booking_data current_user db1))
             = bookings (snd (update_booking booking_id booking_data current_user db))).
Proof.
  intros Hget. pose proof (get_service_elem _ _ _ Hget) as [_ Hid].
  rewrite update_service_unfold, Hget.
  destruct (ServiceRepository.update service _ db) as [[e|s'] db1] eqn:Hup; [done|].
  exists s', db1. split; [done|].
  pose proof (fun j => service_update_get_by_id _ _ _ _ _ j Hup) as Hrow.
  split.
  - intros start_time current_user now.
    rewrite create_booking_unfold. cbn [BookingCreate_service_id].
    rewrite Hrow, Hget. cbn [fmap option_fmap option_map].
    rewrite Hid, decide_True by done. done.
  - intros booking_id booking_data current_user.
    assert (Hsame : same_durations db1 db).
    { apply service_update_rows in Hup as (Hb & Hr & _).
      split; [done|]. split; [done|]. intros j. rewrite Hrow.
      destruct (ServiceRepository.get_by_id j db) as [s|]; [|done]. cbn.
      by destruct (decide (Service_id s = Service_id service)). }
    destruct (update_booking_same_durations booking_id booking_data current_user
                _ _ Hsame) as [Hfst (Hb & _)].
    done.
Qed.

(** X17: changing the duration of a service leaves every stored booking,
    its end time included, as it was; the next reschedule by the owner of a
    booking of that service computes the end from the new duration. *)
Theorem new_duration_applies_to_next_reschedule db service_id service duration :
  ServiceRepository.get_by_id service_id db = Some service ->
  exists service' db1,
    update_service service_id
      (mkServiceUpdate Unset Unset Unset (Value duration) Unset) db
    = (inr service', db1)
    /\ bookings db1 = bookings db
    /\ (forall booking_id start_time status current_user old b' db2,
          BookingRepository.get_by_id booking_id db = Some old ->
          Booking_service_id old = service_id ->
          Booking_user_id old = User_id current_user ->
          update_booking booking_id (mkBookingUpdate (Some start_time) status)
            current_user db1 = (inr b', db2) ->
          Booking_start_time b' = start_time
          /\ Booking_end_time b' = start_time + timedelta duration).
Proof.
  intros Hget. pose proof (get_service_elem _ _ _ Hget) as [_ Hid].
  rewrite update_service_unfold, Hget.
  destruct (ServiceRepository.update service _ db) as [[e|s'] db1] eqn:Hup; [done|].
  exists s', db1. split; [done|].
  pose proof (fun j => service_update_get_by_id _ _ _ _ _ j Hup) as Hrow.
  apply service_update_rows in Hup as (Hb & Hr & _).
  split; [done|].
  intros booking_id start_time status current_user old b' db2 Hold Hsid Hown Hupd.
  assert (Hold1 : BookingRepository.get_by_id booking_id db1 = Some old).
  { unfold BookingRepository.get_by_id. by rewrite Hb. }
  destruct (update_booking_ok _ _ _ _ _ _ _ Hold1 Hupd) as (_ & _ & _ & _ & Htimes).
  cbn [BookingUpdate_start_time] in Htimes.
  rewrite (bool_decide_eq_true_2 _ Hown) in Htimes.
  destruct Htimes as (_ & s & Hs & _ & Hs' & He').
  rewrite Hsid, Hrow, Hget in Hs. cbn [fmap option_fmap option_map] in Hs.
  rewrite Hid, decide_True in Hs by done. injection Hs as <-. done.
Qed.

(** ** Reading a booking back *)

Lemma get_booking_unfold booking_id current_user db :
  get_booking booking_id current_user db =
  match BookingRepository.get_by_id booking_id db with
  | None => (inl NotFound, db)
  | Some booking =>
      if bool_decide (Booking_user_id booking <> User_id current_user)
         && bool_decide (User_role current_user <> ADMIN)
      then (inl Forbidden, db)
      else (inr booking, db)
  end.
Proof.
  unfold get_booking, bind, query, raise, ret.
  destruct (BookingRepository.get_by_id booking_id db) as [booking|]; [|done].
  by destruct (_ && _).
Qed.

(** A row appended under a key that no stored row has is the row found
    under that key. *)
Lemma get_by_id_appended db b :
  Booking_id b ∉ Booking_id <$> bookings db ->
  BookingRepository.get_by_id (Booking_id b)
    {| services := services db; bookings := bookings db ++ [b]; reviews := reviews db |}
  = Some b.
Proof.
  intros Hfresh. unfold BookingRepository.get_by_id. cbn [bookings].
  rewrite filter_app, filter_cons, filter_nil, decide_True by done.
  replace (filter _ (bookings db)) with (@nil Booking); [done|].
  symmetry. apply elem_of_nil_inv. intros x Hx.
  apply list_elem_of_filter in Hx as [Hid Hx]. apply Hfresh.
  rewrite <- Hid. by apply list_elem_of_fmap_2.
Qed.

(** X18: a booking that was just created can be read back under its key
    by its creator and by every administrator, is refused with [Forbidden]
    to everyone else, and appears in the creator's listing. *)
Theorem created_booking_is_readable booking_data current_user now db booking db' :
  create_booking booking_data current_user now db = (inr booking, db') ->
  get_booking (Booking_id booking) current_user db' = (inr booking, db')
  /\ (forall admin, User_role admin = ADMIN ->
        get_booking (Booking_id booking) admin db' = (inr booking, db'))
  /\ (forall other, User_id other <> User_id current_user ->
        User_role other <> ADMIN ->
        get_booking (Booking_id booking) other db' = (inl Forbidden, db'))
  /\ exists l,
       get_bookings None None None current_user db' = (inr l, db')
       /\ booking ∈ l.
Proof.
  rewrite create_booking_unfold.
  destruct (ServiceRepository.get_by_id _ db) as [s|]; [|done].
  destruct (negb _); [done|].
  destruct (decide (representable _ _)) as [_|_]; [|done].
  destruct (BookingRepository.check_conflict _ _ _ _ db); [done|].
  unfold BookingRepository.create. intros [= <- <-].
  set (b := {| Booking_id := fresh_id (Booking_id <$> bookings db) |}).
  assert (Hrow : BookingRepository.get_by_id (Booking_id b)
            {| services := services db; bookings := bookings db ++ [b];
               reviews := reviews db |} = Some b).
  { apply get_by_id_appended. apply fresh_id_fresh. }
  split; [|split; [|split]].
  - rewrite get_booking_unfold, Hrow.
    by rewrite (bool_decide_eq_false_2 (_ <> _)) by (by intros ?).
  - intros admin Hadmin. rewrite get_booking_unfold, Hrow.
    rewrite (bool_decide_eq_false_2 (User_role admin <> ADMIN)) by (by intros ?).
    by rewrite andb_false_r.
  - intros other Hother Hrole. rewrite get_booking_unfold, Hrow.
    rewrite (bool_decide_eq_true_2 (_ <> _)) by (cbn; congruence).
    by rewrite (bool_decide_eq_true_2 _ Hrole).
  - unfold get_bookings, query. eexists. split; [reflexivity|].
    apply get_all_elem. split.
    + cbn [bookings]. apply elem_of_app. right. by apply list_elem_of_singleton.
    + split; [by destruct (decide (User_role current_user = ADMIN))|done].
Qed.

(** ** Freeing a window *)

(** X19: once a booking has been cancelled or deleted, its window is free:
    a creation for an active service succeeds on the resulting store when
    its end time is representable and its window overlaps no other pending
    or confirmed booking of the service.  (Duration positive, stored
    windows valid.) *)
Theorem cancelled_or_deleted_booking_frees_its_window db booking_id service_id
    start_time service :
  ServiceRepository.get_by_id service_id db = Some service ->
  Service_is_active service = true ->
  Service_duration_minutes service > 0 ->
  representable start_time (Service_duration_minutes service) ->
  valid_windows db ->
  (forall b, b ∈ bookings db ->
     Booking_id b <> booking_id ->
     Booking_service_id b = service_id ->
     blocking (Booking_status b) ->
     ~ half_open_overlap start_time
         (start_time + timedelta (Service_duration_minutes service))
         (Booking_start_time b) (Booking_end_time b)) ->
  (forall current_user b1 db1 creator now,
      update_booking booking_id (mkBookingUpdate None (Some CANCELLED))
        current_user db = (inr b1, db1) ->
      exists booking,
        create_booking (mkBookingCreate service_id start_time) creator now db1
        = (inr booking,
           {| services := services db1;
              bookings := bookings db1 ++ [booking];
              reviews := reviews db1 |}))
  /\ (forall current_user at_time db1 creator now,
      delete_booking booking_id current_user at_time db = (inr tt, db1) ->
      exists booking,
        create_booking (mkBookingCreate service_id start_time) creator now db1
        = (inr booking,
           {| services := services db1;
              bookings := bookings db1 ++ [booking];
              reviews := reviews db1 |})).
Proof.
  intros Hsvc Hact Hdur Hrep Hv Hfree.
  assert (Hcreate : forall db1 creator now,
    services db1 = services db ->
    (forall x, x ∈ bookings db1 ->
       BookingRepository.conflict_row service_id start_time
         (start_time + timedelta (Service_duration_minutes service)) x ->
       x ∈ bookings db /\ Booking_id x <> booking_id) ->
    exists booking,
      create_booking (mkBookingCreate service_id start_time) creator now db1
      = (inr booking,
         {| services := services db1;
            bookings := bookings db1 ++ [booking];
            reviews := reviews db1 |})).
  { intros db1 creator now Hs Hrows.
    assert (Hsvc1 : ServiceRepository.get_by_id service_id db1 = Some service).
    { unfold ServiceRepository.get_by_id. rewrite Hs. exact Hsvc. }
    rewrite create_booking_unfold.
    cbn [BookingCreate_service_id BookingCreate_start_time].
    rewrite Hsvc1, Hact. cbn [negb].
    rewrite (decide_True _ _ Hrep).
    replace (BookingRepository.check_conflict _ _ _ _ db1) with false.
    { eexists. reflexivity. }
    symmetry. apply check_conflict_false. intros x Hx Hrow. exfalso.
    destruct (Hrows x Hx Hrow) as [Hin Hne].
    destruct Hrow as (Hsid & Hst & Hov).
    apply (Hfree x Hin Hne Hsid Hst).
    apply overlap_clauses_half_open; [|by apply Hv|done].
    apply timedelta_positive in Hdur. lia. }
  split.
  - intros current_user b1 db1 creator now Hup.
    assert (Hdb1 : exists old,
      Booking_id old = booking_id
      /\ db1 = snd (BookingRepository.update old None None (Some CANCELLED) db)).
    { revert Hup. rewrite update_booking_unfold.
      destruct (BookingRepository.get_by_id booking_id db) as [old|] eqn:Hold; [|done].
      cbv zeta. destruct (negb _ && negb _); [done|].
      rewrite handle_rescheduling_unfold. cbn [BookingUpdate_start_time].
      rewrite handle_status_update_unfold. cbn [BookingUpdate_status].
      exists old. split; [by eapply get_by_id_key|].
      destruct (bool_decide (User_role current_user = ADMIN));
        [by injection Hup as _ <-|].
      destruct (_ && bool_decide (CANCELLED = CANCELLED)); [|done].
      destruct (decide (~ blocking (Booking_status old))); [done|].
      by injection Hup as _ <-. }
    destruct Hdb1 as (old & Hkey & ->).
    apply Hcreate; [done|].
    intros x Hx (Hsid & Hst & Hov).
    apply booking_update_elem in Hx as (y & Hy & ->).
    destruct (decide (Booking_id y = Booking_id old)) as [Heq|Hne].
    + cbn in Hst. by destruct Hst.
    + split; [done|congruence].
  - intros current_user at_time db1 creator now Hdel.
    assert (Hdb1 : db1 = deleted booking_id db).
    { revert Hdel. rewrite delete_booking_unfold.
      destruct (BookingRepository.get_by_id booking_id db) as [old|] eqn:Hold; [|done].
      cbv zeta. apply get_by_id_key in Hold.
      assert (Hd : BookingRepository.delete old db = (inr tt, deleted booking_id db)).
      { unfold BookingRepository.delete, deleted. by rewrite Hold. }
      rewrite Hd.
      destruct (negb _ && negb _); [done|].
      destruct (_ && negb _); [|by intros [= <-]].
      destruct (decide (Booking_start_time old <= at_time)); [done|by intros [= <-]]. }
    subst db1. apply Hcreate; [done|].
    intros x Hx _. cbn [deleted bookings] in Hx.
    by apply list_elem_of_filter in Hx as [? ?].
Qed.

(** ** Order of a listing *)

#[local] Instance start_time_desc_transitive :
  Transitive BookingRepository.start_time_desc.
Proof. intros a b c. unfold BookingRepository.start_time_desc. lia. Qed.

(** X20: a listing comes back latest start first, every booking in it
    starting no earlier than each one after it, and a [from] later than
    the [to] gives the empty list, not an error. *)
Theorem get_bookings_order status from_date to_date current_user db :
  exists l,
    get_bookings status from_date to_date current_user db = (inr l, db)
    /\ (forall i j a b, l !! i = Some a -> l !! j = Some b -> (i < j)%nat ->
          Booking_start_time b <= Booking_start_time a)
    /\ (forall f t, from_date = Some f -> to_date = Some t -> t < f -> l = []).
Proof.
  unfold get_bookings, query. eexists. split; [reflexivity|]. split.
  - intros i j a b Hi Hj Hij.
    assert (Hs : StronglySorted BookingRepository.start_time_desc
              (BookingRepository.get_all
                 (if decide (User_role current_user = ADMIN) then None
                  else Some (User_id current_user))
                 status from_date to_date db)).
    { unfold BookingRepository.get_all. apply (StronglySorted_merge_sort _). }
    revert i j Hi Hj Hij. induction Hs as [|x l Hl IH Hall]; intros i j Hi Hj Hij.
    + done.
    + destruct j as [|j]; [lia|]. destruct i as [|i].
      * injection Hi as ->. cbn in Hj.
        rewrite Forall_forall in Hall. apply (Hall b).
        by eapply list_elem_of_lookup_2.
      * cbn in Hi, Hj. apply (IH i j); [done|done|lia].
  - intros f t -> -> Hlt. apply elem_of_nil_inv. intros b Hb.
    apply get_all_elem in Hb as (_ & _ & _ & Hf & Ht). lia.
Qed.

(** ** The sample store meets the constraints *)

Ltac each_row H :=
  apply list_elem_of_In in H; cbn in H;
  repeat (destruct H as [<-|H]); [..|destruct H].

Lemma sample_db_unique_keys : unique_keys sample_db.
Proof. repeat split; apply (bool_decide_unpack _); by vm_compute. Qed.

Lemma sample_db_booking_has_service : booking_has_service sample_db.
Proof.
  intros b Hb. each_row Hb.
  1-4: exists (mkService 1 60 true); split; [|done];
       apply list_elem_of_In; cbn; tauto.
  exists (mkService 2 30 false). split; [|done].
  apply list_elem_of_In. cbn. tauto.
Qed.

Lemma sample_db_review_has_booking : review_has_booking sample_db.
Proof.
  intros r Hr. each_row Hr.
  exists (mkBooking 4 10 1 (16 * hour) (17 * hour) COMPLETED 0). split; [|done].
  apply list_elem_of_In. cbn. tauto.
Qed.

Lemma sample_db_one_review_per_booking : one_review_per_booking sample_db.
Proof. apply (bool_decide_unpack _). by vm_compute. Qed.

Lemma sample_db_positive_durations : positive_durations sample_db.
Proof. intros s Hs. each_row Hs; by vm_compute. Qed.

Lemma sample_db_valid_windows : valid_windows sample_db.
Proof. intros b Hb. each_row Hb; by vm_compute. Qed.

Lemma sample_db_valid_ratings : valid_ratings sample_db.
Proof. intros r Hr. each_row Hr. by vm_compute. Qed.

(** ** Instances on the sample store *)

Lemma requests_keep_unique_keys_witness :
  unique_keys (snd (run (CreateBooking (mkBookingCreate 1 (18 * hour)) bob 0) sample_db)).
Proof. apply requests_keep_unique_keys. apply sample_db_unique_keys. Defined.

Lemma requests_keep_references_witness :
  booking_has_service (snd (run (DeleteService 1) sample_db))
  /\ review_has_booking (snd (run (DeleteBooking 4 root 0) sample_db)).
Proof.
  split.
  - apply (proj1 (requests_keep_references (DeleteService 1) sample_db)).
    apply sample_db_booking_has_service.
  - apply (proj2 (requests_keep_references (DeleteBooking 4 root 0) sample_db)).
    apply sample_db_review_has_booking.
Defined.

Lemma requests_keep_one_review_per_booking_witness :
  one_review_per_booking
    (snd (run (CreateReview (mkReviewCreate 4 5 "fine") alice 0) sample_db_unreviewed)).
Proof.
  apply requests_keep_one_review_per_booking.
  apply (bool_decide_unpack _). by vm_compute.
Defined.

Lemma requests_keep_checks_witness :
  positive_durations
    (snd (run (UpdateService 1 (mkServiceUpdate Unset Unset Unset (Value 45) Unset))
            sample_db))
  /\ valid_windows
       (snd (run (UpdateService 1 (mkServiceUpdate Unset Unset Unset (Value 45) Unset))
               sample_db))
  /\ valid_ratings
       (snd (run (UpdateService 1 (mkServiceUpdate Unset Unset Unset (Value 45) Unset))
               sample_db)).
Proof.
  apply requests_keep_checks.
  - by vm_compute.
  - apply sample_db_positive_durations.
  - apply sample_db_valid_windows.
  - apply sample_db_valid_ratings.
Defined.

Lemma last_day_db_booking_has_service : booking_has_service last_day_db.
Proof.
  intros b Hb. exists (mkService 1 60 true).
  split; [apply list_elem_of_In; cbn; tauto|]. by each_row Hb.
Qed.

Lemma last_day_db_review_has_booking : review_has_booking last_day_db.
Proof. intros r Hr. by apply elem_of_nil in Hr. Qed.

Lemma last_day_db_valid_windows : valid_windows last_day_db.
Proof. intros b Hb. each_row Hb. by vm_compute. Qed.

Lemma requests_crash_only_by_overflow_witness :
  fst (run (UpdateBooking 1 (mkBookingUpdate (Some (18 * hour)) None) alice) sample_db)
    <> inl InternalError
  /\ fst (run (CreateBooking (mkBookingCreate 1 (datetime_max + 1 - timedelta 30)) bob 0)
            last_day_db)
     = inl InternalError.
Proof.
  split.
  - intros Hcrash.
    apply (requests_crash_only_by_overflow
             (UpdateBooking 1 (mkBookingUpdate (Some (18 * hour)) None) alice)
             sample_db sample_db_booking_has_service sample_db_review_has_booking I)
      in Hcrash.
    destruct Hcrash as (b & t & s & Hb & _ & Ht & _ & Hs & Hno).
    injection Ht as <-.
    vm_compute in Hb. injection Hb as <-.
    vm_compute in Hs. injection Hs as <-.
    apply Hno. apply (bool_decide_unpack _). vm_compute. reflexivity.
  - apply (requests_crash_only_by_overflow
             (CreateBooking (mkBookingCreate 1 (datetime_max + 1 - timedelta 30)) bob 0)
             last_day_db last_day_db_booking_has_service
             last_day_db_review_has_booking I).
    exists (mkService 1 60 true). split; [reflexivity|]. split; [reflexivity|].
    intros Hrep. apply (bool_decide_pack _) in Hrep. vm_compute in Hrep.
    destruct Hrep.
Defined.

Ltac no_overlap Hsid Hst Hov :=
  first [ by destruct Hst
        | by vm_compute in Hsid
        | vm_compute in Hov; by destruct Hov ].

Lemma create_booking_conflict_exact_witness :
  create_booking (mkBookingCreate 1 (10 * hour + timedelta 30)) bob 0 sample_db
    = (inl Conflict, sample_db)
  /\ (exists booking,
       create_booking (mkBookingCreate 1 (11 * hour)) bob 0 sample_db
       = (inr booking,
          {| services := services sample_db;
             bookings := bookings sample_db ++ [booking];
             reviews := reviews sample_db |}))
  /\ create_booking (mkBookingCreate 1 (datetime_max + 1 - timedelta 30)) bob 0
       last_day_db
     = (inl InternalError, last_day_db).
Proof.
  split; [|split].
  - destruct (create_booking_conflict_exact
                (mkBookingCreate 1 (10 * hour + timedelta 30)) bob 0 sample_db
                (mkService 1 60 true) eq_refl eq_refl eq_refl sample_db_valid_windows)
      as (_ & [Htaken _] & _).
    apply Htaken. split; [apply (bool_decide_unpack _); vm_compute; reflexivity|].
    exists (mkBooking 1 10 1 (10 * hour) (11 * hour) PENDING 0).
    split; [apply list_elem_of_In; cbn; tauto|].
    split; [done|]. split; [by left|]. by vm_compute.
  - destruct (create_booking_conflict_exact
                (mkBookingCreate 1 (11 * hour)) bob 0 sample_db
                (mkService 1 60 true) eq_refl eq_refl eq_refl sample_db_valid_windows)
      as (_ & _ & [Hfree _]).
    apply Hfree. split; [apply (bool_decide_unpack _); vm_compute; reflexivity|].
    intros (b & Hb & Hsid & Hst & Hov).
    each_row Hb; no_overlap Hsid Hst Hov.
  - destruct (create_booking_conflict_exact
                (mkBookingCreate 1 (datetime_max + 1 - timedelta 30)) bob 0 last_day_db
                (mkService 1 60 true) eq_refl eq_refl eq_refl last_day_db_valid_windows)
      as ([Hover _] & _).
    apply Hover. intros Hrep. apply (bool_decide_pack _) in Hrep.
    vm_compute in Hrep. destruct Hrep.
Defined.

Lemma reschedule_over_own_window_witness :
  exists b' db',
    update_booking 1 (mkBookingUpdate (Some (10 * hour + timedelta 30)) None)
      alice sample_db = (inr b', db')
    /\ BookingRepository.get_by_id 1 db' = Some b'
    /\ Booking_start_time b' = 10 * hour + timedelta 30
    /\ Booking_end_time b' = 10 * hour + timedelta 30 + timedelta 60.
Proof.
  apply (reschedule_over_own_window sample_db 1 (10 * hour + timedelta 30) alice
           (mkBooking 1 10 1 (10 * hour) (11 * hour) PENDING 0)
           (mkService 1 60 true)).
  - reflexivity.
  - reflexivity.
  - by left.
  - discriminate.
  - reflexivity.
  - reflexivity.
  - apply (bool_decide_unpack _). vm_compute. reflexivity.
  - apply sample_db_valid_windows.
  - intros b Hb Hne Hsid Hst Hov.
    each_row Hb; first [by apply Hne | no_overlap Hsid Hst Hov].
Defined.

Lemma failed_request_changes_nothing_witness :
  snd (run (CreateBooking (mkBookingCreate 2 (18 * hour)) bob 0) sample_db) = sample_db.
Proof.
  apply (failed_request_changes_nothing
           (CreateBooking (mkBookingCreate 2 (18 * hour)) bob 0) sample_db InvalidState).
  - exact I.
  - reflexivity.
Defined.


Lemma delete_service_cascade_witness :
  exists db',
    delete_service 1 sample_db = (inr tt, db')
    /\ ServiceRepository.get_by_id 1 db' = None
    /\ (forall s, s ∈ services db' <-> s ∈ services sample_db /\ Service_id s <> 1)
    /\ (forall b, b ∈ bookings db' <->
          b ∈ bookings sample_db /\ Booking_service_id b <> 1)
    /\ (forall r, r ∈ reviews db' <->
          r ∈ reviews sample_db
          /\ ~ exists b, b ∈ bookings sample_db
                 /\ Booking_id b = Review_booking_id r
                 /\ Booking_service_id b = 1)
    /\ (forall start_time current_user now,
          create_booking (mkBookingCreate 1 start_time) current_user now db'
          = (inl NotFound, db')).
Proof.
  apply (delete_service_cascade sample_db 1 (mkService 1 60 true)).
  reflexivity.
Defined.

Lemma created_review_is_listed_witness :
  exists l,
    get_service_reviews 1
      (snd (create_review (mkReviewCreate 4 5 "fine") alice 0 sample_db_unreviewed))
    = (inr l,
       snd (create_review (mkReviewCreate 4 5 "fine") alice 0 sample_db_unreviewed))
    /\ mkReview 1 4 5 "fine" 0 ∈ l
    /\ forall r, r ∈ ReviewRepository.get_by_service_id 1 sample_db_unreviewed -> r ∈ l.
Proof.
  apply (proj1 (created_review_is_listed (mkReviewCreate 4 5 "fine") alice 0
                  sample_db_unreviewed (mkReview 1 4 5 "fine" 0)
                  (snd (create_review (mkReviewCreate 4 5 "fine") alice 0
                          sample_db_unreviewed))
                  (mkBooking 4 10 1 (16 * hour) (17 * hour) COMPLETED 0)
                  eq_refl eq_refl)).
  by exists (mkService 1 60 true).
Defined.

Lemma review_can_be_rewritten_witness :
  exists db1 review' db2,
    delete_review 1 root sample_db = (inr tt, db1)
    /\ ReviewRepository.get_by_booking_id 4 db1 = None
    /\ create_review (mkReviewCreate 4 3 "again") alice 9 db1 = (inr review', db2)
    /\ reviews_of 4 db2 = [review'].
Proof.
  apply (review_can_be_rewritten sample_db 1 root alice
           (mkReview 1 4 5 "great" (18 * hour))
           (mkBooking 4 10 1 (16 * hour) (17 * hour) COMPLETED 0) 3 "again" 9).
  - apply sample_db_one_review_per_booking.
  - reflexivity.
  - reflexivity.
  - reflexivity.
  - reflexivity.
  - by right.
Defined.

Lemma admin_deletes_but_cannot_edit_review_witness :
  update_review 1 (mkReviewUpdate (Value 1) Unset) root sample_db
    = (inl Forbidden, sample_db)
  /\ exists db',
       delete_review 1 root sample_db = (inr tt, db')
       /\ ReviewRepository.get_by_id 1 db' = None
       /\ forall r, r ∈ reviews db' <-> r ∈ reviews sample_db /\ Review_id r <> 1.
Proof.
  apply (admin_deletes_but_cannot_edit_review sample_db 1
           (mkReviewUpdate (Value 1) Unset) root
           (mkReview 1 4 5 "great" (18 * hour))
           (mkBooking 4 10 1 (16 * hour) (17 * hour) COMPLETED 0)).
  - reflexivity.
  - reflexivity.
  - reflexivity.
  - vm_compute. discriminate.
Defined.

Lemma owner_edits_review_witness :
  exists review' db',
    update_review 1 (mkReviewUpdate (Value 3) Unset) alice sample_db = (inr review', db')
    /\ get_review 1 db' = (inr review', db')
    /\ Review_id review' = 1
    /\ Review_booking_id review' = 4
    /\ Review_created_at review' = 18 * hour
    /\ Review_rating review' = 3
    /\ Review_comment review' = "great"%string
    /\ bookings db' = bookings sample_db
    /\ services db' = services sample_db.
Proof.
  apply (owner_edits_review sample_db 1 (mkReviewUpdate (Value 3) Unset) alice
           (mkReview 1 4 5 "great" (18 * hour))
           (mkBooking 4 10 1 (16 * hour) (17 * hour) COMPLETED 0));
    reflexivity.
Defined.

Lemma null_field_is_an_uncaught_exception_witness :
  patch_review 1 (mkReviewUpdate Null Unset) alice sample_db
    = (inl InternalError, sample_db)
  /\ update_service 1 (mkServiceUpdate Unset Unset Null Unset Unset) sample_db
     = (inl InternalError, sample_db).
Proof.
  split.
  - apply (proj1 (null_field_is_an_uncaught_exception sample_db) 1
             (mkReviewUpdate Null Unset) alice
             (mkReview 1 4 5 "great" (18 * hour))
             (mkBooking 4 10 1 (16 * hour) (17 * hour) COMPLETED 0)).
    + reflexivity.
    + reflexivity.
    + reflexivity.
    + by left.
    + reflexivity.
  - apply (proj2 (null_field_is_an_uncaught_exception sample_db) 1
             (mkServiceUpdate Unset Unset Null Unset Unset) (mkService 1 60 true)).
    + reflexivity.
    + right. right. by left.
Defined.

Lemma deactivated_service_still_reschedules_witness :
  exists service' db1,
    update_service 1 (mkServiceUpdate Unset Unset Unset Unset (Value false)) sample_db
    = (inr service', db1)
    /\ (forall start_time current_user now,
          create_booking (mkBookingCreate 1 start_time) current_user now db1
          = (inl InvalidState, db1))
    /\ (forall booking_id booking_data current_user,
          fst (update_booking booking_id booking_data current_user db1)
          = fst (update_booking booking_id booking_data current_user sample_db)
          /\ bookings (snd (update_booking booking_id booking_data current_user db1))
             = bookings (snd (update_booking booking_id booking_data current_user
                                sample_db))).
Proof.
  apply (deactivated_service_still_reschedules sample_db 1 (mkService 1 60 true)).
  reflexivity.
Defined.

Lemma new_duration_applies_to_next_reschedule_witness :
  exists service' db1,
    update_service 1 (mkServiceUpdate Unset Unset Unset (Value 90) Unset) sample_db
    = (inr service', db1)
    /\ bookings db1 = bookings sample_db
    /\ (forall booking_id start_time status current_user old b' db2,
          BookingRepository.get_by_id booking_id sample_db = Some old ->
          Booking_service_id old = 1 ->
          Booking_user_id old = User_id current_user ->
          update_booking booking_id (mkBookingUpdate (Some start_time) status)
            current_user db1 = (inr b', db2) ->
          Booking_start_time b' = start_time
          /\ Booking_end_time b' = start_time + timedelta 90).
Proof.
  apply (new_duration_applies_to_next_reschedule sample_db 1 (mkService 1 60 true) 90).
  reflexivity.
Defined.

Lemma created_booking_is_readable_witness :
  get_booking 6 bob
    (snd (create_booking (mkBookingCreate 1 (18 * hour)) bob 0 sample_db))
  = (inr (mkBooking 6 11 1 (18 * hour) (19 * hour) PENDING 0),
     snd (create_booking (mkBookingCreate 1 (18 * hour)) bob 0 sample_db))
  /\ get_booking 6 alice
       (snd (create_booking (mkBookingCreate 1 (18 * hour)) bob 0 sample_db))
     = (inl Forbidden,
        snd (create_booking (mkBookingCreate 1 (18 * hour)) bob 0 sample_db)).
Proof.
  destruct (created_booking_is_readable (mkBookingCreate 1 (18 * hour)) bob 0
              sample_db (mkBooking 6 11 1 (18 * hour) (19 * hour) PENDING 0)
              (snd (create_booking (mkBookingCreate 1 (18 * hour)) bob 0 sample_db))
              eq_refl) as (Hown & _ & Hother & _).
  split; [exact Hown|]. apply Hother; vm_compute; discriminate.
Defined.

Lemma cancelled_or_deleted_booking_frees_its_window_witness :
  (exists booking,
     create_booking (mkBookingCreate 1 (10 * hour)) bob 0
       (snd (update_booking 1 (mkBookingUpdate None (Some CANCELLED)) alice sample_db))
     = (inr booking,
        {| services := services sample_db;
           bookings :=
             bookings (snd (update_booking 1 (mkBookingUpdate None (Some CANCELLED))
                              alice sample_db)) ++ [booking];
           reviews := reviews sample_db |}))
  /\ (exists booking,
     create_booking (mkBookingCreate 1 (10 * hour)) bob 0
       (snd (delete_booking 1 alice 0 sample_db))
     = (inr booking,
        {| services := services sample_db;
           bookings := bookings (snd (delete_booking 1 alice 0 sample_db)) ++ [booking];
           reviews := reviews (snd (delete_booking 1 alice 0 sample_db)) |})).
Proof.
  assert (Hfree : forall b, b ∈ bookings sample_db ->
            Booking_id b <> 1 -> Booking_service_id b = 1 ->
            blocking (Booking_status b) ->
            ~ half_open_overlap (10 * hour)
                (10 * hour + timedelta (Service_duration_minutes (mkService 1 60 true)))
                (Booking_start_time b) (Booking_end_time b)).
  { intros b Hb Hne Hsid Hst Hov.
    each_row Hb; first [by apply Hne | no_overlap Hsid Hst Hov]. }
  assert (Hrep : representable (10 * hour)
                   (Service_duration_minutes (mkService 1 60 true))).
  { apply (bool_decide_unpack _). vm_compute. reflexivity. }
  destruct (cancelled_or_deleted_booking_frees_its_window sample_db 1 1 (10 * hour)
              (mkService 1 60 true) eq_refl eq_refl eq_refl Hrep
              sample_db_valid_windows Hfree) as [Hcancel Hdelete].
  split.
  - apply (Hcancel alice
             (mkBooking 1 10 1 (10 * hour) (11 * hour) CANCELLED 0)
             (snd (update_booking 1 (mkBookingUpdate None (Some CANCELLED))
                     alice sample_db)) bob 0).
    reflexivity.
  - apply (Hdelete alice 0 (snd (delete_booking 1 alice 0 sample_db)) bob 0).
    reflexivity.
Defined.

Lemma get_bookings_order_witness :
  exists l,
    get_bookings None (Some (13 * hour)) (Some (11 * hour)) root sample_db
    = (inr l, sample_db)
    /\ l = [].
Proof.
  destruct (get_bookings_order None (Some (13 * hour)) (Some (11 * hour)) root
              sample_db) as (l & Heq & _ & Hempty).
  exists l. split; [exact Heq|].
  apply (Hempty (13 * hour) (11 * hour) eq_refl eq_refl). reflexivity.
Defined.

(** ** Accounts *)

(** X21: registration refuses an address exactly when some account has
    it, and changes nothing then; otherwise it adds one account, with the
    role [USER], the hash of the password and the address, which
    [get_by_email] then finds; keys and addresses stay unique. *)
Theorem register_keeps_emails_unique hash_password user_data now users :
  unique_accounts users ->
  ((exists u, u ∈ users /\ UserRow_email u = UserRegister_email user_data)
   <-> register hash_password user_data now users = (inl AlreadyExists, users))
  /\ ((forall u, u ∈ users -> UserRow_email u <> UserRegister_email user_data) ->
      exists user,
        register hash_password user_data now users = (inr user, users ++ [user])
        /\ UserRow_role user = USER
        /\ UserRow_email user = UserRegister_email user_data
        /\ UserRow_password_hash user = hash_password (UserRegister_password user_data)
        /\ UserRepository.get_by_email (UserRegister_email user_data) (users ++ [user])
           = Some user
        /\ unique_accounts (users ++ [user])).
Proof.
  intros [Hids Hmails]. unfold register.
  destruct (UserRepository.get_by_email _ users) as [existing|] eqn:Hget.
  - apply first_row_passes in Hget as [Hmail Hin]. split.
    + split; [done|]. intros _. by exists existing.
    + intros Hnone. by destruct (Hnone existing Hin).
  - pose proof (proj1 (no_first_row _ _) Hget) as Hnone. split.
    + split; [|done]. intros (u & Hu & Hmail). by destruct (Hnone u Hu).
    + intros _. unfold UserRepository.create. eexists. split; [reflexivity|].
      cbn [UserRow_role UserRow_email UserRow_password_hash].
      split; [done|]. split; [done|]. split; [done|]. split.
      * unfold UserRepository.get_by_email.
        rewrite filter_app, filter_cons, filter_nil. cbn [UserRow_email].
        rewrite decide_True by done.
        unfold UserRepository.get_by_email in Hget.
        apply head_None in Hget. by rewrite Hget.
      * split; rewrite fmap_app; cbn.
        -- apply NoDup_snoc_fresh; [done|apply fresh_id_fresh].
        -- apply NoDup_app. split; [done|]. split; [|apply NoDup_singleton].
           intros x Hx Hx'. apply list_elem_of_singleton in Hx' as ->.
           apply list_elem_of_fmap in Hx as (u & Hmail & Hu).
           by destruct (Hnone u Hu).
Qed.

Lemma register_keeps_emails_unique_witness :
  unique_accounts sample_users
  /\ (exists u, u ∈ sample_users /\ UserRow_email u = "bob@example.com"%string)
  /\ register sample_hash (mkUserRegister "Robert" "bob@example.com" "secret") 7
       sample_users
     = (inl AlreadyExists, sample_users).
Proof.
  assert (Hunique : unique_accounts sample_users)
    by (apply (bool_decide_unpack _); vm_compute; reflexivity).
  assert (Hbob : exists u, u ∈ sample_users
                           /\ UserRow_email u = "bob@example.com"%string).
  { exists (mkUserRow 11 "Bob" "bob@example.com" "h2" USER 0). split; [|reflexivity].
    unfold sample_users. apply elem_of_cons. right. apply elem_of_cons. by left. }
  split; [exact Hunique|]. split; [exact Hbob|].
  exact (proj1 (proj1 (register_keeps_emails_unique sample_hash
                         (mkUserRegister "Robert" "bob@example.com" "secret") 7
                         sample_users Hunique)) Hbob).
Defined.

(** Two rows of a table with the same value in a unique column are one row. *)
Lemma unique_column_row {A B} (f : A -> B) (l : list A) (x y : A) :
  NoDup (f <$> l) -> x ∈ l -> y ∈ l -> f x = f y -> x = y.
Proof.
  intros Hnd Hx Hy Heq.
  apply list_elem_of_lookup_1 in Hx as [i Hi].
  apply list_elem_of_lookup_1 in Hy as [j Hj].
  assert (i = j) as ->.
  { apply (NoDup_lookup (f <$> l) i j (f x)); [done| |].
    - by rewrite list_lookup_fmap, Hi.
    - by rewrite list_lookup_fmap, Hj, Heq. }
  congruence.
Qed.

(** Writing [e] into the row with key [c] keeps a column unique when no
    other row holds [e]. *)
Lemma unique_column_after_assignment (l : list UserRow) (c : Z) (e : string) :
  NoDup (UserRow_id <$> l) ->
  NoDup (UserRow_email <$> l) ->
  (forall r, r ∈ l -> UserRow_email r = e -> UserRow_id r = c) ->
  NoDup ((fun r => if decide (UserRow_id r = c) then e else UserRow_email r) <$> l).
Proof.
  induction l as [|a l IH]; intros Hids Hmails Hown; [constructor|].
  cbn [fmap list_fmap] in *.
  apply NoDup_cons in Hids as [Ha_id Hids].
  apply NoDup_cons in Hmails as [Ha_mail Hmails].
  apply NoDup_cons. split.
  - intros Hin. apply list_elem_of_fmap in Hin as (r & Heq & Hr).
    assert (Hr_id : UserRow_id r <> UserRow_id a).
    { intros Hsame. apply Ha_id. rewrite <- Hsame.
      apply list_elem_of_fmap. by exists r. }
    destruct (decide (UserRow_id a = c)) as [Hac|Hac];
      destruct (decide (UserRow_id r = c)) as [Hrc|Hrc].
    + congruence.
    + apply Hrc. apply Hown; [by apply elem_of_cons; right|done].
    + apply Hac. apply Hown; [by apply elem_of_cons; left|done].
    + apply Ha_mail. rewrite Heq. apply list_elem_of_fmap. by exists r.
  - apply IH; [done|done|].
    intros r Hr. apply Hown. by apply elem_of_cons; right.
Qed.

Lemma user_update_ids user user_data users :
  UserRow_id <$> (UserRepository.update user user_data users).2
  = UserRow_id <$> users.
Proof.
  unfold UserRepository.update. cbn [snd].
  rewrite <- list_fmap_compose. apply list_fmap_ext.
  intros i u _. cbn. by destruct (decide _).
Qed.

(** X22: with unique keys and addresses, a stored account and a
    non-empty address in the body, [PATCH /me] refuses an address that
    another account holds and changes nothing then; otherwise it returns
    the account with the fields of the body assigned, stores it, leaves
    every other account as it was, and keys and addresses stay unique. *)
Theorem update_current_user_keeps_emails_unique user_data current_user users :
  unique_accounts users ->
  current_user ∈ users ->
  UserUpdate_email user_data <> Some EmptyString ->
  ((exists u, u ∈ users /\ UserUpdate_email user_data = Some (UserRow_email u)
              /\ UserRow_id u <> UserRow_id current_user) ->
   update_current_user user_data current_user users = (inl AlreadyExists, users))
  /\ ((forall u, u ∈ users -> UserUpdate_email user_data = Some (UserRow_email u) ->
                 UserRow_id u = UserRow_id current_user) ->
      exists users',
        update_current_user user_data current_user users
        = (inr (UserRepository.set_attrs user_data current_user), users')
        /\ UserRepository.set_attrs user_data current_user ∈ users'
        /\ (forall u, UserRow_id u <> UserRow_id current_user ->
                      u ∈ users' <-> u ∈ users)
        /\ unique_accounts users').
Proof.
  intros [Hids Hmails] Hin Hnonempty. unfold update_current_user. split.
  - intros (u & Hu & Hmail & Hother). rewrite Hmail.
    destruct (decide (UserRow_email u = EmptyString)) as [Hempty|_];
      [by rewrite Hmail, Hempty in Hnonempty|].
    destruct (UserRepository.get_by_email _ users) as [existing|] eqn:Hget.
    + apply first_row_passes in Hget as [Hsame Hex].
      rewrite (unique_column_row UserRow_email users existing u Hmails Hex Hu Hsame).
      by rewrite bool_decide_eq_true_2.
    + pose proof (proj1 (no_first_row _ _) Hget) as Hnone.
      by destruct (Hnone u Hu).
  - intros Hown.
    assert (Htaken :
      match UserUpdate_email user_data with
      | Some email =>
          if decide (email = EmptyString) then false
          else
            match UserRepository.get_by_email email users with
            | Some existing_user =>
                bool_decide (UserRow_id existing_user <> UserRow_id current_user)
            | None => false
            end
      | None => false
      end = false).
    { destruct (UserUpdate_email user_data) as [email|] eqn:Hmail; [|done].
      destruct (decide (email = EmptyString)); [done|].
      destruct (UserRepository.get_by_email email users) as [existing|] eqn:Hget;
        [|done].
      apply first_row_passes in Hget as [Hsame Hex].
      apply bool_decide_eq_false_2. intros Hne. apply Hne.
      apply Hown; [done|]. by rewrite Hsame. }
    rewrite Htaken. eexists. split; [reflexivity|].
    split; [|split; [|split]].
    + apply list_elem_of_fmap. exists current_user. split; [|done].
      by rewrite decide_True.
    + intros u Hu. split.
      * intros Hu'. apply list_elem_of_fmap in Hu' as (r & -> & Hr).
        destruct (decide (UserRow_id r = UserRow_id current_user)) as [Hrc|_];
          [|done].
        by destruct Hu.
      * intros Hu'. apply list_elem_of_fmap. exists u. split; [|done].
        by rewrite decide_False.
    + pose proof (user_update_ids current_user user_data users) as Hsame_ids.
      unfold UserRepository.update in Hsame_ids. cbn [snd] in Hsame_ids.
      by rewrite Hsame_ids.
    + rewrite <- list_fmap_compose.
      destruct (UserUpdate_email user_data) as [email|] eqn:Hmail.
      * rewrite (list_fmap_ext _
          (fun r => if decide (UserRow_id r = UserRow_id current_user)
                    then email else UserRow_email r) users).
        -- apply unique_column_after_assignment; [done|done|].
           intros r Hr Hre. apply Hown; [done|]. by rewrite Hre.
        -- intros i r _. cbn.
           destruct (decide (UserRow_id r = UserRow_id current_user)); [|done].
           cbn. by rewrite Hmail.
      * rewrite (list_fmap_ext _ UserRow_email users); [done|].
        intros i r _. cbn.
        destruct (decide (UserRow_id r = UserRow_id current_user)); [|done].
        cbn. by rewrite Hmail.
Qed.

Lemma update_current_user_keeps_emails_unique_witness :
  exists users',
    update_current_user (mkUserUpdate None (Some "robert@example.com"%string))
      (mkUserRow 11 "Bob" "bob@example.com" "h2" USER 0) sample_users
    = (inr (mkUserRow 11 "Bob" "robert@example.com" "h2" USER 0), users')
    /\ unique_accounts users'.
Proof.
  assert (Hunique : unique_accounts sample_users)
    by (apply (bool_decide_unpack _); vm_compute; reflexivity).
  assert (Hin : mkUserRow 11 "Bob" "bob@example.com" "h2" USER 0 ∈ sample_users).
  { unfold sample_users. apply elem_of_cons. right. apply elem_of_cons. by left. }
  assert (Hnonempty :
    UserUpdate_email (mkUserUpdate None (Some "robert@example.com"%string))
    <> Some EmptyString) by discriminate.
  destruct (proj2 (update_current_user_keeps_emails_unique
                     (mkUserUpdate None (Some "robert@example.com"%string))
                     (mkUserRow 11 "Bob" "bob@example.com" "h2" USER 0)
                     sample_users Hunique Hin Hnonempty))
    as (users' & Heq & _ & _ & Hunique').
  - intros u Hu Hmail. unfold sample_users in Hu.
    repeat (apply elem_of_cons in Hu as [->|Hu]); try discriminate Hmail.
    by apply elem_of_nil in Hu.
  - exists users'. split; [exact Heq|exact Hunique'].
Defined.
